(** * pybeamer / pyradium: renderers, renderer cache and deployed files

    A shallow embedding of
      - [pybeamer/renderer/ExecRenderer.py]
      - [rewrite/pybeamer/renderer/LatexFormulaRenderer.py]
      - [pybeamer/PresentationRenderer.py] (class [RenderedPresentation])
    together with the properties of these programs that the design document
    of the renderer cache states.

    Python values are a small inductive type, dictionaries that are only
    looked up are finite maps, dictionaries whose insertion order matters are
    association lists, raised exceptions are the [Raise] case of a result
    type, and everything that leaves the process (spawning a program, the
    digest functions, [str] of a value, the JSON codec) is a field of a
    record of primitives that the embedded functions take as an argument.
    The file system of a rendered presentation is a state that the embedded
    functions pass on; it says which file a path names and when the
    operating system refuses an access. *)

From Stdlib Require Import ZArith List String Ascii Strings.Byte Lia.
From stdpp Require Import base option list sorting gmap strings pretty.

Set Warnings "-register-all".

Local Open Scope string_scope.
Local Open Scope Z_scope.

(** ** Python values, exceptions and results *)

Module Py.

(** The values that requests, results and decoded JSON documents hold.
    A [str] is a [string]; a [bytes] object is a list of bytes; a [dict]
    with [str] keys is an association list in insertion order.  There is no
    [float]: the numbers the embedded code receives are pixel counts. *)
Inductive pyval : Type :=
| PNone
| PBool (b : bool)
| PInt (z : Z)
| PStr (s : string)
| PBytes (bs : list byte)
| PList (l : list pyval)
| PTuple (l : list pyval)
| PDict (d : list (string * pyval)).

(** The exceptions the embedded code raises or lets through.  The last two
    are classes of the design document's failure taxonomy: no source file
    defines or raises [InvalidInputError], and [RenderExecutionError] is
    what the renderer cache of the design document turns a renderer's
    failure into. *)
Inductive pyexn : Type :=
| KeyError (key : pyval)
| IndexError
| TypeError
| ValueError
| AttributeError
| AssertionError
| PermissionError (msg : string)
| FileNotFoundError (msg : string)
| IsADirectoryError (msg : string)
| NotADirectoryError (msg : string)
| OSError (msg : string)
| OverflowError
| CalledProcessError (cmd : list string) (returncode : Z)
| JSONDecodeError
| BinasciiError
| FailedToExecuteSubprocessException (msg : string)
| InvalidInputError (msg : string)
| RenderExecutionError (renderer_name keyhash : string) (cause : pyexn).

Inductive result (A : Type) : Type :=
| Ok (a : A)
| Raise (e : pyexn).
Arguments Ok {A} a.
Arguments Raise {A} e.

Definition bind {A B} (r : result A) (k : A → result B) : result B :=
  match r with
  | Ok a => k a
  | Raise e => Raise e
  end.

(** [d[k]] on a dictionary held as a finite map. *)
Definition getitem (d : gmap string pyval) (k : string) : result pyval :=
  match d !! k with
  | Some v => Ok v
  | None => Raise (KeyError (PStr k))
  end.

(** [d.get(k, default)]. *)
Definition get_default (d : gmap string pyval) (k : string) (dflt : pyval) : pyval :=
  default dflt (d !! k).

(** [d[k]] on a dictionary held as an association list. *)
Fixpoint assoc (k : string) (d : list (string * pyval)) : option pyval :=
  match d with
  | [] => None
  | (k', v) :: d' => if String.eqb k k' then Some v else assoc k d'
  end.

(** [v[k]] for a string subscript: only a [dict] has one. *)
Definition subscript_str (v : pyval) (k : string) : result pyval :=
  match v with
  | PDict d =>
      match assoc k d with
      | Some x => Ok x
      | None => Raise (KeyError (PStr k))
      end
  | PStr _ | PBytes _ | PList _ | PTuple _ => Raise TypeError
  | PNone | PBool _ | PInt _ => Raise TypeError
  end.

(** [v[0]]. *)
Definition subscript_0 (v : pyval) : result pyval :=
  match v with
  | PList (x :: _) | PTuple (x :: _) => Ok x
  | PList [] | PTuple [] => Raise IndexError
  | PStr (String c _) => Ok (PStr (String c EmptyString))
  | PStr EmptyString => Raise IndexError
  | PBytes (b :: _) => Ok (PInt (Z.of_N (Byte.to_N b)))
  | PBytes [] => Raise IndexError
  | PDict _ => Raise (KeyError (PInt 0))
  | PNone | PBool _ | PInt _ => Raise TypeError
  end.

(** Truth value of an object, as [if] tests it. *)
Definition truthy (v : pyval) : bool :=
  match v with
  | PNone => false
  | PBool b => b
  | PInt z => negb (z =? 0)
  | PStr s => negb (String.eqb s "")
  | PBytes bs => negb (Nat.eqb (length bs) 0)
  | PList l | PTuple l => negb (Nat.eqb (length l) 0)
  | PDict d => negb (Nat.eqb (length d) 0)
  end.

(** The integer an [int] or [bool] stands for in arithmetic. *)
Definition as_int (v : pyval) : option Z :=
  match v with
  | PInt z => Some z
  | PBool b => Some (if b then 1 else 0)
  | _ => None
  end.

(** [a + b]: numbers add, sequences of one kind concatenate. *)
Definition add (a b : pyval) : result pyval :=
  match as_int a, as_int b with
  | Some x, Some y => Ok (PInt (x + y))
  | _, _ =>
      match a, b with
      | PStr s, PStr t => Ok (PStr (s ++ t))
      | PBytes s, PBytes t => Ok (PBytes (s ++ t))
      | PList s, PList t => Ok (PList (s ++ t))
      | PTuple s, PTuple t => Ok (PTuple (s ++ t))
      | _, _ => Raise TypeError
      end
  end.

(** [n / d] rounded to the nearest integer, a tie going to the even one,
    for a positive [d]. *)
Definition round_div (n d : Z) : Z :=
  let q := n / d in
  let r := n mod d in
  if 2 * r <? d then q
  else if d <? 2 * r then q + 1
  else if Z.even q then q else q + 1.

(** The distance between neighbouring doubles around [n / 2], or 1 where
    that distance is smaller: a double has 53 significant bits. *)
Definition ulp_of_half (n : Z) : Z :=
  2 ^ Z.max 0 (Z.log2 (Z.abs n) - 53).

(** [round(n / 2)] for an integer [n]: true division gives the double
    nearest to [n / 2] (a tie goes to the even significand), and [round]
    rounds a double to the nearest integer (a tie goes to the even one).
    Below [2^54] the result is [n / 2] rounded half to even; from there on
    the quotient is first rounded to a multiple of the distance between
    doubles. *)
Definition round_half (n : Z) : Z :=
  let u := ulp_of_half n in round_div n (2 * u) * u.

(** The first power of two that is no double. *)
Definition float_limit : Z := 2 ^ 1024.

(** [round(v / 2)]: a quotient too large for a double is an
    [OverflowError]. *)
Definition round_truediv_2 (v : pyval) : result Z :=
  match as_int v with
  | Some n =>
      if float_limit <=? Z.abs (round_half n) then Raise OverflowError
      else Ok (round_half n)
  | None => Raise TypeError
  end.

(** [a - b] with an integer right operand. *)
Definition sub_int (a : pyval) (b : Z) : result pyval :=
  match as_int a with
  | Some x => Ok (PInt (x - b))
  | None => Raise TypeError
  end.

Global Instance result_ret : MRet result := λ A a, Ok a.
Global Instance result_bind : MBind result := λ A B k r, bind r k.

End Py.
Export Py.


(** ** The primitives outside the process *)

(** What [subprocess.run] does with a command: the program runs to its end,
    or starting it raises ([PermissionError] for a file without execute
    permission, [FileNotFoundError] for a missing one, and so on). *)
Inductive spawn_error : Type :=
| SpawnPermissionError (msg : string)
| SpawnFileNotFoundError (msg : string)
| SpawnOSError (msg : string)
| SpawnTypeError
| SpawnValueError
| SpawnIndexError.

Inductive run_outcome : Type :=
| Completed (returncode : Z) (stdout stderr : list byte)
| RunRaised (e : spawn_error).

(** The exception object of a failed start. *)
Definition exn_of_spawn_error (e : spawn_error) : pyexn :=
  match e with
  | SpawnPermissionError msg => PermissionError msg
  | SpawnFileNotFoundError msg => FileNotFoundError msg
  | SpawnOSError msg => OSError msg
  | SpawnTypeError => TypeError
  | SpawnValueError => ValueError
  | SpawnIndexError => IndexError
  end.

(** The interpreter's and the system's services the renderers call.
    [str_of] is [str()], [md5_hexdigest s] is
    [hashlib.md5(s.encode("utf-8")).hexdigest()], [digest] is the content
    hash of a byte sequence, [read_file] is the content of the file at a
    path, [subprocess_run] spawns a command (given as the list the
    caller passes) in the current state of the file system and waits for it,
    [mkdtemp prefix] creates a fresh temporary directory,
    [px_of_tenth_mm t dpi] is the double-precision [round((t/10 / 25.4) * dpi)],
    and [json_dumps] and [json_loads] are the [json] module. *)
Record Primitives : Type := {
  str_of : pyval → string;
  md5_hexdigest : string → string;
  digest : list byte → string;
  read_file : string → option (list byte);
  subprocess_run : pyval → run_outcome;
  mkdtemp : string → result string;
  px_of_tenth_mm : Z → Z → Z;
  json_dumps : pyval → result string;
  json_loads : string → result pyval;
}.

(** ** What the [json] module does to a value *)

Module Json.

(** [json.loads(json.dumps(v))] for a value that [json.dumps] accepts:
    JSON has arrays only, so a tuple is written as an array and read back
    as a list; [None], booleans, integers, strings, and the keys and the
    order of a dictionary come back as they were. *)
Fixpoint read_back (v : pyval) : pyval :=
  match v with
  | PTuple l => PList (map read_back l)
  | PList l => PList (map read_back l)
  | PDict d => PDict (map (λ kv, (fst kv, read_back (snd kv))) d)
  | _ => v
  end.

(** No tuple occurs in the value. *)
Fixpoint tuple_free (v : pyval) : bool :=
  match v with
  | PTuple _ => false
  | PList l => forallb tuple_free l
  | PDict d => forallb (λ kv, tuple_free (snd kv)) d
  | _ => true
  end.

(** The [json] module of the primitives reads back the text it wrote for
    [doc] as Python's does. *)
Definition reads_back (P : Primitives) (doc : pyval) : Prop :=
  ∀ text, json_dumps P doc = Ok text → json_loads P text = Ok (read_back doc).

End Json.

(** ** [pybeamer.Tools.HashTools] *)

Module HashTools.

(** Modelled from the spec: [HashTools.hash_file] lives in
    [pybeamer/Tools.py], which is not among the sources.  The design
    document calls it the content hash primitive, a "stable digest of a
    byte sequence or file": the digest of the bytes of the file at the
    path, and an error when there is no such file or the argument is not a
    path. *)
Definition hash_file (P : Primitives) (filename : pyval) : result string :=
  match filename with
  | PStr path =>
      match read_file P path with
      | Some content => Ok (digest P content)
      | None => Raise (FileNotFoundError path)
      end
  | _ => Raise TypeError
  end.

End HashTools.

(** ** [pybeamer/renderer/ExecRenderer.py] *)

Module ExecRenderer.

Definition name : string := "exec".

Definition properties : gmap string pyval :=
  {[ "version" := PInt 1 ]}.

Definition rendering_key (P : Primitives) (property_dict : gmap string pyval)
  : result (gmap string pyval) :=
  cmd ← getitem property_dict "cmd";
  cmd0 ← subscript_0 cmd;
  srchash ← HashTools.hash_file P cmd0;
  Ok {[ "srchash" := PStr srchash ]}.

(** The two messages of [FailedToExecuteSubprocessException]. *)
Definition msg_not_started (P : Primitives) (cmd : pyval) (e : string) : string :=
  "Could not execute '" ++ str_of P cmd ++ "' (" ++ e ++ ").".

Definition msg_returncode (P : Primitives) (cmd : pyval) (returncode : Z) : string :=
  "Could not execute '" ++ str_of P cmd ++ "': returncode " ++ pretty returncode ++ ".".

Definition render (P : Primitives) (property_dict : gmap string pyval)
  : result (gmap string pyval) :=
  cmd ← getitem property_dict "cmd";
  match subprocess_run P cmd with
  | RunRaised (SpawnPermissionError e) =>
      Raise (FailedToExecuteSubprocessException (msg_not_started P cmd e))
  | RunRaised e => Raise (exn_of_spawn_error e)
  | Completed returncode stdout stderr =>
      if negb (returncode =? 0) then
        Raise (FailedToExecuteSubprocessException (msg_returncode P cmd returncode))
      else
        Ok (<[ "cmd" := cmd ]> (<[ "stdout" := PBytes stdout ]>
             {[ "stderr" := PBytes stderr ]}))
  end.

End ExecRenderer.

(** ** [base64.b64encode] and [base64.b64decode] *)

Module Base64.

Local Open Scope N_scope.

Definition alphabet : string :=
  "ABCDEFGHIJKLMNOPQRSTUVWXYZabcdefghijklmnopqrstuvwxyz0123456789+/".

Definition pad : ascii := "="%char.

(** The character of a 6-bit value. *)
Definition char_of (n : N) : ascii :=
  default pad (String.get (N.to_nat n) alphabet).

(** The 6-bit value of a character of the alphabet. *)
Definition sextet (c : ascii) : option N :=
  let n := N_of_ascii c in
  if (65 <=? n) && (n <=? 90) then Some (n - 65)
  else if (97 <=? n) && (n <=? 122) then Some (n - 71)
  else if (48 <=? n) && (n <=? 57) then Some (n + 4)
  else if n =? 43 then Some 62
  else if n =? 47 then Some 63
  else None.

Definition byte_of (n : N) : byte := default x00 (Byte.of_N (n mod 256)).

(** [base64.b64encode(bs).decode("ascii")]: three bytes make four
    characters, and a shorter last group is padded with [=]. *)
Fixpoint b64encode (bs : list byte) : string :=
  match bs with
  | [] => ""
  | [a] =>
      let a := Byte.to_N a in
      String (char_of (a / 4)) (String (char_of ((a mod 4) * 16))
        (String pad (String pad "")))
  | [a; b] =>
      let a := Byte.to_N a in
      let b := Byte.to_N b in
      String (char_of (a / 4)) (String (char_of ((a mod 4) * 16 + b / 16))
        (String (char_of ((b mod 16) * 4)) (String pad "")))
  | a :: b :: c :: rest =>
      let a := Byte.to_N a in
      let b := Byte.to_N b in
      let c := Byte.to_N c in
      String (char_of (a / 4)) (String (char_of ((a mod 4) * 16 + b / 16))
        (String (char_of ((b mod 16) * 4 + c / 64)) (String (char_of (c mod 64))
          (b64encode rest))))
  end.

(** [binascii.a2b_base64] in its default mode, as CPython 3.11 decodes:
    the characters are read one by one, [quad_pos] counts the characters of
    the current group of four, [leftchar] holds the bits that are not yet
    part of a byte, and [pads] counts the padding signs seen since the last
    character of the alphabet.  A character outside the alphabet is
    skipped; a padding sign is skipped unless it completes a group that has
    at least two characters, where decoding ends and the rest of the text is
    ignored; a text that ends within a group is an error. *)
Fixpoint a2b_base64_from (quad_pos : nat) (leftchar : N) (pads : nat)
    (cs : list ascii) : result (list byte) :=
  match cs with
  | [] => if Nat.eqb quad_pos 0 then Ok [] else Raise BinasciiError
  | c :: cs' =>
      if Ascii.eqb c pad then
        if Nat.leb 2 quad_pos then
          if Nat.leb 4 (quad_pos + S pads) then Ok []
          else a2b_base64_from quad_pos leftchar (S pads) cs'
        else a2b_base64_from quad_pos leftchar pads cs'
      else
        match sextet c with
        | None => a2b_base64_from quad_pos leftchar pads cs'
        | Some v =>
            match quad_pos with
            | 0%nat => a2b_base64_from 1 v 0 cs'
            | 1%nat =>
                tl ← a2b_base64_from 2 (v mod 16) 0 cs';
                Ok (byte_of (leftchar * 4 + v / 16) :: tl)
            | 2%nat =>
                tl ← a2b_base64_from 3 (v mod 4) 0 cs';
                Ok (byte_of (leftchar * 16 + v / 4) :: tl)
            | _ =>
                tl ← a2b_base64_from 0 0 0 cs';
                Ok (byte_of (leftchar * 64 + v) :: tl)
            end
        end
  end.

Definition a2b_base64 (cs : list ascii) : result (list byte) :=
  a2b_base64_from 0 0 0 cs.

(** [base64.b64decode(s)] for a [str]: a character outside ASCII is a
    [ValueError]; the ASCII text is decoded by [binascii.a2b_base64]. *)
Definition b64decode (s : string) : result (list byte) :=
  let cs := list_ascii_of_string s in
  if forallb (λ c, N_of_ascii c <? 128) cs
  then a2b_base64 cs
  else Raise ValueError.

(** [base64.b64decode(bs)] for a [bytes] object: there is no check, and a
    byte outside ASCII is skipped like any other that is not in the
    alphabet. *)
Definition b64decode_bytes (bs : list byte) : result (list byte) :=
  a2b_base64 (list_ascii_of_string (string_of_list_byte bs)).

(** The characters of an encoded text, and a character of the alphabet
    with its value. *)
Definition chars (bs : list byte) : list ascii :=
  list_ascii_of_string (b64encode bs).

Definition letter (c : ascii) (n : N) : Prop :=
  sextet c = Some n ∧ Ascii.eqb c pad = false ∧ (N_of_ascii c <? 128) = true.

End Base64.

(** ** [rewrite/pybeamer/renderer/LatexFormulaRenderer.py] *)

(** Files by path: what [open(filename, "w")] writes and [open(filename)]
    reads.  Two paths may name one file ([a.json] and [./a.json], a link):
    [named] gives the name under which the file system knows the file of a
    path, and what the file holds is kept under that name.  A call that
    writes is described as it goes when the operating system lets it open
    the file: what is proved of [write_jsonfile] is proved of the calls that
    return. *)
Record filetable (A : Type) : Type := {
  named : string → string;
  held : gmap string A;
}.
Arguments named {A} _ _.
Arguments held {A} _.

(** [fs !! path]: what the file that [path] names holds. *)
Global Instance filetable_lookup {A} : Lookup string A (filetable A) :=
  λ path fs, held fs !! named fs path.

(** No files, and one file, where every path names a file of its own. *)
Global Instance filetable_empty {A} : Empty (filetable A) :=
  {| named := λ path, path; held := ∅ |}.

Global Instance filetable_singleton {A} : SingletonM string A (filetable A) :=
  λ path a, {| named := λ path, path; held := {[ path := a ]} |}.

(** The file that [path] names holds [a]. *)
Definition put {A} (fs : filetable A) (path : string) (a : A) : filetable A :=
  {| named := named fs; held := <[ named fs path := a ]> (held fs) |}.

Abbreviation textfiles := (filetable string).

Module RenderedLatexFormula.

Record t : Type := mk {
  _formula : pyval;
  _png_data : pyval;
  _image_info : pyval;
  _rendering_parameters : pyval;
}.

(** Insertion of one item into a list of items in ascending key order.
    The keys of a [dict] are distinct, so the order of two of its
    [(key, value)] tuples is the order of their keys. *)
Fixpoint insert_item (x : string * pyval) (l : list (string * pyval))
  : list (string * pyval) :=
  match l with
  | [] => [x]
  | y :: l' =>
      if String.ltb (fst y) (fst x) then y :: insert_item x l' else x :: y :: l'
  end.

(** [sorted(d.items())]. *)
Definition sorted (items : list (string * pyval)) : list (string * pyval) :=
  foldr insert_item [] items.

Definition item_tuple (kv : string * pyval) : pyval :=
  PTuple [PStr (fst kv); snd kv].

Definition calculate_cachekey (P : Primitives) (formula rendering_parameters : pyval)
  : result string :=
  match formula with
  | PStr f =>
      match rendering_parameters with
      | PDict items =>
          let input_data :=
            f ++ " || " ++ str_of P (PList (item_tuple <$> sorted items)) in
          Ok (md5_hexdigest P input_data)
      | _ => Raise AttributeError
      end
  | _ => Raise TypeError
  end.

Definition cachekey (P : Primitives) (self : t) : result string :=
  calculate_cachekey P (_formula self) (_rendering_parameters self).

Definition width (self : t) : result pyval := subscript_str (_image_info self) "width".
Definition height (self : t) : result pyval := subscript_str (_image_info self) "height".
Definition baseline (self : t) : result pyval := subscript_str (_image_info self) "baseline".

(** [v == "formula"]. *)
Definition eq_str (v : pyval) (s : string) : bool :=
  match v with
  | PStr s' => String.eqb s' s
  | _ => false
  end.

(** [base64.b64decode(v)] on a decoded JSON value. *)
Definition b64decode_val (v : pyval) : result pyval :=
  match v with
  | PStr s => bs ← Base64.b64decode s; Ok (PBytes bs)
  | PBytes bs => bs' ← Base64.b64decode_bytes bs; Ok (PBytes bs')
  | _ => Raise TypeError
  end.

Definition read_jsonfile (P : Primitives) (filename : string) (fs : textfiles)
  : result t :=
  match fs !! filename with
  | None => Raise (FileNotFoundError filename)
  | Some text =>
      json_data ← json_loads P text;
      object ← subscript_str json_data "object";
      if eq_str object "formula" then
        formula ← subscript_str json_data "formula";
        image ← subscript_str json_data "image";
        png_data ← b64decode_val image;
        image_info ← subscript_str json_data "image_info";
        rendering_parameters ← subscript_str json_data "rendering_parameters";
        Ok (mk formula png_data image_info rendering_parameters)
      else Raise AssertionError
  end.

(** The dictionary that [write_jsonfile] hands to [json.dump]. *)
Definition json_data (self : t) : result pyval :=
  match _png_data self with
  | PBytes bs =>
      Ok (PDict [ ("object", PStr "formula");
                  ("formula", _formula self);
                  ("rendering_parameters", _rendering_parameters self);
                  ("image_info", _image_info self);
                  ("image", PStr (Base64.b64encode bs)) ])
  | _ => Raise TypeError
  end.

(** When [json.dump] raises, the file has been opened and holds what was
    written up to then; that state is not described. *)
Definition write_jsonfile (P : Primitives) (self : t) (filename : string)
    (fs : textfiles) : result textfiles :=
  data ← json_data self;
  text ← json_dumps P data;
  Ok (put fs filename text).

Definition write_png (self : t) (filename : string) (fs : filetable (list byte))
  : result (filetable (list byte)) :=
  match _png_data self with
  | PBytes bs => Ok (put fs filename bs)
  | _ => Raise TypeError
  end.

(** The order of [sorted]: by key. *)
Definition key_le (x y : string * pyval) : Prop := String.le x.1 y.1.

End RenderedLatexFormula.

Module LatexFormulaRenderer.

(** The renderer object: its only attribute is the resolution. *)
Record t : Type := mk { _rendering_dpi : Z }.

Definition __init__ (rendering_dpi : Z) : t := mk rendering_dpi.

(** [LatexFormulaRenderer()]: the resolution defaults to 600. *)
Definition default : t := __init__ 600.

Definition name : string := "latex".

Definition properties (self : t) : gmap string pyval :=
  <[ "version" := PInt 1 ]> {[ "rendering_dpi" := PInt (_rendering_dpi self) ]}.

(** [subprocess.check_output(cmd)] and [subprocess.check_call(cmd)]. *)
Definition check_output (P : Primitives) (cmd : list string) : result (list byte) :=
  match subprocess_run P (PList (PStr <$> cmd)) with
  | Completed returncode stdout _ =>
      if returncode =? 0 then Ok stdout else Raise (CalledProcessError cmd returncode)
  | RunRaised e => Raise (exn_of_spawn_error e)
  end.

Definition check_call (P : Primitives) (cmd : list string) : result unit :=
  _ ← check_output P cmd; Ok tt.

(** The arithmetic of [_get_image_info] on the decoded report of the
    trimmed strip. *)
Definition image_info_of (crop_info : pyval) : result pyval :=
  page ← (e ← subscript_0 crop_info; i ← subscript_str e "image";
          subscript_str i "pageGeometry");
  image_width ← subscript_str page "width";
  image_height ← subscript_str page "height";
  upper_baseline_y_from_top ← subscript_str page "y";
  geometry_height ← (e ← subscript_0 crop_info; i ← subscript_str e "image";
                     g ← subscript_str i "geometry"; subscript_str g "height");
  lower_baseline_y_from_top ← add upper_baseline_y_from_top geometry_height;
  total ← add upper_baseline_y_from_top lower_baseline_y_from_top;
  baseline_y_from_top ← round_truediv_2 total;
  baseline_y_from_bottom ← sub_int image_height baseline_y_from_top;
  Ok (PDict [ ("width", image_width);
              ("height", image_height);
              ("baseline", baseline_y_from_bottom) ]).

Definition _get_image_info (P : Primitives) (png_filename : string) (xoffset : Z)
  : result pyval :=
  out ← check_output P
    [ "convert"; png_filename ++ "[2x+" ++ pretty xoffset ++ "+0]"; "-trim"; "json:-" ];
  crop_info ← json_loads P (string_of_list_byte out);
  image_info_of crop_info.

Definition baseline_rule : string := "\rule{1mm}{1pt} \hspace{2mm}".

(** [render]: the temporary directory is removed when the block is left,
    on every path; the [.tex] file written into it and the two progress
    lines printed are not part of the result. *)
Definition render (P : Primitives) (self : t) (property_dict : gmap string pyval)
  : result (gmap string pyval) :=
  tex_dir ← mkdtemp P "pybeamer_formula_";
  let tex_filename := tex_dir ++ "/formula.tex" in
  let pdf_filename := tex_dir ++ "/formula.pdf" in
  let png_filename := tex_dir ++ "/formula.png" in
  let left_crop_pixel_safe := px_of_tenth_mm P 20 (_rendering_dpi self) in
  let eval_baseline_at_x := px_of_tenth_mm P 5 (_rendering_dpi self) in
  content ← (if truthy (get_default property_dict "short" (PBool false))
             then
               formula ← getitem property_dict "formula";
               tail ← add (PStr ("$" ++ baseline_rule)) formula;
               add tail (PStr "$")
             else
               formula ← getitem property_dict "formula";
               tail ← add (PStr ("\[" ++ baseline_rule)) formula;
               add tail (PStr " \]"));
  _ ← check_call P [ "pdflatex"; "-output-directory=" ++ tex_dir; tex_filename ];
  _ ← check_call P [ "convert"; "-define"; "profile:skip=ICC"; "-density";
                     pretty (_rendering_dpi self); "-trim"; "+repage";
                     pdf_filename; png_filename ];
  image_info ← _get_image_info P png_filename eval_baseline_at_x;
  png_data ← check_output P [ "convert"; "-crop";
                              "+" ++ pretty left_crop_pixel_safe ++ "+0";
                              "-trim"; "+repage"; png_filename; "png:-" ];
  Ok (<[ "png_data" := PBytes png_data ]> {[ "info" := image_info ]}).

End LatexFormulaRenderer.

(** ** [pybeamer/RendererCache.py] *)

Module BaseRenderer.

(** Modelled from the spec: [BaseRenderer] lives in
    [pybeamer/RendererCache.py], which is not among the sources.  The
    design document, 4.1: "[rendering_key(request) -> mapping] [...]
    default behavior (if unspecified) is to use the entire request". *)
Definition rendering_key (property_dict : gmap string pyval)
  : result (gmap string pyval) :=
  Ok property_dict.

End BaseRenderer.

Module RendererCache.

(** A renderer capability (design document, 4.1).  The work of [render]
    happens outside the process, so its outcome may differ from one
    invocation to the next: [render_fn n request] is the outcome of the
    invocation that [n] invocations preceded. *)
Record renderer : Type := {
  name : string;
  properties : gmap string pyval;
  rendering_key : gmap string pyval → result (gmap string pyval);
  render_fn : nat → gmap string pyval → result (gmap string pyval);
}.

(** The persisted entry format: the canonical serialization of the key
    material (a function of finite maps, hence blind to the order in which
    a mapping was filled), and the encoding of a result as an entry. *)
Record format : Type := {
  canonical : string → gmap string pyval → gmap string pyval → list byte;
  serialize : gmap string pyval → list byte;
  deserialize : list byte → option (gmap string pyval);
}.

Record artifact : Type := {
  keyhash : string;
  data : gmap string pyval;
}.

(** The cache: the store of entries by key, whether the store accepts a
    new entry, and how often the wrapped renderer has been invoked. *)
Record state : Type := {
  entries : gmap string (list byte);
  writable : bool;
  invocations : nat;
}.

(** Modelled from the spec: steps 1 and 2 of 4.2, the digest of the
    canonical serialization of [{name, properties, rendering_key(request)}]. *)
Definition cachekey (F : format) (P : Primitives) (r : renderer)
    (request : gmap string pyval) : result string :=
  key ← rendering_key r request;
  Ok (digest P (canonical F (name r) (properties r) key)).

(** Step 6 of 4.2 with the outcome of 7: an entry is published whole or
    not at all, and a store that refuses it leaves the call unharmed. *)
Definition publish (F : format) (k : string) (d : gmap string pyval) (st : state)
  : state :=
  if writable st
  then {| entries := <[ k := serialize F d ]> (entries st);
          writable := writable st;
          invocations := invocations st |}
  else st.

Definition invoked (st : state) : state :=
  {| entries := entries st;
     writable := writable st;
     invocations := S (invocations st) |}.

(** Modelled from the spec: [RendererCache.render] is in
    [pybeamer/RendererCache.py], which is not among the sources; this is
    4.2 of the design document step by step.  An entry that is present and
    deserializes is returned without invoking the renderer (4); an entry
    that does not deserialize counts as a miss (7, [StoreReadError]); on a
    miss the renderer is invoked, its exception is passed on as
    [RenderExecutionError] with the renderer's name and the key and
    nothing is written (5); its result is published (6) and returned
    whether or not the store took it (7).  The document does not say what
    happens when [rendering_key] itself raises: no key exists then, so
    nothing is looked up or written and the exception is passed on. *)
Definition render (F : format) (P : Primitives) (r : renderer)
    (request : gmap string pyval) (st : state) : result artifact * state :=
  match cachekey F P r request with
  | Raise e => (Raise e, st)
  | Ok k =>
      match entries st !! k ≫= deserialize F with
      | Some d => (Ok {| keyhash := k; data := d |}, st)
      | None =>
          match render_fn r (invocations st) request with
          | Raise e => (Raise (RenderExecutionError (name r) k e), invoked st)
          | Ok d => (Ok {| keyhash := k; data := d |}, publish F k d (invoked st))
          end
      end
  end.

(** The two renderers of the sources as capabilities. *)
Definition exec (P : Primitives) : renderer :=
  {| name := ExecRenderer.name;
     properties := ExecRenderer.properties;
     rendering_key := ExecRenderer.rendering_key P;
     render_fn := λ _, ExecRenderer.render P |}.

Definition latex (P : Primitives) (self : LatexFormulaRenderer.t) : renderer :=
  {| name := LatexFormulaRenderer.name;
     properties := LatexFormulaRenderer.properties self;
     rendering_key := BaseRenderer.rendering_key;
     render_fn := λ _, LatexFormulaRenderer.render P self |}.

End RendererCache.

(** ** [pybeamer/PresentationRenderer.py]: class [RenderedPresentation] *)

Module RenderedPresentation.

(** What a file holds: text written through a file opened with ["w"], or
    bytes written through one opened with ["wb"]. *)
Inductive filedata : Type :=
| Text (s : string)
| Binary (bs : list byte).

(** The regular files.  Two paths may name one file ([index.html] and
    [./index.html], a link): [resolve] gives the name under which the file
    system knows the file of a path, and the content of a file is kept under
    that name. *)
Record filesystem : Type := {
  resolve : string → string;
  regular : gmap string filedata;
}.

(** [fs !! path]: the content of the regular file that [path] names. *)
Global Instance filesystem_lookup : Lookup string filedata filesystem :=
  λ path fs, regular fs !! resolve fs path.

(** The file that [path] names holds [content]. *)
Definition store (fs : filesystem) (path : string) (content : filedata) : filesystem :=
  {| resolve := resolve fs;
     regular := <[ resolve fs path := content ]> (regular fs) |}.

(** What the code asks of the operating system, and the errors with which
    the operating system refuses. *)
Inductive access : Type :=
| Makedirs (dirname : string)
| OpenForWriting (filename : string)
| WriteTo (filename : string)
| OpenForReading (filename : string).

Inductive os_error : Type :=
| OsIsADirectoryError (msg : string)
| OsNotADirectoryError (msg : string)
| OsPermissionError (msg : string)
| OsFileNotFoundError (msg : string)
| OsError (msg : string).

Definition exn_of_os_error (e : os_error) : pyexn :=
  match e with
  | OsIsADirectoryError msg => IsADirectoryError msg
  | OsNotADirectoryError msg => NotADirectoryError msg
  | OsPermissionError msg => PermissionError msg
  | OsFileNotFoundError msg => FileNotFoundError msg
  | OsError msg => OSError msg
  end.

(** The file system under and around the deploy directory: the regular
    files, the directories that [os.makedirs] was asked for, the log of the
    paths that were opened for writing, latest first, and when the operating
    system refuses.  [refuses fs ds a] is the error that access [a] raises
    when the files are [fs] and the directories [ds]: the path is a
    directory or lies below a file, a permission is missing, the disk is
    full, and so on.  The [FileExistsError] of [os.makedirs] is not among the
    errors: [add_file] suppresses it.  [torn content] is what a file holds
    of the content when writing it failed: a part of it, or nothing. *)
Record world : Type := {
  files : filesystem;
  dirs : gset string;
  opened : list string;
  refuses : filesystem → gset string → access → option os_error;
  torn : filedata → filedata;
}.

(** The exception of an access, if the operating system refuses it. *)
Definition refused (w : world) (a : access) : option pyexn :=
  exn_of_os_error <$> refuses w (files w) (dirs w) a.

(** The attributes of a [RenderedPresentation] that [add_file] and
    [copy_file] use. *)
Record t : Type := {
  _deploy_directory : string;
  _added_files : gset string;
}.

Definition __init__ (deploy_directory : string) : t :=
  {| _deploy_directory := deploy_directory; _added_files := ∅ |}.

Fixpoint drop_while (f : ascii → bool) (l : list ascii) : list ascii :=
  match l with
  | [] => []
  | c :: l' => if f c then drop_while f l' else l
  end.

Definition is_slash (c : ascii) : bool := Ascii.eqb c "/".

(** [os.path.dirname]: the path up to its last slash, with the slashes at
    the end of that removed unless it consists of slashes only. *)
Definition dirname (p : string) : string :=
  let head := drop_while (λ c, negb (is_slash c)) (reverse (list_ascii_of_string p)) in
  let head := if forallb is_slash head then head else drop_while is_slash head in
  string_of_list_ascii (reverse head).

(** [with contextlib.suppress(FileExistsError): os.makedirs(dirname)], when
    the operating system does not refuse. *)
Definition makedirs (w : world) (d : string) : world :=
  {| files := files w;
     dirs := {[ d ]} ∪ dirs w;
     opened := opened w;
     refuses := refuses w;
     torn := torn w |}.

(** The file was opened by [open(filename, mode)] and holds [content] when
    it is closed. *)
Definition write (w : world) (filename : string) (content : filedata) : world :=
  {| files := store (files w) filename content;
     dirs := dirs w;
     opened := filename :: opened w;
     refuses := refuses w;
     torn := torn w |}.

Definition added (self : t) (destination_relpath : string) : t :=
  {| _deploy_directory := _deploy_directory self;
     _added_files := {[ destination_relpath ]} ∪ _added_files self |}.

(** [with open(filename, mode) as f: f.write(content)] on a file that
    the operating system lets open.  Content that is neither a string nor
    bytes makes [f.write] raise [TypeError] before anything is written, and
    the file is empty. *)
Definition write_content (w : world) (filename : string) (content : pyval)
  : result unit * world :=
  let written (data : filedata) :=
    match refused w (WriteTo filename) with
    | Some e => (Raise e, write w filename (torn w data))
    | None => (Ok tt, write w filename data)
    end in
  match content with
  | PStr s => written (Text s)
  | PBytes bs => written (Binary bs)
  | _ => (Raise TypeError, write w filename (Binary []))
  end.

(** [add_file].  The destination is recorded before the file system is
    touched, so it stays recorded when [os.makedirs], [open] or [f.write]
    raises. *)
Definition add_file (self : t) (w : world) (destination_relpath : string)
    (content : pyval) : result unit * t * world :=
  if decide (destination_relpath ∈ _added_files self) then (Ok tt, self, w)
  else
    let self := added self destination_relpath in
    let filename := _deploy_directory self ++ "/" ++ destination_relpath in
    match refused w (Makedirs (dirname filename)) with
    | Some e => (Raise e, self, w)
    | None =>
        let w := makedirs w (dirname filename) in
        match refused w (OpenForWriting filename) with
        | Some e => (Raise e, self, w)
        | None =>
            let '(r, w) := write_content w filename content in (r, self, w)
        end
    end.

(** [open(source_filename, "rb").read()]. *)
Definition read_bytes (w : world) (filename : string) : result (list byte) :=
  match refused w (OpenForReading filename) with
  | Some e => Raise e
  | None =>
      match files w !! filename with
      | Some (Text s) => Ok (list_byte_of_string s)
      | Some (Binary bs) => Ok bs
      | None => Raise (FileNotFoundError filename)
      end
  end.

Definition copy_file (self : t) (w : world) (source_filename destination_relpath : string)
  : result unit * t * world :=
  if decide (destination_relpath ∈ _added_files self) then (Ok tt, self, w)
  else
    match read_bytes w source_filename with
    | Ok bs => add_file self w destination_relpath (PBytes bs)
    | Raise e => (Raise e, self, w)
    end.

(** A caller's calls, and the presentation and the world after a sequence
    of them (a caller that catches an exception goes on with the next). *)
Inductive call : Type :=
| AddFile (destination_relpath : string) (content : pyval)
| CopyFile (source_filename destination_relpath : string).

Definition destination (c : call) : string :=
  match c with
  | AddFile d _ => d
  | CopyFile _ d => d
  end.

Definition step (sw : t * world) (c : call) : t * world :=
  match c with
  | AddFile d content =>
      let '(_, self, w) := add_file sw.1 sw.2 d content in (self, w)
  | CopyFile src d =>
      let '(_, self, w) := copy_file sw.1 sw.2 src d in (self, w)
  end.

Definition run (sw : t * world) (calls : list call) : t * world :=
  foldl step sw calls.

(** The path of a destination below the deploy directory. *)
Definition deployed (self : t) (destination_relpath : string) : string :=
  _deploy_directory self ++ "/" ++ destination_relpath.

(** What calls leave in place: the deploy directory and the added
    paths. *)
Definition extends (sw sw' : t * world) : Prop :=
  _deploy_directory sw'.1 = _deploy_directory sw.1
  ∧ _added_files sw.1 ⊆ _added_files sw'.1.

(** The operating system lets [add_file] create the directory of a
    destination and open its file, and it lets it write the file too. *)
Definition lets_open (self : t) (w : world) (destination_relpath : string) : Prop :=
  refused w (Makedirs (dirname (deployed self destination_relpath))) = None
  ∧ refused (makedirs w (dirname (deployed self destination_relpath)))
      (OpenForWriting (deployed self destination_relpath)) = None.

Definition lets_write (self : t) (w : world) (destination_relpath : string) : Prop :=
  lets_open self w destination_relpath
  ∧ refused (makedirs w (dirname (deployed self destination_relpath)))
      (WriteTo (deployed self destination_relpath)) = None.

(** Two paths name the same file. *)
Definition same_file (w : world) (path path' : string) : Prop :=
  resolve (files w) path = resolve (files w) path'.

(** The calls are for the destination itself, or for destinations whose
    files are other files than that of the destination. *)
Definition spare (self : t) (w : world) (destination_relpath : string)
    (calls : list call) : Prop :=
  Forall (λ c, destination c = destination_relpath
               ∨ ¬ same_file w (deployed self (destination c))
                     (deployed self destination_relpath)) calls.

End RenderedPresentation.

(** ** The design document's wording, and concrete primitives *)

Module Spec.

(** A message includes a text. *)
Definition includes (message part : string) : Prop :=
  ∃ pre post, message = pre ++ part ++ post.

(** Starting the command failed: there is no process and no exit code. *)
Definition cannot_start (o : run_outcome) : Prop :=
  ∃ e, o = RunRaised e.

Definition exit_code (o : run_outcome) : option Z :=
  match o with
  | Completed returncode _ _ => Some returncode
  | RunRaised _ => None
  end.

(** The rendering key of the formula renderer as 4.3 of the design
    document words it: the formula text, the inline-versus-block flag and
    the rendering resolution. *)
Definition formula_rendering_key (self : LatexFormulaRenderer.t)
    (request : gmap string pyval) : option (gmap string pyval) :=
  formula ← request !! "formula";
  Some (<[ "formula" := formula ]>
        (<[ "short" := get_default request "short" (PBool false) ]>
         {[ "rendering_dpi" := PInt (LatexFormulaRenderer._rendering_dpi self) ]})).

(** [m] is [n / 2] rounded to the nearest integer, a tie going to the even
    one. *)
Definition rounded_half (n m : Z) : Prop :=
  Z.abs (2 * m - n) ≤ 1 ∧ (2 * m ≠ n → Z.even m = true).

(** The failure contract of the exec renderer as 4.5 of the design document
    words it: the failure is raised exactly when the executable cannot be
    started or exits non-zero, and its message includes the command and the
    exit code. *)
Definition exec_failure_contract (P : Primitives) (request : gmap string pyval) : Prop :=
  ∀ cmd, request !! "cmd" = Some cmd →
    ((cannot_start (subprocess_run P cmd)
      ∨ ∃ returncode, exit_code (subprocess_run P cmd) = Some returncode ∧ returncode ≠ 0)
     ↔ ∃ msg, ExecRenderer.render P request = Raise (FailedToExecuteSubprocessException msg))
    ∧ (∀ msg, ExecRenderer.render P request = Raise (FailedToExecuteSubprocessException msg) →
         includes msg (str_of P cmd)
         ∧ ∃ returncode, exit_code (subprocess_run P cmd) = Some returncode
                         ∧ includes msg (pretty returncode)).

(** The report of the trimmed strip says: the page is [W] wide and [H]
    high, and the strip starts [y] below the top and is [h] high. *)
Definition strip_report (crop_info : pyval) (W H y h : Z) : Prop :=
  ∃ first rest image page geometry,
    crop_info = PList (PDict first :: rest)
    ∧ assoc "image" first = Some (PDict image)
    ∧ assoc "pageGeometry" image = Some (PDict page)
    ∧ assoc "geometry" image = Some (PDict geometry)
    ∧ assoc "width" page = Some (PInt W)
    ∧ assoc "height" page = Some (PInt H)
    ∧ assoc "y" page = Some (PInt y)
    ∧ assoc "height" geometry = Some (PInt h).

(** The input contract of 4.1 and 7 of the design document: a request
    without its required field makes [render] fail with
    [InvalidInputError]. *)
Definition invalid_input_contract (P : Primitives) : Prop :=
  (∀ request, request !! "cmd" = None →
     ∃ msg, ExecRenderer.render P request = Raise (InvalidInputError msg))
  ∧ (∀ self request, request !! "formula" = None →
       ∃ msg, LatexFormulaRenderer.render P self request = Raise (InvalidInputError msg)).

(** The cache contract of 8 of the design document: of two successive
    calls with the same renderer and request, both return the same data, and
    the second does not invoke the wrapped renderer. *)
Definition repeat_contract (F : RendererCache.format) (P : Primitives)
    (r : RendererCache.renderer) (request : gmap string pyval)
    (st : RendererCache.state) : Prop :=
  ∃ a1 st1 a2 st2,
    RendererCache.render F P r request st = (Ok a1, st1)
    ∧ RendererCache.render F P r request st1 = (Ok a2, st2)
    ∧ RendererCache.data a2 = RendererCache.data a1
    ∧ RendererCache.invocations st2 = RendererCache.invocations st1.

(** The round trip of a rendered formula, for every rendered formula as 6
    of the design document asks it of the persisted format: what was written
    with [write_jsonfile] is read back by [read_jsonfile] as it was, PNG
    bytes, formula, rendering parameters and image information. *)
Definition jsonfile_contract (P : Primitives) (self : RenderedLatexFormula.t)
    (filename : string) (fs : textfiles) : Prop :=
  ∀ fs', RenderedLatexFormula.write_jsonfile P self filename fs = Ok fs' →
         RenderedLatexFormula.read_jsonfile P filename fs' = Ok self.

End Spec.

Module Examples.

Definition join (parts : list string) : string :=
  match parts with
  | [] => ""
  | p :: ps => foldl (λ acc q, acc ++ ", " ++ q) p ps
  end.

(** [str()] of the values whose strings need no escaping. *)
Fixpoint repr (v : pyval) : string :=
  match v with
  | PNone => "None"
  | PBool true => "True"
  | PBool false => "False"
  | PInt z => pretty z
  | PStr s => "'" ++ s ++ "'"
  | PBytes bs => "b'" ++ string_of_list_byte bs ++ "'"
  | PList l => "[" ++ join (map repr l) ++ "]"
  | PTuple [x] => "(" ++ repr x ++ ",)"
  | PTuple l => "(" ++ join (map repr l) ++ ")"
  | PDict d => "{" ++ join (map (λ kv, "'" ++ fst kv ++ "': " ++ repr (snd kv)) d) ++ "}"
  end.

(** A [json] module that knows one document and its text, and reads the
    text back as Python's does. *)
Definition dumps_one (text : string) (doc : pyval) (v : pyval) : result string :=
  if String.eqb (repr v) (repr doc) then Ok text else Raise TypeError.

Definition loads_one (text : string) (doc : pyval) (s : string) : result pyval :=
  if String.eqb s text then Ok doc else Raise JSONDecodeError.

(** Primitives over a table of files and a table of commands; the digests
    are the identity on the text they are given. *)
Definition primitives (files : list (string * list byte))
    (commands : list (pyval * run_outcome)) (text : string) (doc : pyval)
  : Primitives :=
  {| str_of := repr;
     md5_hexdigest := λ s, s;
     digest := string_of_list_byte;
     read_file := λ path, snd <$> find (λ f, String.eqb (fst f) path) files;
     subprocess_run := λ cmd,
       match find (λ c, String.eqb (repr (fst c)) (repr cmd)) commands with
       | Some c => snd c
       | None => RunRaised (SpawnFileNotFoundError (repr cmd))
       end;
     mkdtemp := λ prefix, Ok ("/tmp/" ++ prefix ++ "0");
     px_of_tenth_mm := λ t dpi, round_div (t * dpi) 254;
     json_dumps := dumps_one text doc;
     json_loads := loads_one text (Json.read_back doc) |}.

(** A renderer stub that counts in its result how often it has run. *)
Definition counting_stub : RendererCache.renderer :=
  {| RendererCache.name := "stub";
     RendererCache.properties := {[ "version" := PInt 1 ]};
     RendererCache.rendering_key := BaseRenderer.rendering_key;
     RendererCache.render_fn := λ n _, Ok {[ "run" := PInt (Z.of_nat n) ]} |}.

(** An entry format for results that hold one small number: the entry is
    that number as one byte. *)
Definition one_byte_format : RendererCache.format :=
  {| RendererCache.canonical := λ name props key,
       list_byte_of_string (name ++ repr (PDict (map_to_list props))
                                 ++ repr (PDict (map_to_list key)));
     RendererCache.serialize := λ d,
       match d !! "run" with
       | Some (PInt z) => [Base64.byte_of (Z.to_N z)]
       | _ => []
       end;
     RendererCache.deserialize := λ entry,
       match entry with
       | [b] => Some {[ "run" := PInt (Z.of_N (Byte.to_N b)) ]}
       | _ => None
       end |}.

(** Requests to the exec renderer. *)
Definition ls_l : gmap string pyval :=
  {[ "cmd" := PList [PStr "/bin/ls"; PStr "-l"; PStr "/"] ]}.
Definition ls_a : gmap string pyval :=
  {[ "cmd" := PList [PStr "/bin/ls"; PStr "-a"] ]}.
Definition run_true : gmap string pyval :=
  {[ "cmd" := PList [PStr "true"] ]}.
Definition run_false : gmap string pyval :=
  {[ "cmd" := PList [PStr "false"] ]}.
Definition run_passwd : gmap string pyval :=
  {[ "cmd" := PList [PStr "/etc/passwd"] ]}.
Definition run_missing : gmap string pyval :=
  {[ "cmd" := PList [PStr "/no/such/program"] ]}.

Definition denied : string := "[Errno 13] Permission denied: '/etc/passwd'".

(** A system with [/bin/ls], [true], [false] and a file without execute
    permission; any other command is not found. *)
Definition unix : Primitives :=
  primitives
    [ ("/bin/ls", ["127"; "E"; "L"; "F"]%byte) ]
    [ (PList [PStr "true"], Completed 0 [] []);
      (PList [PStr "false"], Completed 1 [] []);
      (PList [PStr "/etc/passwd"], RunRaised (SpawnPermissionError denied)) ]
    "" PNone.

(** A request to the formula renderer with a field of the caller's own. *)
Definition colored_formula : gmap string pyval :=
  <[ "formula" := PStr "x^2" ]> (<[ "short" := PBool true ]>
    {[ "color" := PStr "red" ]}).

(** The report of a strip 3 pixels high, 40 pixels below the top of a page
    of 120 by 64 pixels. *)
Definition strip_json : pyval :=
  PList [ PDict [ ("version", PStr "1.0");
                  ("image", PDict [
                     ("name", PStr "/tmp/pybeamer_formula_0/formula.png");
                     ("geometry", PDict [ ("width", PInt 2); ("height", PInt 3);
                                          ("x", PInt 0); ("y", PInt 0) ]);
                     ("pageGeometry", PDict [ ("width", PInt 120); ("height", PInt 64);
                                              ("x", PInt 12); ("y", PInt 40) ]) ]) ] ].

Definition strip_text : string := "[{...}]".

Definition imagemagick : Primitives :=
  primitives []
    [ (PList [ PStr "convert"; PStr "/tmp/pybeamer_formula_0/formula.png[2x+12+0]";
               PStr "-trim"; PStr "json:-" ],
       Completed 0 (list_byte_of_string strip_text) []) ]
    strip_text strip_json.

(** An empty store that takes entries. *)
Definition empty_store : RendererCache.state :=
  {| RendererCache.entries := ∅;
     RendererCache.writable := true;
     RendererCache.invocations := 0 |}.

(** A rendered formula, the text of its JSON document, and a [json] module
    that knows the two. *)
Definition x_squared : RenderedLatexFormula.t :=
  RenderedLatexFormula.mk (PStr "x^2") (PBytes ["137"; "P"; "N"; "G"; "013"; "010"]%byte)
    (PDict [ ("width", PInt 120); ("height", PInt 64); ("baseline", PInt 22) ])
    (PDict [ ("short", PBool true) ]).

Definition x_squared_doc : pyval :=
  PDict [ ("object", PStr "formula");
          ("formula", PStr "x^2");
          ("rendering_parameters", PDict [ ("short", PBool true) ]);
          ("image_info", PDict [ ("width", PInt 120); ("height", PInt 64);
                                 ("baseline", PInt 22) ]);
          ("image", PStr "iVBORw0K") ].

Definition x_squared_text : string :=
  "{object: formula, formula: x^2, rendering_parameters: {short: true}, image_info: {width: 120, height: 64, baseline: 22}, image: iVBORw0K}".

Definition json_x_squared : Primitives :=
  primitives [] [] x_squared_text x_squared_doc.

(** A rendered formula whose rendering parameters hold a tuple, the
    document that [write_jsonfile] makes of it, and a [json] module that
    knows the document. *)
Definition sized : RenderedLatexFormula.t :=
  RenderedLatexFormula.mk (PStr "x^2") (PBytes ["137"; "P"; "N"; "G"; "013"; "010"]%byte)
    (PDict [ ("width", PInt 120); ("height", PInt 64); ("baseline", PInt 22) ])
    (PDict [ ("size", PTuple [PInt 1; PInt 2]) ]).

Definition sized_doc : pyval :=
  PDict [ ("object", PStr "formula");
          ("formula", PStr "x^2");
          ("rendering_parameters", PDict [ ("size", PTuple [PInt 1; PInt 2]) ]);
          ("image_info", PDict [ ("width", PInt 120); ("height", PInt 64);
                                 ("baseline", PInt 22) ]);
          ("image", PStr "iVBORw0K") ].

Definition sized_text : string :=
  "{object: formula, formula: x^2, rendering_parameters: {size: [1, 2]}, image_info: {width: 120, height: 64, baseline: 22}, image: iVBORw0K}".

Definition json_sized : Primitives :=
  primitives [] [] sized_text sized_doc.

(** What [read_jsonfile] makes of the file of [sized]. *)
Definition sized_read : RenderedLatexFormula.t :=
  RenderedLatexFormula.mk (PStr "x^2") (PBytes ["137"; "P"; "N"; "G"; "013"; "010"]%byte)
    (PDict [ ("width", PInt 120); ("height", PInt 64); ("baseline", PInt 22) ])
    (PDict [ ("size", PList [PInt 1; PInt 2]) ]).

(** Rendering parameters, filled in two orders. *)
Definition parameters : list (string * pyval) :=
  [ ("short", PBool true); ("dpi", PInt 600); ("color", PStr "black") ].

Definition parameters' : list (string * pyval) :=
  [ ("color", PStr "black"); ("short", PBool true); ("dpi", PInt 600) ].

(** A presentation deployed to [/srv/www] after its first call of
    [add_file] for [index.html]. *)
Definition empty_world : RenderedPresentation.world :=
  {| RenderedPresentation.files :=
       {| RenderedPresentation.resolve := λ path, path;
          RenderedPresentation.regular := ∅ |};
     RenderedPresentation.dirs := ∅;
     RenderedPresentation.opened := [];
     RenderedPresentation.refuses := λ _ _ _, None;
     RenderedPresentation.torn := λ _, RenderedPresentation.Binary [] |}.

Definition deployed_index : RenderedPresentation.t * RenderedPresentation.world :=
  RenderedPresentation.run
    (RenderedPresentation.__init__ "/srv/www", empty_world)
    [ RenderedPresentation.AddFile "index.html" (PStr "<p>first</p>") ].

End Examples.

(** ** [pybeamer/Exceptions.py] and the outcome of a call that may raise it *)

Module Exceptions.

(** What the presentation code raises: its own
    [FailedToLookupFileException], or an exception of the kinds above. *)
Inductive exn : Type :=
| FailedToLookupFileException (msg : string)
| Python (e : pyexn).

Inductive outcome (A : Type) : Type :=
| Done (a : A)
| Failed (e : exn).
Arguments Done {A} a.
Arguments Failed {A} e.

Definition of_result {A} (r : result A) : outcome A :=
  match r with
  | Ok a => Done a
  | Raise e => Failed (Python e)
  end.

End Exceptions.
Export Exceptions.

(** ** [pybeamer/TOC.py] *)

Module TOC.

Inductive TOCElement : Type :=
| Chapter
| Section
| SubSection.

(** The value of a member of the enumeration. *)
Definition element_value (e : TOCElement) : string :=
  match e with
  | Chapter => "chapter"
  | Section => "section"
  | SubSection => "subsection"
  end.

(** A [TOC] object.  [__init__] sets nothing: each of the attributes
    [_chapter], [_section] and [_subsection] exists from its first
    assignment on. *)
Record t : Type := {
  _chapter : option pyval;
  _section : option pyval;
  _subsection : option pyval;
}.

Definition __init__ : t :=
  {| _chapter := None; _section := None; _subsection := None |}.

(** Reading an attribute that was never assigned. *)
Definition getattr (attribute : option pyval) : result pyval :=
  match attribute with
  | Some v => Ok v
  | None => Raise AttributeError
  end.

Definition chapter (self : t) : result pyval := getattr (_chapter self).
Definition section (self : t) : result pyval := getattr (_section self).
Definition subsection (self : t) : result pyval := getattr (_subsection self).

Definition set_chapter (self : t) (value : pyval) : t :=
  {| _chapter := Some value; _section := _section self; _subsection := _subsection self |}.
Definition set_section (self : t) (value : pyval) : t :=
  {| _chapter := _chapter self; _section := Some value; _subsection := _subsection self |}.
Definition set_subsection (self : t) (value : pyval) : t :=
  {| _chapter := _chapter self; _section := _section self; _subsection := Some value |}.

(** A [TOCDirective]; its constructor asserts that [toc_element] is a
    [TOCElement], which the type says. *)
Record TOCDirective : Type := {
  toc_element : TOCElement;
  value : pyval;
}.

(** [TOCDirective.render], on the [toc] of the rendered presentation; it
    returns [None].  The last branch of the source, [NotImplementedError],
    is for a member that the enumeration does not have. *)
Definition render (self : TOCDirective) (toc : t) : t :=
  match toc_element self with
  | Chapter => set_chapter toc (value self)
  | Section => set_section toc (value self)
  | SubSection => set_subsection toc (value self)
  end.

(** The attribute of a [TOC] that belongs to a member. *)
Definition attribute (e : TOCElement) (toc : t) : option pyval :=
  match e with
  | Chapter => _chapter toc
  | Section => _section toc
  | SubSection => _subsection toc
  end.

Definition element_eqb (a b : TOCElement) : bool :=
  match a, b with
  | Chapter, Chapter | Section, Section | SubSection, SubSection => true
  | _, _ => false
  end.

(** The directives of a presentation, rendered in order. *)
Definition render_all (directives : list TOCDirective) (toc : t) : t :=
  foldl (λ toc d, render d toc) toc directives.

(** The value of the last directive for a member, if there is one. *)
Definition last_value (e : TOCElement) (directives : list TOCDirective) : option pyval :=
  value <$> last (filter (λ d, Is_true (element_eqb (toc_element d) e)) directives).

End TOC.

(** ** [rewrite/pybeamer/RenderableSlide.py] *)

Module RenderableSlide.

Record t : Type := {
  _slide_type : string;
  _content_containers : gmap string pyval;
  _slide_vars : pyval;
}.

Definition slide_type (self : t) : string := _slide_type self.

(** [content(key = None)]: [dict.get] gives [None] for a missing key. *)
Definition content (self : t) (key : option string) : pyval :=
  let key := match key with
             | None => "default"
             | Some k => k
             end in
  default PNone (_content_containers self !! key).

End RenderableSlide.

(** ** [pybeamer/PresentationRenderer.py]: class [PresentationRenderer] *)

Module PresentationRenderer.

(** The rendering parameters that the code reads. *)
Record rendering_params : Type := {
  template_dirs : list string;
  include_dirs : list string;
  template_style : string;
  image_max_dimension : pyval;
}.

(** The part of [configuration.json] that [render] reads: the lists of file
    names under [files.static] and [files.css], empty when the key is
    absent. *)
Record template_config : Type := {
  files_static : list string;
  files_css : list string;
}.

Record t : Type := {
  _rendering_params : rendering_params;
  _template_config : template_config;
}.

Fixpoint _get_mako_lookup_directories_of (style : string) (dirs : list string)
  : list string :=
  match dirs with
  | [] => []
  | dirname :: dirs' =>
      dirname :: (dirname ++ "/" ++ style) :: _get_mako_lookup_directories_of style dirs'
  end.

(** [list(self._get_mako_lookup_directories())]. *)
Definition _get_mako_lookup_directories (self : t) : list string :=
  _get_mako_lookup_directories_of
    (template_style (_rendering_params self)) (template_dirs (_rendering_params self)).

(** [os.path.isfile]. *)
Definition isfile (w : RenderedPresentation.world) (path : string) : bool :=
  bool_decide (is_Some (RenderedPresentation.files w !! path)).

(** [", ".join(l)]. *)
Fixpoint join (sep : string) (l : list string) : string :=
  match l with
  | [] => ""
  | [x] => x
  | x :: l' => x ++ sep ++ join sep l'
  end.

(** The loop of [_search_file]. *)
Fixpoint first_file (w : RenderedPresentation.world) (filename : string)
    (search_dirs : list string) : option string :=
  match search_dirs with
  | [] => None
  | dirname :: search_dirs' =>
      let path := dirname ++ "/" ++ filename in
      if isfile w path then Some path else first_file w filename search_dirs'
  end.

(** No directory of the list has the file. *)
Definition nowhere (w : RenderedPresentation.world) (filename : string)
    (dirs : list string) : Prop :=
  Forall (λ d, isfile w (d ++ "/" ++ filename) = false) dirs.

Definition _search_file (w : RenderedPresentation.world) (filename : string)
    (search_dirs : list string) : outcome string :=
  match first_file w filename search_dirs with
  | Some path => Done path
  | None =>
      if Nat.eqb (length search_dirs) 0 then
        Failed (FailedToLookupFileException
          ("No such file: " ++ filename ++ " (no directories given to look up)"))
      else
        Failed (FailedToLookupFileException
          ("No such file: " ++ filename ++ " (looked in " ++ join ", " search_dirs ++ ")"))
  end.

Definition lookup_template_file (self : t) (w : RenderedPresentation.world)
    (filename : string) : outcome string :=
  _search_file w filename (template_dirs (_rendering_params self)).

Definition lookup_include (self : t) (w : RenderedPresentation.world)
    (filename : string) : outcome string :=
  _search_file w filename (include_dirs (_rendering_params self)).

(** The body of the loop of [_compute_renderable_slides]: [render d rp] is
    what [d.render(rp)] returns, a list of slides or [None], and the
    rendered presentation it leaves. *)
Definition render_directive {D S Slide : Type}
    (render : D → S → option (list Slide) * S)
    (acc : list Slide * S) (directive : D) : list Slide * S :=
  let '(generator, rp) := render directive acc.2 in
  match generator with
  | Some slides => ((acc.1 ++ slides)%list, rp)
  | None => (acc.1, rp)
  end.

Definition _compute_renderable_slides {D S Slide : Type}
    (render : D → S → option (list Slide) * S)
    (presentation : list D) (rendered_presentation : S) : list Slide * S :=
  foldl (render_directive render) ([], rendered_presentation) presentation.

End PresentationRenderer.

(** ** Class [RenderedPresentation]: style sheets, slides, template files *)

Module Presentation.

(** A rendered presentation with all its attributes: the deploy directory
    and the added files as above, the rendered slides, the style sheets and
    the table of contents. *)
Record t : Type := {
  deployment : RenderedPresentation.t;
  _rendered_slides : list string;
  _css : gset string;
  _toc : TOC.t;
}.

Definition __init__ (deploy_directory : string) : t :=
  {| deployment := RenderedPresentation.__init__ deploy_directory;
     _rendered_slides := [];
     _css := ∅;
     _toc := TOC.__init__ |}.

Definition with_deployment (self : t) (d : RenderedPresentation.t) : t :=
  {| deployment := d;
     _rendered_slides := _rendered_slides self;
     _css := _css self;
     _toc := _toc self |}.

Definition add_css (self : t) (filename : string) : t :=
  {| deployment := deployment self;
     _rendered_slides := _rendered_slides self;
     _css := {[ filename ]} ∪ _css self;
     _toc := _toc self |}.

Definition append_slide (self : t) (rendered_slide : string) : t :=
  {| deployment := deployment self;
     _rendered_slides := (_rendered_slides self ++ [rendered_slide])%list;
     _css := _css self;
     _toc := _toc self |}.

Definition with_toc (self : t) (toc : TOC.t) : t :=
  {| deployment := deployment self;
     _rendered_slides := _rendered_slides self;
     _css := _css self;
     _toc := toc |}.

(** A [TOCDirective] rendered on a presentation: it yields no slides. *)
Definition render_toc (d : TOC.TOCDirective) (self : t)
  : option (list RenderableSlide.t) * t :=
  (None, with_toc self (TOC.render d (_toc self))).

(** The file that [add_file] writes for content of each kind. *)
Definition written (content : pyval) : RenderedPresentation.filedata :=
  match content with
  | PStr s => RenderedPresentation.Text s
  | PBytes bs => RenderedPresentation.Binary bs
  | _ => RenderedPresentation.Binary []
  end.

(** [copy_template_file]: the template file is looked up first, then
    [copy_file] is called with what was found. *)
Definition copy_template_file (R : PresentationRenderer.t)
    (self : RenderedPresentation.t) (w : RenderedPresentation.world)
    (template_filename destination_relpath : string)
  : outcome unit * RenderedPresentation.t * RenderedPresentation.world :=
  match PresentationRenderer.lookup_template_file R w template_filename with
  | Failed e => (Failed e, self, w)
  | Done path =>
      let '(r, self', w') :=
        RenderedPresentation.copy_file self w path destination_relpath in
      (of_result r, self', w')
  end.

(** The loop over [files.static] of [PresentationRenderer.render]. *)
Fixpoint copy_static (R : PresentationRenderer.t) (style : string)
    (filenames : list string) (self : t) (w : RenderedPresentation.world)
  : outcome unit * t * RenderedPresentation.world :=
  match filenames with
  | [] => (Done tt, self, w)
  | filename :: filenames' =>
      match copy_template_file R (deployment self) w (style ++ "/" ++ filename) filename with
      | (Done _, d, w') => copy_static R style filenames' (with_deployment self d) w'
      | (Failed e, d, w') => (Failed e, with_deployment self d, w')
      end
  end.

(** The loop over [files.css] of [PresentationRenderer.render]. *)
Fixpoint copy_css (R : PresentationRenderer.t) (style : string)
    (filenames : list string) (self : t) (w : RenderedPresentation.world)
  : outcome unit * t * RenderedPresentation.world :=
  match filenames with
  | [] => (Done tt, self, w)
  | filename :: filenames' =>
      match copy_template_file R (deployment self) w (style ++ "/" ++ filename) filename with
      | (Done _, d, w') =>
          copy_css R style filenames' (add_css (with_deployment self d) filename) w'
      | (Failed e, d, w') => (Failed e, with_deployment self d, w')
      end
  end.

(** [PresentationRenderer.render] up to its slides: the rendered
    presentation is created, [base/pybeamer.js] is copied, then the static
    files and the style sheets of the template style. *)
Definition render_files (R : PresentationRenderer.t) (deploy_directory : string)
    (w : RenderedPresentation.world)
  : outcome unit * t * RenderedPresentation.world :=
  let rp := __init__ deploy_directory in
  let style := PresentationRenderer.template_style
                 (PresentationRenderer._rendering_params R) in
  match copy_template_file R (deployment rp) w "base/pybeamer.js" "pybeamer.js" with
  | (Failed e, d, w') => (Failed e, with_deployment rp d, w')
  | (Done _, d, w') =>
      match copy_static R style
              (PresentationRenderer.files_static (PresentationRenderer._template_config R))
              (with_deployment rp d) w' with
      | (Failed e, rp', w'') => (Failed e, rp', w'')
      | (Done _, rp', w'') =>
          copy_css R style
            (PresentationRenderer.files_css (PresentationRenderer._template_config R))
            rp' w''
      end
  end.

(** The names are [pybeamer.js] itself, or names whose deployed files are
    other files than the deployed [pybeamer.js]. *)
Definition spare_pybeamer_js (deploy_directory : string)
    (w : RenderedPresentation.world) (filenames : list string) : Prop :=
  Forall (λ f, f = "pybeamer.js"
               ∨ ¬ RenderedPresentation.same_file w
                     (deploy_directory ++ "/" ++ f)
                     (deploy_directory ++ "/" ++ "pybeamer.js")) filenames.

End Presentation.

(** ** The hooks: [pybeamer/xmlhooks/TerminalHook.py], [pyradium/xmlhooks/ImgHook.py] *)

Module Dom.

(** The nodes of [xml.dom.minidom] that the hooks read and build. *)
Inductive node : Type :=
| Element (tagName : string) (attributes : gmap string string) (childNodes : list node)
| Text (data : string).

Definition createElement (tagName : string) : node := Element tagName ∅ [].

Definition createTextNode (data : string) : node := Text data.

(** [getAttribute] gives the empty string for an attribute that is not set;
    a text node has no such method. *)
Definition getAttribute (n : node) (name : string) : result string :=
  match n with
  | Element _ attributes _ => Ok (default "" (attributes !! name))
  | Text _ => Raise AttributeError
  end.

Definition setAttribute (n : node) (name value : string) : node :=
  match n with
  | Element tag attributes children => Element tag (<[ name := value ]> attributes) children
  | Text data => Text data
  end.

Definition appendChild (n child : node) : node :=
  match n with
  | Element tag attributes children => Element tag attributes (children ++ [child])%list
  | Text data => Text data
  end.

End Dom.

Module TerminalHook.

Definition _TAG_NAME : string := "term".

Definition handle_text (text : string) : Dom.node :=
  let replacement_node := Dom.createElement "pre" in
  let replacement_node := Dom.setAttribute replacement_node "class" "terminal" in
  Dom.appendChild replacement_node (Dom.createTextNode text).

End TerminalHook.

Module ImgHook.

Definition _TAG_NAME : string := "img".

(** [get_custom_renderer("img").render]: the renderer cache of the image
    renderer, with whatever state [C] it keeps. *)
Definition img_renderer (C : Type) : Type :=
  gmap string pyval → C → result RendererCache.artifact * C.

(** ["%s" % v]. *)
Definition format_s (P : Primitives) (v : pyval) : string :=
  match v with
  | PStr s => s
  | _ => str_of P v
  end.

Definition replacement (local_filename : string) : Dom.node :=
  let replacement_node := Dom.createElement "div" in
  let replacement_node := Dom.setAttribute replacement_node "class" "fillimg" in
  let img_node := Dom.createElement "img" in
  let img_node := Dom.setAttribute img_node "src" local_filename in
  let img_node := Dom.setAttribute img_node "class" "fill" in
  Dom.appendChild replacement_node img_node.

Definition handle {C : Type} (img : img_renderer C) (P : Primitives)
    (R : PresentationRenderer.t) (self : RenderedPresentation.t)
    (w : RenderedPresentation.world) (c : C) (node : Dom.node)
  : outcome Dom.node * RenderedPresentation.t * RenderedPresentation.world * C :=
  match Dom.getAttribute node "src" with
  | Raise e => (Failed (Python e), self, w, c)
  | Ok src =>
      match PresentationRenderer.lookup_include R w src with
      | Failed e => (Failed e, self, w, c)
      | Done path =>
          let properties : gmap string pyval :=
            <[ "src" := PStr path ]>
              {[ "max_dimension" :=
                   PresentationRenderer.image_max_dimension
                     (PresentationRenderer._rendering_params R) ]} in
          match img properties c with
          | (Raise e, c') => (Failed (Python e), self, w, c')
          | (Ok rendered_image, c') =>
              match getitem (RendererCache.data rendered_image) "extension" with
              | Raise e => (Failed (Python e), self, w, c')
              | Ok extension =>
                  let local_filename :=
                    "imgs/img/" ++ RendererCache.keyhash rendered_image ++ "."
                                ++ format_s P extension in
                  match getitem (RendererCache.data rendered_image) "img_data" with
                  | Raise e => (Failed (Python e), self, w, c')
                  | Ok img_data =>
                      let '(r, self', w') :=
                        RenderedPresentation.add_file self w local_filename img_data in
                      match r with
                      | Ok _ => (Done (replacement local_filename), self', w', c')
                      | Raise e => (Failed (Python e), self', w', c')
                      end
                  end
              end
          end
      end
  end.

End ImgHook.

(** ** More concrete inputs *)

Module Inputs.

Definition tex_dir : string := "/tmp/pybeamer_formula_0".

Definition pdflatex_cmd : list string :=
  [ "pdflatex"; "-output-directory=" ++ tex_dir; tex_dir ++ "/formula.tex" ].

Definition convert_cmd : list string :=
  [ "convert"; "-define"; "profile:skip=ICC"; "-density"; "600"; "-trim"; "+repage";
    tex_dir ++ "/formula.pdf"; tex_dir ++ "/formula.png" ].

Definition strip_cmd : list string :=
  [ "convert"; tex_dir ++ "/formula.png[2x+12+0]"; "-trim"; "json:-" ].

Definition crop_cmd : list string :=
  [ "convert"; "-crop"; "+47+0"; "-trim"; "+repage"; tex_dir ++ "/formula.png"; "png:-" ].

Definition png : list byte := ["137"; "P"; "N"; "G"; "013"; "010"]%byte.

(** A system on which the whole formula pipeline works. *)
Definition texlive : Primitives :=
  Examples.primitives []
    [ (PList (PStr <$> pdflatex_cmd),
       Completed 0 (list_byte_of_string "This is pdfTeX") []);
      (PList (PStr <$> convert_cmd), Completed 0 [] []);
      (PList (PStr <$> strip_cmd),
       Completed 0 (list_byte_of_string Examples.strip_text) []);
      (PList (PStr <$> crop_cmd), Completed 0 png []) ]
    Examples.strip_text Examples.strip_json.

(** A system on which [pdflatex] stops at an error in the formula. *)
Definition broken_tex : Primitives :=
  Examples.primitives []
    [ (PList (PStr <$> pdflatex_cmd), Completed 1 [] []) ]
    "" PNone.

Definition formula_request : gmap string pyval :=
  {[ "formula" := PStr "x^2" ]}.

Definition number_request : gmap string pyval :=
  {[ "formula" := PInt 42 ]}.

(** A renderer with two template directories, the user's own first, and
    the files on disk: the base script and the files of the style [dark],
    its logo in both template directories, and a picture to include. *)
Definition site : PresentationRenderer.t :=
  {| PresentationRenderer._rendering_params :=
       {| PresentationRenderer.template_dirs :=
            [ "/home/me/templates"; "/usr/share/pybeamer" ];
          PresentationRenderer.include_dirs := [ "/home/me/talk" ];
          PresentationRenderer.template_style := "dark";
          PresentationRenderer.image_max_dimension := PInt 1920 |};
     PresentationRenderer._template_config :=
       {| PresentationRenderer.files_static := [ "logo.svg"; "pybeamer.js" ];
          PresentationRenderer.files_css := [ "dark.css" ] |} |}.

Definition disk : RenderedPresentation.world :=
  {| RenderedPresentation.files :=
       {| RenderedPresentation.resolve := λ path, path;
          RenderedPresentation.regular :=
            list_to_map
              [ ("/usr/share/pybeamer/base/pybeamer.js",
                 RenderedPresentation.Text "base();");
                ("/usr/share/pybeamer/dark/pybeamer.js",
                 RenderedPresentation.Text "dark();");
                ("/usr/share/pybeamer/dark/logo.svg", RenderedPresentation.Text "<svg/>");
                ("/home/me/templates/dark/logo.svg",
                 RenderedPresentation.Text "<svg>me</svg>");
                ("/usr/share/pybeamer/dark/dark.css", RenderedPresentation.Text "body {}");
                ("/home/me/talk/cat.png", RenderedPresentation.Binary png) ] |};
     RenderedPresentation.dirs := ∅;
     RenderedPresentation.opened := [];
     RenderedPresentation.refuses := λ _ _ _, None;
     RenderedPresentation.torn := λ _, RenderedPresentation.Binary [] |}.


(** An image renderer that knows one picture and counts its calls, and one
    that cannot read its source. *)
Definition cat_renderer : ImgHook.img_renderer nat :=
  λ properties n,
    (Ok {| RendererCache.keyhash := "0c4f";
           RendererCache.data :=
             <[ "extension" := PStr "png" ]> {[ "img_data" := PBytes png ]} |},
     S n).

Definition blind_renderer : ImgHook.img_renderer nat :=
  λ properties n,
    (Raise (RenderExecutionError "img" "0c4f" (OSError "cannot identify image file")),
     S n).

Definition cat_node : Dom.node := Dom.Element "img" {[ "src" := "cat.png" ]} [].

Definition dog_node : Dom.node := Dom.Element "img" {[ "src" := "dog.png" ]} [].

End Inputs.

(** * Properties *)

(** ** The exec renderer *)

Section exec_renderer.

Context (P : Primitives).

Lemma includes_intro (pre part post : string) :
  Spec.includes (pre ++ part ++ post) part.
Proof. by exists pre, post. Qed.

Lemma string_app_assoc (a b c : string) : (a ++ b) ++ c = a ++ b ++ c.
Proof.
  induction a as [|x a IH]; [done|].
  change (String x ((a ++ b) ++ c) = String x (a ++ b ++ c)). by rewrite IH.
Qed.

Lemma includes_app_r (pre message part : string) :
  Spec.includes message part → Spec.includes (pre ++ message) part.
Proof.
  intros (a & b & ->). exists (pre ++ a), b.
  by rewrite string_app_assoc.
Qed.

Lemma rendering_key_of_executable (request : gmap string pyval) (cmd : pyval)
    (exe : string) (content : list byte) :
  request !! "cmd" = Some cmd →
  subscript_0 cmd = Ok (PStr exe) →
  read_file P exe = Some content →
  ExecRenderer.rendering_key P request
  = Ok {[ "srchash" := PStr (digest P content) ]}.
Proof.
  intros Hcmd H0 Hfile. unfold ExecRenderer.rendering_key, getitem.
  rewrite Hcmd. cbn. rewrite H0. cbn. by rewrite Hfile.
Qed.

(** C2.  The rendering key of the exec renderer is the mapping whose only
    entry, [srchash], is the content digest of the file at [cmd[0]].  Two
    requests whose executables have the same content digest, whatever
    their arguments, have equal rendering keys and equal cache keys. *)
Theorem exec_rendering_key_executable_only
    (r1 r2 : gmap string pyval) (cmd1 cmd2 : pyval) (exe1 exe2 : string)
    (content1 content2 : list byte) :
  r1 !! "cmd" = Some cmd1 → subscript_0 cmd1 = Ok (PStr exe1) →
  r2 !! "cmd" = Some cmd2 → subscript_0 cmd2 = Ok (PStr exe2) →
  read_file P exe1 = Some content1 → read_file P exe2 = Some content2 →
  digest P content1 = digest P content2 →
  ExecRenderer.rendering_key P r1 = Ok {[ "srchash" := PStr (digest P content1) ]}
  ∧ (∀ key, ExecRenderer.rendering_key P r1 = Ok key → dom key = {[ "srchash" ]})
  ∧ ExecRenderer.rendering_key P r1 = ExecRenderer.rendering_key P r2
  ∧ ∀ F, RendererCache.cachekey F P (RendererCache.exec P) r1
         = RendererCache.cachekey F P (RendererCache.exec P) r2.
Proof.
  intros Hc1 H1 Hc2 H2 Hf1 Hf2 Hd.
  pose proof (rendering_key_of_executable r1 cmd1 exe1 content1 Hc1 H1 Hf1) as K1.
  pose proof (rendering_key_of_executable r2 cmd2 exe2 content2 Hc2 H2 Hf2) as K2.
  rewrite <-Hd in K2.
  split_and!.
  - exact K1.
  - intros key. rewrite K1. intros [= <-]. apply dom_singleton_L.
  - by rewrite K1, K2.
  - intros F. unfold RendererCache.cachekey. cbn. by rewrite K1, K2.
Qed.

(** C5, as the code has it.  For a request with a [cmd] entry, [render]
    raises [FailedToExecuteSubprocessException] exactly when starting the
    command raises [PermissionError] or the process exits with a non-zero
    status.  The message includes the command in both cases; it includes
    the exit code when the process exited, and the text of the
    [PermissionError] when the command did not start. *)
Theorem exec_render_failure (request : gmap string pyval) (cmd : pyval) :
  request !! "cmd" = Some cmd →
  (∀ e, subprocess_run P cmd = RunRaised (SpawnPermissionError e) →
     ExecRenderer.render P request
     = Raise (FailedToExecuteSubprocessException (ExecRenderer.msg_not_started P cmd e))
     ∧ Spec.includes (ExecRenderer.msg_not_started P cmd e) (str_of P cmd)
     ∧ Spec.includes (ExecRenderer.msg_not_started P cmd e) e)
  ∧ (∀ returncode stdout stderr,
       subprocess_run P cmd = Completed returncode stdout stderr → returncode ≠ 0 →
       ExecRenderer.render P request
       = Raise (FailedToExecuteSubprocessException
                  (ExecRenderer.msg_returncode P cmd returncode))
       ∧ Spec.includes (ExecRenderer.msg_returncode P cmd returncode) (str_of P cmd)
       ∧ Spec.includes (ExecRenderer.msg_returncode P cmd returncode) (pretty returncode))
  ∧ (∀ msg, ExecRenderer.render P request = Raise (FailedToExecuteSubprocessException msg) →
       (∃ e, subprocess_run P cmd = RunRaised (SpawnPermissionError e))
       ∨ (∃ returncode stdout stderr,
            subprocess_run P cmd = Completed returncode stdout stderr ∧ returncode ≠ 0)).
Proof.
  intros Hcmd. unfold ExecRenderer.render, getitem. rewrite Hcmd. cbn.
  split_and!.
  - intros e ->. split_and!; [done| |].
    + apply includes_intro.
    + unfold ExecRenderer.msg_not_started.
      do 3 apply includes_app_r. apply (includes_intro "").
  - intros rc out err -> Hrc.
    assert ((rc =? 0) = false) as -> by lia. cbn. split_and!; [done| |].
    + apply includes_intro.
    + unfold ExecRenderer.msg_returncode.
      do 3 apply includes_app_r. apply (includes_intro "").
  - intros msg. destruct (subprocess_run P cmd) as [rc out err|e] eqn:Hrun.
    + destruct (Z.eqb_spec rc 0) as [->|Hne]; cbn; [done|].
      intros _. right. by exists rc, out, err.
    + destruct e; cbn; try done. intros _. left. by eexists.
Qed.

(** C9.  When the command of a request starts and exits with status 0,
    [render] returns the mapping with exactly the keys [cmd], [stdout] and
    [stderr], holding the command and the two captured streams; when the
    command [["true"]] exits with status 0 and writes nothing, both streams
    of the result are empty. *)
Theorem exec_render_success (request : gmap string pyval) (cmd : pyval)
    (stdout stderr : list byte) :
  request !! "cmd" = Some cmd →
  subprocess_run P cmd = Completed 0 stdout stderr →
  ∃ result,
    ExecRenderer.render P request = Ok result
    ∧ dom result = ({[ "cmd"; "stdout"; "stderr" ]} : gset string)
    ∧ result !! "cmd" = Some cmd
    ∧ result !! "stdout" = Some (PBytes stdout)
    ∧ result !! "stderr" = Some (PBytes stderr)
    ∧ (cmd = PList [PStr "true"] → stdout = [] → stderr = [] →
       result !! "stdout" = Some (PBytes []) ∧ result !! "stderr" = Some (PBytes [])).
Proof.
  intros Hcmd Hrun. unfold ExecRenderer.render, getitem.
  rewrite Hcmd. cbn. rewrite Hrun. cbn.
  eexists. split; [done|]. split_and!.
  - rewrite !dom_insert_L, dom_singleton_L. set_solver.
  - by simplify_map_eq.
  - by simplify_map_eq.
  - by simplify_map_eq.
  - intros _ -> ->. by simplify_map_eq.
Qed.

End exec_renderer.

Lemma exec_rendering_key_executable_only_witness :
  ExecRenderer.rendering_key Examples.unix Examples.ls_l
  = Ok {[ "srchash" := PStr (digest Examples.unix ["127"; "E"; "L"; "F"]%byte) ]}
  ∧ ExecRenderer.rendering_key Examples.unix Examples.ls_l
    = ExecRenderer.rendering_key Examples.unix Examples.ls_a.
Proof.
  pose proof (exec_rendering_key_executable_only Examples.unix
    Examples.ls_l Examples.ls_a
    (PList [PStr "/bin/ls"; PStr "-l"; PStr "/"]) (PList [PStr "/bin/ls"; PStr "-a"])
    "/bin/ls" "/bin/ls" ["127"; "E"; "L"; "F"]%byte ["127"; "E"; "L"; "F"]%byte
    eq_refl eq_refl eq_refl eq_refl eq_refl eq_refl eq_refl) as (H1 & _ & H2 & _).
  exact (conj H1 H2).
Defined.

Lemma exec_render_failure_witness :
  ExecRenderer.render Examples.unix Examples.run_false
  = Raise (FailedToExecuteSubprocessException
             "Could not execute '['false']': returncode 1.").
Proof.
  pose proof (exec_render_failure Examples.unix Examples.run_false
    (PList [PStr "false"]) eq_refl) as (_ & H & _).
  destruct (H 1 [] [] eq_refl) as (Hr & _); [lia|]. exact Hr.
Defined.

(** C5 as the design document states it fails twice.  A command that is
    not found cannot be started, and [render] lets the [FileNotFoundError]
    through instead of raising its own exception.  A command without execute
    permission makes [render] raise its exception, but there is no exit code
    that the message could include. *)
Lemma exec_render_failure_counterexample :
  ¬ Spec.exec_failure_contract Examples.unix Examples.run_missing
  ∧ ExecRenderer.render Examples.unix Examples.run_missing
    = Raise (FileNotFoundError "['/no/such/program']")
  ∧ ¬ Spec.exec_failure_contract Examples.unix Examples.run_passwd
  ∧ ExecRenderer.render Examples.unix Examples.run_passwd
    = Raise (FailedToExecuteSubprocessException
        "Could not execute '['/etc/passwd']' ([Errno 13] Permission denied: '/etc/passwd').").
Proof.
  split_and!.
  - intros H. destruct (H (PList [PStr "/no/such/program"]) eq_refl) as [[Hraise _] _].
    destruct Hraise as [msg Hmsg]; [left; by eexists|]. discriminate Hmsg.
  - reflexivity.
  - intros H. destruct (H (PList [PStr "/etc/passwd"]) eq_refl) as [_ Hmsg].
    destruct (Hmsg _ eq_refl) as (_ & rc & Hrc & _). discriminate Hrc.
  - reflexivity.
Qed.

Lemma exec_render_success_witness :
  ∃ result, ExecRenderer.render Examples.unix Examples.run_true = Ok result
            ∧ result !! "stdout" = Some (PBytes [])
            ∧ result !! "stderr" = Some (PBytes []).
Proof.
  destruct (exec_render_success Examples.unix Examples.run_true
    (PList [PStr "true"]) [] [] eq_refl eq_refl) as (result & H & _ & _ & _ & _ & Htrue).
  exists result. split; [exact H|]. exact (Htrue eq_refl eq_refl eq_refl).
Defined.

(** ** The formula renderer *)

Section formula_renderer.

Context (P : Primitives).

(** C4, as the code has it.  The formula renderer does not define a
    rendering key of its own: the inherited one is the whole request, so the
    formula text and the [short] flag are in it when the request has them,
    next to everything else the request holds.  The rendering resolution is
    not in the rendering key; it is in the renderer's properties, which hold
    exactly [version] and [rendering_dpi], and reaches the cache key through
    them. *)
Theorem latex_rendering_key_is_request
    (self : LatexFormulaRenderer.t) (request : gmap string pyval) :
  RendererCache.rendering_key (RendererCache.latex P self) request = Ok request
  ∧ LatexFormulaRenderer.properties self !! "rendering_dpi"
    = Some (PInt (LatexFormulaRenderer._rendering_dpi self))
  ∧ LatexFormulaRenderer.properties self !! "version" = Some (PInt 1)
  ∧ dom (LatexFormulaRenderer.properties self) = {[ "version"; "rendering_dpi" ]}
  ∧ ∀ F, RendererCache.cachekey F P (RendererCache.latex P self) request
         = Ok (digest P (RendererCache.canonical F "latex"
                           (LatexFormulaRenderer.properties self) request)).
Proof.
  unfold LatexFormulaRenderer.properties. split_and!.
  - reflexivity.
  - by simplify_map_eq.
  - by simplify_map_eq.
  - rewrite dom_insert_L, dom_singleton_L. set_solver.
  - reflexivity.
Qed.

Lemma round_div_2_odd (k : Z) :
  round_div (2 * k + 1) 2 = if Z.even k then k else k + 1.
Proof.
  unfold round_div.
  assert ((2 * k + 1) / 2 = k) as -> by (symmetry; apply Z.div_unique with 1; lia).
  assert ((2 * k + 1) mod 2 = 1) as -> by (symmetry; apply Z.mod_unique with k; lia).
  reflexivity.
Qed.

Lemma round_div_2_even (k : Z) : round_div (2 * k) 2 = k.
Proof.
  unfold round_div.
  assert ((2 * k) / 2 = k) as -> by (symmetry; apply Z.div_unique with 0; lia).
  assert ((2 * k) mod 2 = 0) as -> by (symmetry; apply Z.mod_unique with k; lia).
  reflexivity.
Qed.

Lemma pow2_53 : 2 ^ 53 = 9007199254740992.
Proof. reflexivity. Qed.

(** Up to [2^53] in absolute value the quotient [n / 2] is a double, and
    [round] is applied to the exact quotient. *)
Lemma round_half_exact (n : Z) : Z.abs n ≤ 2 ^ 53 → round_half n = round_div n 2.
Proof.
  intros Hn. unfold round_half, ulp_of_half.
  assert (Z.log2 (Z.abs n) - 53 ≤ 0) as Hlog.
  { destruct (decide (Z.abs n = 0)) as [->|Hne]; [done|].
    assert (Z.log2 (Z.abs n) < 54); [|lia].
    apply Z.log2_lt_pow2; [lia|].
    assert (2 ^ 54 = 2 * 2 ^ 53) as -> by reflexivity. lia. }
  rewrite Z.max_l by lia. change (2 ^ 0) with 1. change (2 * 1) with 2.
  apply Z.mul_1_r.
Qed.

Lemma round_half_odd (k : Z) :
  Z.abs (2 * k + 1) ≤ 2 ^ 53 → round_half (2 * k + 1) = if Z.even k then k else k + 1.
Proof. intros H. rewrite round_half_exact by done. apply round_div_2_odd. Qed.

Lemma round_half_even (k : Z) : Z.abs (2 * k) ≤ 2 ^ 53 → round_half (2 * k) = k.
Proof. intros H. rewrite round_half_exact by done. apply round_div_2_even. Qed.

Lemma round_half_rounded (n : Z) :
  Z.abs n ≤ 2 ^ 53 → Spec.rounded_half n (round_half n).
Proof.
  intros Hn. unfold Spec.rounded_half.
  destruct (Z.Even_or_Odd n) as [[k ->]|[k ->]].
  - rewrite round_half_even by done. split; lia.
  - rewrite round_half_odd by done. destruct (Z.even k) eqn:Hk.
    + split; [lia|done].
    + split; [lia|]. intros _. rewrite Z.even_add, Hk. reflexivity.
Qed.

Lemma round_half_between (y h : Z) :
  Z.abs (y + (y + h)) ≤ 2 ^ 53 → 0 ≤ h → y ≤ round_half (y + (y + h)) ≤ y + h.
Proof.
  intros Hn Hh. destruct (round_half_rounded (y + (y + h)) Hn) as [Habs Heven].
  destruct (decide (h = 0)) as [->|Hne].
  - replace (y + (y + 0)) with (2 * y) in * by lia. rewrite round_half_even by done. lia.
  - lia.
Qed.

Lemma round_truediv_2_exact (n : Z) :
  Z.abs n ≤ 2 ^ 53 → round_truediv_2 (PInt n) = Ok (round_half n).
Proof.
  intros Hn. unfold round_truediv_2. cbn [as_int].
  destruct (round_half_rounded n Hn) as [Habs _].
  assert (Z.abs (round_half n) < float_limit) as Hlt.
  { assert (2 ^ 53 < float_limit) by reflexivity. lia. }
  destruct (Z.leb_spec float_limit (Z.abs (round_half n))); [lia|done].
Qed.

Lemma assoc_subscript (k : string) (d : list (string * pyval)) (v : pyval) :
  assoc k d = Some v → subscript_str (PDict d) k = Ok v.
Proof. intros H. cbn. by rewrite H. Qed.

Lemma image_info_of_report (crop_info : pyval) (W H y h : Z) :
  Spec.strip_report crop_info W H y h →
  Z.abs (y + (y + h)) ≤ 2 ^ 53 →
  LatexFormulaRenderer.image_info_of crop_info
  = Ok (PDict [ ("width", PInt W); ("height", PInt H);
                ("baseline", PInt (H - round_half (y + (y + h)))) ]).
Proof.
  intros (first & rest & image & page & geometry & -> & Hi & Hp & Hg & HW & HH & Hy & Hh)
    Hn.
  unfold LatexFormulaRenderer.image_info_of. cbn -[round_truediv_2].
  rewrite Hi. cbn -[round_truediv_2]. rewrite Hp. cbn -[round_truediv_2].
  rewrite HW. cbn -[round_truediv_2]. rewrite HH. cbn -[round_truediv_2].
  rewrite Hy. cbn -[round_truediv_2]. rewrite Hg. cbn -[round_truediv_2].
  rewrite Hh. cbn -[round_truediv_2].
  rewrite round_truediv_2_exact by done. reflexivity.
Qed.

(** C8.  When the report of the trimmed baseline strip gives the page
    height [H], the strip's top offset [y] and its height [h], pixel counts
    whose sum [y + (y + h)] is at most [2^53] in absolute value (so that the
    double [(y + (y + h)) / 2] is the exact quotient), [_get_image_info]
    reports the baseline [H - round((y + (y + h)) / 2)]: the page height
    minus the midpoint of the strip's vertical extent rounded to the nearest
    row (a tie to the even row), a row that lies within the strip. *)
Theorem get_image_info_baseline (png_filename : string) (xoffset : Z)
    (out : list byte) (crop_info : pyval) (W H y h : Z) :
  LatexFormulaRenderer.check_output P
    [ "convert"; png_filename ++ "[2x+" ++ pretty xoffset ++ "+0]"; "-trim"; "json:-" ]
  = Ok out →
  json_loads P (string_of_list_byte out) = Ok crop_info →
  Spec.strip_report crop_info W H y h →
  Z.abs (y + (y + h)) ≤ 2 ^ 53 →
  LatexFormulaRenderer._get_image_info P png_filename xoffset
  = Ok (PDict [ ("width", PInt W); ("height", PInt H);
                ("baseline", PInt (H - round_half (y + (y + h)))) ])
  ∧ Spec.rounded_half (y + (y + h)) (round_half (y + (y + h)))
  ∧ (0 ≤ h → y ≤ round_half (y + (y + h)) ≤ y + h).
Proof.
  intros Hout Hjson Hreport Hn. split_and!.
  - unfold LatexFormulaRenderer._get_image_info.
    rewrite Hout. cbn -[LatexFormulaRenderer.image_info_of].
    rewrite Hjson. cbn -[LatexFormulaRenderer.image_info_of].
    by apply image_info_of_report.
  - by apply round_half_rounded.
  - by apply round_half_between.
Qed.

End formula_renderer.

Lemma get_image_info_baseline_witness :
  LatexFormulaRenderer._get_image_info Examples.imagemagick
    "/tmp/pybeamer_formula_0/formula.png" 12
  = Ok (PDict [ ("width", PInt 120); ("height", PInt 64); ("baseline", PInt 22) ]).
Proof.
  refine (proj1 (get_image_info_baseline Examples.imagemagick
    "/tmp/pybeamer_formula_0/formula.png" 12
    (list_byte_of_string Examples.strip_text) Examples.strip_json 120 64 40 3
    eq_refl eq_refl _ _)).
  - unfold Spec.strip_report, Examples.strip_json.
    do 5 eexists. split_and!; reflexivity.
  - rewrite pow2_53. lia.
Defined.

(** C4 as the design document states it fails in both directions: the
    rendering key of a request holds the request's own [color] field, and it
    holds no rendering resolution. *)
Lemma latex_rendering_key_counterexample :
  ∃ key,
    RendererCache.rendering_key
      (RendererCache.latex Examples.unix LatexFormulaRenderer.default)
      Examples.colored_formula = Ok key
    ∧ Some key ≠ Spec.formula_rendering_key LatexFormulaRenderer.default
                   Examples.colored_formula
    ∧ key !! "color" = Some (PStr "red")
    ∧ key !! "rendering_dpi" = None.
Proof.
  exists Examples.colored_formula. split_and!; [reflexivity| |reflexivity..].
  intros Heq. apply (f_equal (λ o, o ≫= (.!! "rendering_dpi"))) in Heq.
  vm_compute in Heq. discriminate Heq.
Qed.

(** ** The renderer cache *)

Section renderer_cache.

Context (F : RendererCache.format) (P : Primitives).

(** Step 4 of 4.2: an entry that is present and deserializes is returned,
    and neither the store nor the invocation counter changes. *)
Lemma cache_hit (r : RendererCache.renderer) (request : gmap string pyval)
    (st : RendererCache.state) (k : string) (entry : list byte) (d : gmap string pyval) :
  RendererCache.cachekey F P r request = Ok k →
  RendererCache.entries st !! k = Some entry →
  RendererCache.deserialize F entry = Some d →
  RendererCache.render F P r request st
  = (Ok {| RendererCache.keyhash := k; RendererCache.data := d |}, st).
Proof.
  intros Hk He Hd. unfold RendererCache.render.
  rewrite Hk, He. cbn. by rewrite Hd.
Qed.

Lemma cachekey_same_rendering_key (r : RendererCache.renderer)
    (request request' : gmap string pyval) :
  RendererCache.rendering_key r request' = RendererCache.rendering_key r request →
  RendererCache.cachekey F P r request' = RendererCache.cachekey F P r request.
Proof. intros H. unfold RendererCache.cachekey. by rewrite H. Qed.

(** A call that raises leaves the entries of the store as they were. *)
Lemma cache_failure_not_cached (r : RendererCache.renderer)
    (request : gmap string pyval) (st st1 : RendererCache.state) (e : pyexn) :
  RendererCache.render F P r request st = (Raise e, st1) →
  RendererCache.entries st1 = RendererCache.entries st.
Proof.
  unfold RendererCache.render.
  destruct (RendererCache.cachekey F P r request) as [k|e']; [|by intros [= _ <-]].
  destruct (RendererCache.entries st !! k ≫= RendererCache.deserialize F); [done|].
  destruct (RendererCache.render_fn r _ request); [done|].
  by intros [= _ <-].
Qed.

(** A call to a renderer that fails on the request never changes the
    entries of the store, hit or miss. *)
Lemma cache_failing_renderer (r : RendererCache.renderer)
    (request : gmap string pyval) (st : RendererCache.state) :
  (∀ n, ∃ e, RendererCache.render_fn r n request = Raise e) →
  RendererCache.entries (RendererCache.render F P r request st).2
  = RendererCache.entries st.
Proof.
  intros Hfail. unfold RendererCache.render.
  destruct (RendererCache.cachekey F P r request) as [k|e']; [|done].
  destruct (RendererCache.entries st !! k ≫= RendererCache.deserialize F); [done|].
  destruct (Hfail (RendererCache.invocations st)) as [e ->]. done.
Qed.

(** C1.  Two successive calls to the cache's [render] with the same
    renderer and requests of the same rendering key return the same key and
    the same data, and the second call leaves the cache as it is: the
    wrapped renderer is not invoked.  The first call is any call that
    returns; when it was itself served from the store nothing more is
    needed, and when it invoked the renderer the store is one that takes the
    new entry, in a format that reads the entry back as the data it was made
    from (6 of the design document). *)
Theorem cache_repeat_is_hit (r : RendererCache.renderer)
    (request request' : gmap string pyval) (st st1 : RendererCache.state)
    (a1 : RendererCache.artifact) :
  RendererCache.render F P r request st = (Ok a1, st1) →
  RendererCache.rendering_key r request' = RendererCache.rendering_key r request →
  (RendererCache.invocations st1 ≠ RendererCache.invocations st →
   RendererCache.writable st = true
   ∧ RendererCache.deserialize F (RendererCache.serialize F (RendererCache.data a1))
     = Some (RendererCache.data a1)) →
  RendererCache.render F P r request' st1 = (Ok a1, st1)
  ∧ RendererCache.invocations (RendererCache.render F P r request' st1).2
    = RendererCache.invocations st1.
Proof.
  intros Hfirst Hkey Hmiss.
  assert (RendererCache.render F P r request' st1 = (Ok a1, st1)) as Hsecond;
    [|by rewrite Hsecond].
  revert Hfirst. unfold RendererCache.render at 1.
  destruct (RendererCache.cachekey F P r request) as [k|e] eqn:Hk; [|done].
  pose proof (cachekey_same_rendering_key r request request' Hkey) as Hk'.
  rewrite Hk in Hk'.
  destruct (RendererCache.entries st !! k ≫= RendererCache.deserialize F)
    as [d|] eqn:Hlook.
  - intros [= <- <-].
    destruct (RendererCache.entries st !! k) as [entry|] eqn:He; [|done].
    by apply cache_hit with entry.
  - destruct (RendererCache.render_fn r _ request) as [d|e]; [|done].
    intros [= <- <-]. cbn in Hmiss.
    destruct Hmiss as [Hw Hround].
    { unfold RendererCache.publish. cbn.
      destruct (RendererCache.writable st); cbn; lia. }
    apply cache_hit with (RendererCache.serialize F d); [done| |done].
    unfold RendererCache.publish. cbn. rewrite Hw. cbn.
    by rewrite lookup_insert_eq.
Qed.

End renderer_cache.

Lemma cache_repeat_is_hit_witness :
  Spec.repeat_contract Examples.one_byte_format Examples.unix
    Examples.counting_stub Examples.run_true Examples.empty_store.
Proof.
  eexists _, _, _, _. split; [reflexivity|].
  split; [|split; reflexivity].
  refine (proj1 (cache_repeat_is_hit Examples.one_byte_format Examples.unix
    Examples.counting_stub Examples.run_true Examples.run_true
    Examples.empty_store _ _ eq_refl eq_refl _)).
  intros _. split; reflexivity.
Defined.

(** ** Requests without their required field *)

Section missing_field.

Context (F : RendererCache.format) (P : Primitives).

Lemma exec_render_without_cmd (request : gmap string pyval) :
  request !! "cmd" = None →
  ExecRenderer.render P request = Raise (KeyError (PStr "cmd"))
  ∧ ExecRenderer.rendering_key P request = Raise (KeyError (PStr "cmd")).
Proof.
  intros H. unfold ExecRenderer.render, ExecRenderer.rendering_key, getitem.
  by rewrite H.
Qed.

Lemma latex_render_without_formula (self : LatexFormulaRenderer.t)
    (request : gmap string pyval) :
  request !! "formula" = None →
  ∃ e, LatexFormulaRenderer.render P self request = Raise e
       ∧ ∀ tex_dir, mkdtemp P "pybeamer_formula_" = Ok tex_dir →
                    e = KeyError (PStr "formula").
Proof.
  intros H. unfold LatexFormulaRenderer.render, getitem.
  destruct (mkdtemp P "pybeamer_formula_") as [tex_dir|e]; cbn.
  - rewrite H. exists (KeyError (PStr "formula")).
    split; [by destruct (truthy _)|done].
  - by exists e.
Qed.

(** C6, as the code has it.  A request without [cmd] makes the exec
    renderer's [render], and already its [rendering_key], raise
    [KeyError('cmd')]; a request without [formula] makes the formula
    renderer's [render] raise, and what it raises is [KeyError('formula')]
    once its temporary directory exists.  Through the renderer cache neither
    call changes the entries of the store: the failure is not cached. *)
Theorem missing_field_raises_KeyError (request : gmap string pyval)
    (st : RendererCache.state) :
  (request !! "cmd" = None →
     ExecRenderer.render P request = Raise (KeyError (PStr "cmd"))
     ∧ ExecRenderer.rendering_key P request = Raise (KeyError (PStr "cmd"))
     ∧ RendererCache.render F P (RendererCache.exec P) request st
       = (Raise (KeyError (PStr "cmd")), st))
  ∧ (request !! "formula" = None → ∀ self,
       (∃ e, LatexFormulaRenderer.render P self request = Raise e)
       ∧ (∀ tex_dir, mkdtemp P "pybeamer_formula_" = Ok tex_dir →
            LatexFormulaRenderer.render P self request = Raise (KeyError (PStr "formula")))
       ∧ RendererCache.entries
           (RendererCache.render F P (RendererCache.latex P self) request st).2
         = RendererCache.entries st).
Proof.
  split.
  - intros H. destruct (exec_render_without_cmd request H) as [Hr Hk].
    split_and!; [done..|].
    unfold RendererCache.render, RendererCache.cachekey. cbn. by rewrite Hk.
  - intros H self.
    destruct (latex_render_without_formula self request H) as (e & He & Hdir).
    split_and!.
    + by exists e.
    + intros tex_dir Htmp. rewrite He. f_equal. by eapply Hdir.
    + apply cache_failing_renderer. intros n. by exists e.
Qed.

End missing_field.

Lemma missing_field_raises_KeyError_witness :
  ExecRenderer.render Examples.unix ∅ = Raise (KeyError (PStr "cmd"))
  ∧ LatexFormulaRenderer.render Examples.unix LatexFormulaRenderer.default ∅
    = Raise (KeyError (PStr "formula")).
Proof.
  pose proof (missing_field_raises_KeyError Examples.one_byte_format Examples.unix
    ∅ Examples.empty_store) as [Hexec Hlatex].
  split.
  - exact (proj1 (Hexec eq_refl)).
  - destruct (Hlatex eq_refl LatexFormulaRenderer.default) as (_ & H & _).
    exact (H _ eq_refl).
Defined.

(** C6 as the design document states it fails: the empty request makes the
    exec renderer raise [KeyError], and no [InvalidInputError]. *)
Lemma missing_field_counterexample :
  ¬ Spec.invalid_input_contract Examples.unix
  ∧ ExecRenderer.render Examples.unix ∅ = Raise (KeyError (PStr "cmd")).
Proof.
  split; [|reflexivity].
  intros [Hexec _]. destruct (Hexec ∅ (lookup_empty _)) as [msg Hmsg].
  discriminate Hmsg.
Qed.

(** ** The cache key of a rendered formula *)

Section cachekey.

Context (P : Primitives).

Lemma ltb_false_le (a b : string) : String.ltb a b = false → String.le b a.
Proof.
  unfold String.le, String.ltb, String.leb. rewrite (String.compare_antisym b a).
  by destruct (String.compare a b).
Qed.

Lemma ltb_true_le (a b : string) : String.ltb a b = true → String.le a b.
Proof.
  unfold String.le, String.ltb, String.leb. by destruct (String.compare a b).
Qed.

Lemma insert_item_perm (x : string * pyval) (l : list (string * pyval)) :
  RenderedLatexFormula.insert_item x l ≡ₚ x :: l.
Proof.
  induction l as [|y l IH]; [done|]. cbn.
  destruct (String.ltb y.1 x.1); [|done].
  rewrite IH. apply perm_swap.
Qed.

Lemma sorted_perm (l : list (string * pyval)) : RenderedLatexFormula.sorted l ≡ₚ l.
Proof.
  induction l as [|x l IH]; [done|]. cbn.
  fold (RenderedLatexFormula.sorted l). by rewrite insert_item_perm, IH.
Qed.

Lemma insert_item_sorted (x : string * pyval) (l : list (string * pyval)) :
  StronglySorted RenderedLatexFormula.key_le l → StronglySorted RenderedLatexFormula.key_le (RenderedLatexFormula.insert_item x l).
Proof.
  induction 1 as [|y l Hl IH Hy]; cbn.
  - by repeat constructor.
  - destruct (String.ltb y.1 x.1) eqn:Hlt.
    + constructor; [done|]. rewrite insert_item_perm. constructor; [|done].
      by apply ltb_true_le.
    + apply ltb_false_le in Hlt. constructor; [by constructor|].
      constructor; [done|].
      eapply Forall_impl; [exact Hy|]. intros z Hz. unfold RenderedLatexFormula.key_le in *. by etrans.
Qed.

Lemma sorted_sorted (l : list (string * pyval)) :
  StronglySorted RenderedLatexFormula.key_le (RenderedLatexFormula.sorted l).
Proof.
  induction l as [|x l IH]; [constructor|]. by apply insert_item_sorted.
Qed.

Lemma item_of_key (l : list (string * pyval)) (x y : string * pyval) :
  NoDup l.*1 → x ∈ l → y ∈ l → x.1 = y.1 → x = y.
Proof.
  induction l as [|z l IH]; [by intros _ ?%elem_of_nil|].
  rewrite fmap_cons, NoDup_cons. intros [Hz Hl] Hx Hy Hxy.
  apply elem_of_cons in Hx as [->|Hx]; apply elem_of_cons in Hy as [->|Hy].
  - done.
  - destruct Hz. rewrite Hxy. by apply list_elem_of_fmap_2.
  - destruct Hz. rewrite <-Hxy. by apply list_elem_of_fmap_2.
  - by apply IH.
Qed.

Lemma sorted_of_permutation (items1 items2 : list (string * pyval)) :
  NoDup items1.*1 → items1 ≡ₚ items2 →
  RenderedLatexFormula.sorted items1 = RenderedLatexFormula.sorted items2.
Proof.
  intros Hnd Hperm.
  apply (StronglySorted_unique_strong RenderedLatexFormula.key_le); [|apply sorted_sorted..|].
  - intros x y Hx Hy Hxy Hyx.
    apply (item_of_key items1); [done| | |].
    + by rewrite <-(sorted_perm items1).
    + by rewrite Hperm, <-(sorted_perm items2).
    + by apply (anti_symm String.le).
  - by rewrite !sorted_perm.
Qed.

(** C3.  [calculate_cachekey] is a function of the formula and of the
    items of the rendering parameters in key order: the items are sorted by
    key before they are turned into text and hashed, so two dictionaries with
    the same items, filled in any two orders, have the same cache key. *)
Theorem calculate_cachekey_order_independent (formula : pyval)
    (items1 items2 : list (string * pyval)) :
  NoDup items1.*1 → items1 ≡ₚ items2 →
  RenderedLatexFormula.calculate_cachekey P formula (PDict items1)
  = RenderedLatexFormula.calculate_cachekey P formula (PDict items2)
  ∧ StronglySorted RenderedLatexFormula.key_le (RenderedLatexFormula.sorted items1)
  ∧ RenderedLatexFormula.sorted items1 ≡ₚ items1.
Proof.
  intros Hnd Hperm. split_and!; [|apply sorted_sorted|apply sorted_perm].
  unfold RenderedLatexFormula.calculate_cachekey.
  by rewrite (sorted_of_permutation items1 items2).
Qed.
End cachekey.

Lemma calculate_cachekey_order_independent_witness :
  RenderedLatexFormula.calculate_cachekey Examples.unix (PStr "x^2")
    (PDict Examples.parameters)
  = RenderedLatexFormula.calculate_cachekey Examples.unix (PStr "x^2")
      (PDict Examples.parameters').
Proof.
  refine (proj1 (calculate_cachekey_order_independent Examples.unix (PStr "x^2")
    Examples.parameters Examples.parameters' _ _)).
  - apply (bool_decide_unpack _). vm_compute. exact I.
  - unfold Examples.parameters, Examples.parameters'.
    etrans; [apply perm_skip, perm_swap|]. apply perm_swap.
Defined.

(** ** The JSON file of a rendered formula *)

Section base64.

Local Open Scope N_scope.

Ltac div_lia := zify; Z.to_euclidean_division_equations; lia.

Lemma letter_char_of (n : N) : n < 64 → Base64.letter (Base64.char_of n) n.
Proof.
  intros H. rewrite <-(N2Nat.id n) at 2. assert (N.to_nat n < 64)%nat as Hm by lia.
  rewrite <-(N2Nat.id n). generalize dependent (N.to_nat n). clear. intros m Hm.
  rewrite !Nat2N.id.
  do 64 (destruct m as [|m]; [by vm_compute|]). lia.
Qed.

Lemma byte_of_to_N (b : byte) : Base64.byte_of (Byte.to_N b) = b.
Proof.
  unfold Base64.byte_of. pose proof (Byte.to_N_bounded b).
  rewrite N.mod_small by lia. by rewrite Byte.of_to_N.
Qed.

Lemma byte_of_eq (n : N) (b : byte) : n = Byte.to_N b → Base64.byte_of n = b.
Proof. intros ->. apply byte_of_to_N. Qed.

Lemma list_ind3 {A} (Q : list A → Prop) :
  Q [] → (∀ a, Q [a]) → (∀ a b, Q [a; b]) →
  (∀ a b c l, Q l → Q (a :: b :: c :: l)) → ∀ l, Q l.
Proof.
  intros H0 H1 H2 H3.
  assert (∀ l, Q l ∧ (∀ a, Q (a :: l)) ∧ (∀ a b, Q (a :: b :: l))) as H.
  { induction l as [|x l (IH0 & IH1 & IH2)]; [by auto|]. split_and!; auto. }
  intros l. apply H.
Qed.

(** One step of the decoder on a character of the alphabet. *)
Lemma a2b_letter (quad_pos : nat) (leftchar : N) (pads : nat) (c : ascii) (v : N)
    (cs : list ascii) :
  Base64.letter c v →
  Base64.a2b_base64_from quad_pos leftchar pads (c :: cs)
  = match quad_pos with
    | 0%nat => Base64.a2b_base64_from 1 v 0 cs
    | 1%nat =>
        tl ← Base64.a2b_base64_from 2 (v mod 16) 0 cs;
        Ok (Base64.byte_of (leftchar * 4 + v / 16) :: tl)
    | 2%nat =>
        tl ← Base64.a2b_base64_from 3 (v mod 4) 0 cs;
        Ok (Base64.byte_of (leftchar * 16 + v / 4) :: tl)
    | _ =>
        tl ← Base64.a2b_base64_from 0 0 0 cs;
        Ok (Base64.byte_of (leftchar * 64 + v) :: tl)
    end.
Proof.
  intros (Hv & Hpad & _).
  cbn [Base64.a2b_base64_from]. by rewrite Hpad, Hv.
Qed.

Lemma a2b_char_of (quad_pos : nat) (leftchar : N) (pads : nat) (v : N)
    (cs : list ascii) :
  v < 64 →
  Base64.a2b_base64_from quad_pos leftchar pads (Base64.char_of v :: cs)
  = match quad_pos with
    | 0%nat => Base64.a2b_base64_from 1 v 0 cs
    | 1%nat =>
        tl ← Base64.a2b_base64_from 2 (v mod 16) 0 cs;
        Ok (Base64.byte_of (leftchar * 4 + v / 16) :: tl)
    | 2%nat =>
        tl ← Base64.a2b_base64_from 3 (v mod 4) 0 cs;
        Ok (Base64.byte_of (leftchar * 16 + v / 4) :: tl)
    | _ =>
        tl ← Base64.a2b_base64_from 0 0 0 cs;
        Ok (Base64.byte_of (leftchar * 64 + v) :: tl)
    end.
Proof. intros H. by apply a2b_letter, letter_char_of. Qed.

Lemma char_of_ascii (v : N) :
  v < 64 → (N_of_ascii (Base64.char_of v) <? 128) = true.
Proof. intros H. by apply letter_char_of. Qed.

Lemma chars_ascii (bs : list byte) :
  forallb (λ c, N_of_ascii c <? 128) (Base64.chars bs) = true.
Proof.
  unfold Base64.chars. induction bs as [|a|a b|a b c l IH] using list_ind3.
  - reflexivity.
  - pose proof (Byte.to_N_bounded a).
    cbn -[Base64.char_of N.div N.modulo N.mul N.ltb].
    rewrite !char_of_ascii by div_lia. reflexivity.
  - pose proof (Byte.to_N_bounded a). pose proof (Byte.to_N_bounded b).
    cbn -[Base64.char_of N.div N.modulo N.mul N.ltb].
    rewrite !char_of_ascii by div_lia. reflexivity.
  - pose proof (Byte.to_N_bounded a). pose proof (Byte.to_N_bounded b).
    pose proof (Byte.to_N_bounded c).
    cbn -[Base64.char_of N.div N.modulo N.mul N.ltb].
    rewrite !char_of_ascii by div_lia. exact IH.
Qed.

Lemma a2b_chars (bs : list byte) : Base64.a2b_base64 (Base64.chars bs) = Ok bs.
Proof.
  unfold Base64.a2b_base64, Base64.chars.
  induction bs as [|a|a b|a b c l IH] using list_ind3.
  - reflexivity.
  - pose proof (Byte.to_N_bounded a).
    cbn -[Base64.char_of N.div N.modulo N.mul Base64.a2b_base64_from].
    rewrite !a2b_char_of by div_lia.
    cbn -[Base64.char_of N.div N.modulo N.mul Base64.byte_of].
    do 2 f_equal. apply byte_of_eq. div_lia.
  - pose proof (Byte.to_N_bounded a). pose proof (Byte.to_N_bounded b).
    cbn -[Base64.char_of N.div N.modulo N.mul Base64.a2b_base64_from].
    rewrite !a2b_char_of by div_lia.
    cbn -[Base64.char_of N.div N.modulo N.mul Base64.byte_of].
    f_equal. f_equal; [|f_equal]; apply byte_of_eq; div_lia.
  - pose proof (Byte.to_N_bounded a). pose proof (Byte.to_N_bounded b).
    pose proof (Byte.to_N_bounded c).
    cbn -[Base64.char_of N.div N.modulo N.mul Base64.a2b_base64_from].
    rewrite !a2b_char_of by div_lia.
    rewrite IH. cbn -[N.div N.modulo N.mul Base64.byte_of].
    f_equal. f_equal; [|f_equal; [|f_equal]]; apply byte_of_eq; div_lia.
Qed.

Lemma b64decode_b64encode (bs : list byte) :
  Base64.b64decode (Base64.b64encode bs) = Ok bs.
Proof.
  unfold Base64.b64decode. fold (Base64.chars bs).
  rewrite chars_ascii. apply a2b_chars.
Qed.

End base64.

Section jsonfile.

Context (P : Primitives).

Lemma lookup_put_eq {A} (fs : filetable A) (path : string) (a : A) :
  put fs path a !! path = Some a.
Proof. unfold lookup, filetable_lookup, put. cbn. apply lookup_insert_eq. Qed.


Lemma write_jsonfile_inv (self : RenderedLatexFormula.t) (filename : string)
    (fs fs' : textfiles) :
  RenderedLatexFormula.write_jsonfile P self filename fs = Ok fs' →
  ∃ bs doc text,
    RenderedLatexFormula._png_data self = PBytes bs
    ∧ RenderedLatexFormula.json_data self = Ok doc
    ∧ json_dumps P doc = Ok text
    ∧ fs' = put fs filename text.
Proof.
  unfold RenderedLatexFormula.write_jsonfile, RenderedLatexFormula.json_data.
  destruct (RenderedLatexFormula._png_data self) as [| | | |bs| | |]; try done.
  cbn. destruct (json_dumps P _) as [text|e] eqn:Hdump; [|done].
  cbn. intros [= <-]. by eexists bs, _, text.
Qed.

(** Induction on a value and the values inside it. *)
Lemma pyval_nested_ind (Q : pyval → Prop) :
  Q PNone → (∀ b, Q (PBool b)) → (∀ z, Q (PInt z)) → (∀ s, Q (PStr s)) →
  (∀ bs, Q (PBytes bs)) →
  (∀ l, Forall Q l → Q (PList l)) →
  (∀ l, Forall Q l → Q (PTuple l)) →
  (∀ d, Forall (λ kv, Q kv.2) d → Q (PDict d)) →
  ∀ v, Q v.
Proof.
  intros HNone HBool HInt HStr HBytes HList HTuple HDict.
  fix IH 1. intros [|b|z|s|bs|l|l|d].
  - exact HNone.
  - apply HBool.
  - apply HInt.
  - apply HStr.
  - apply HBytes.
  - apply HList. induction l as [|x l IHl]; constructor; [apply IH|exact IHl].
  - apply HTuple. induction l as [|x l IHl]; constructor; [apply IH|exact IHl].
  - apply HDict. induction d as [|[k x] d IHd]; constructor; [apply IH|exact IHd].
Qed.

(** The values that are read back as they are, are those without a
    tuple. *)
Lemma read_back_tuple_free (v : pyval) :
  Json.read_back v = v ↔ Json.tuple_free v = true.
Proof.
  induction v as [|b|z|s|bs|l IH|l IH|d IH] using pyval_nested_ind;
    cbn [Json.tuple_free Json.read_back]; try done.
  - split; [intros [= Hl]|intros Hl; f_equal].
    + induction IH as [|x l Hx _ IHl]; [done|].
      injection Hl as Hx' Hl. cbn. apply andb_true_iff. split; [by apply Hx|by apply IHl].
    + induction IH as [|x l Hx _ IHl]; [done|].
      cbn in Hl. apply andb_true_iff in Hl as [Hx' Hl]. cbn.
      f_equal; [by apply Hx|by apply IHl].
  - split; [intros [= Hd]|intros Hd; f_equal].
    + induction IH as [|[k x] d Hx _ IHd]; [done|].
      injection Hd as Hx' Hd. cbn in *. apply andb_true_iff.
      split; [by apply Hx|by apply IHd].
    + induction IH as [|[k x] d Hx _ IHd]; [done|].
      cbn in Hd. apply andb_true_iff in Hd as [Hx' Hd]. cbn in *.
      f_equal; [f_equal; by apply Hx|by apply IHd].
Qed.

(** What [read_jsonfile] makes of the document of a rendered formula that
    [json] read back. *)
Lemma read_jsonfile_written (self : RenderedLatexFormula.t) (filename : string)
    (fs : textfiles) (bs : list byte) (doc : pyval) (text : string) :
  RenderedLatexFormula._png_data self = PBytes bs →
  RenderedLatexFormula.json_data self = Ok doc →
  json_loads P text = Ok (Json.read_back doc) →
  RenderedLatexFormula.read_jsonfile P filename (put fs filename text)
  = Ok (RenderedLatexFormula.mk
          (Json.read_back (RenderedLatexFormula._formula self))
          (PBytes bs)
          (Json.read_back (RenderedLatexFormula._image_info self))
          (Json.read_back (RenderedLatexFormula._rendering_parameters self))).
Proof.
  intros Hpng Hdoc Hload.
  unfold RenderedLatexFormula.read_jsonfile.
  rewrite lookup_put_eq, Hload.
  revert Hdoc. unfold RenderedLatexFormula.json_data. rewrite Hpng. intros [= <-].
  cbn -[Base64.b64decode Base64.b64encode].
  rewrite b64decode_b64encode. reflexivity.
Qed.

(** C7, as the code and the [json] module have it.  Every byte sequence
    encoded by [b64encode] is what [b64decode] makes of the text.  When
    [write_jsonfile] has written a rendered formula, [read_jsonfile] returns
    a rendered formula with the same PNG bytes, and with the formula, the
    image information and the rendering parameters as [json] reads them
    back: a tuple in them has become a list.  What is read is the rendered
    formula that was written exactly when no tuple occurs in these three. *)
Theorem jsonfile_round_trip (self : RenderedLatexFormula.t) (filename : string)
    (fs fs' : textfiles) :
  RenderedLatexFormula.write_jsonfile P self filename fs = Ok fs' →
  (∀ doc, RenderedLatexFormula.json_data self = Ok doc → Json.reads_back P doc) →
  ∃ bs,
    RenderedLatexFormula._png_data self = PBytes bs
    ∧ (∀ bs', Base64.b64decode (Base64.b64encode bs') = Ok bs')
    ∧ RenderedLatexFormula.read_jsonfile P filename fs'
      = Ok (RenderedLatexFormula.mk
              (Json.read_back (RenderedLatexFormula._formula self))
              (PBytes bs)
              (Json.read_back (RenderedLatexFormula._image_info self))
              (Json.read_back (RenderedLatexFormula._rendering_parameters self)))
    ∧ (RenderedLatexFormula.read_jsonfile P filename fs' = Ok self
       ↔ Json.tuple_free (RenderedLatexFormula._formula self) = true
         ∧ Json.tuple_free (RenderedLatexFormula._image_info self) = true
         ∧ Json.tuple_free (RenderedLatexFormula._rendering_parameters self) = true).
Proof.
  intros (bs & doc & text & Hpng & Hdoc & Hdump & ->)%write_jsonfile_inv Hjson.
  pose proof (read_jsonfile_written self filename fs bs doc text Hpng Hdoc
                (Hjson doc Hdoc text Hdump)) as Hread.
  exists bs. split_and!; [done|apply b64decode_b64encode|done|].
  rewrite Hread, <-!read_back_tuple_free.
  destruct self as [formula png info params]. cbn in *. subst png. split.
  - by intros [= -> -> ->].
  - by intros (-> & -> & ->).
Qed.

End jsonfile.

Lemma jsonfile_round_trip_witness :
  RenderedLatexFormula.read_jsonfile Examples.json_x_squared "formula.json"
    {[ "formula.json" := Examples.x_squared_text ]}
  = Ok Examples.x_squared.
Proof.
  destruct (jsonfile_round_trip Examples.json_x_squared Examples.x_squared
    "formula.json" ∅ {[ "formula.json" := Examples.x_squared_text ]} eq_refl)
    as (bs & _ & _ & _ & Hread).
  - intros doc Hdoc text Hdump.
    vm_compute in Hdoc. injection Hdoc as <-.
    vm_compute in Hdump. injection Hdump as <-.
    reflexivity.
  - apply Hread. split_and!; reflexivity.
Defined.

(** C7 as the design document states it fails: a rendered formula whose
    rendering parameters hold the tuple [(1, 2)] is read back with the list
    [[1, 2]] in its place. *)
Lemma jsonfile_round_trip_counterexample :
  ¬ Spec.jsonfile_contract Examples.json_sized Examples.sized "formula.json" ∅
  ∧ Json.reads_back Examples.json_sized Examples.sized_doc
  ∧ RenderedLatexFormula.write_jsonfile Examples.json_sized Examples.sized
      "formula.json" ∅
    = Ok {[ "formula.json" := Examples.sized_text ]}
  ∧ RenderedLatexFormula.read_jsonfile Examples.json_sized "formula.json"
      {[ "formula.json" := Examples.sized_text ]}
    = Ok Examples.sized_read.
Proof.
  assert (RenderedLatexFormula.write_jsonfile Examples.json_sized Examples.sized
            "formula.json" ∅
          = Ok ({[ "formula.json" := Examples.sized_text ]} : textfiles)) as Hwrite
    by reflexivity.
  assert (RenderedLatexFormula.read_jsonfile Examples.json_sized "formula.json"
            ({[ "formula.json" := Examples.sized_text ]} : textfiles)
          = Ok Examples.sized_read) as Hread by reflexivity.
  split_and!; [|by intros text [= <-]|done|done].
  intros Hcontract. specialize (Hcontract _ Hwrite).
  rewrite Hread in Hcontract. discriminate Hcontract.
Qed.

(** ** Files added to a rendered presentation *)

Section rendered_presentation.

Import RenderedPresentation.

Lemma deployed_inj (self : t) (d d' : string) :
  deployed self d = deployed self d' → d = d'.
Proof.
  unfold deployed. intros H. apply (inj (String.app _)) in H.
  by apply (inj (String.app "/")) in H.
Qed.

Lemma add_file_added (self : t) (w : world) (d : string) (content : pyval) :
  d ∈ _added_files self → add_file self w d content = (Ok tt, self, w).
Proof. intros H. unfold add_file. by rewrite decide_True. Qed.

Lemma copy_file_added (self : t) (w : world) (src d : string) :
  d ∈ _added_files self → copy_file self w src d = (Ok tt, self, w).
Proof. intros H. unfold copy_file. by rewrite decide_True. Qed.

Lemma extends_refl (sw : t * world) : extends sw sw.
Proof. by split. Qed.

Lemma extends_trans (sw1 sw2 sw3 : t * world) :
  extends sw1 sw2 → extends sw2 sw3 → extends sw1 sw3.
Proof.
  intros [Hd1 Ha1] [Hd2 Ha2]. split; [congruence|by etrans].
Qed.

Lemma lookup_store_eq (fs : filesystem) (path : string) (content : filedata) :
  store fs path content !! path = Some content.
Proof. unfold lookup, filesystem_lookup, store. cbn. apply lookup_insert_eq. Qed.

Lemma lookup_store_ne (fs : filesystem) (path other : string) (content : filedata) :
  resolve fs other ≠ resolve fs path →
  store fs path content !! other = fs !! other.
Proof.
  intros Hne. unfold lookup, filesystem_lookup, store. cbn.
  by apply lookup_insert_ne.
Qed.

(** The first call for a destination when the operating system lets it
    open the file: what happens is what writing the content does. *)
Lemma add_file_opened (self : t) (w : world) (d : string) (content : pyval) :
  d ∉ _added_files self →
  lets_open self w d →
  add_file self w d content
  = ((write_content (makedirs w (dirname (deployed self d))) (deployed self d) content).1,
     added self d,
     (write_content (makedirs w (dirname (deployed self d))) (deployed self d) content).2).
Proof.
  intros H [Hmk Hopen]. unfold add_file. rewrite decide_False by done.
  cbn zeta. change (_deploy_directory (added self d) ++ "/" ++ d) with (deployed self d).
  rewrite Hmk, Hopen. by destruct (write_content _ _ content).
Qed.

(** The first call for a destination when the operating system raises
    nothing: the destination is recorded, the directory is created, the file
    is opened and the content is written to it; content that is neither a
    string nor bytes makes [f.write] raise after the file was opened. *)
Lemma add_file_fresh (self : t) (w : world) (d : string) (content : pyval) :
  d ∉ _added_files self →
  lets_write self w d →
  add_file self w d content
  = (match content with
     | PStr _ | PBytes _ => Ok tt
     | _ => Raise TypeError
     end,
     added self d,
     write (makedirs w (dirname (deployed self d))) (deployed self d) (Presentation.written content)).
Proof.
  intros H [Hopen Hwrite]. rewrite add_file_opened by done.
  unfold write_content. rewrite Hwrite. by destruct content.
Qed.

(** The first call for a destination whose file the operating system does
    not let open: its error is raised, the destination is recorded and no
    file was opened. *)
Lemma add_file_refused (self self' : t) (w w' : world) (d : string) (content : pyval)
    (r : result unit) :
  d ∉ _added_files self →
  ¬ lets_open self w d →
  add_file self w d content = (r, self', w') →
  self' = added self d
  ∧ files w' = files w
  ∧ opened w' = opened w
  ∧ ∃ e, r = Raise (exn_of_os_error e).
Proof.
  intros H Hnot. unfold add_file. rewrite decide_False by done.
  cbn zeta. change (_deploy_directory (added self d) ++ "/" ++ d) with (deployed self d).
  unfold lets_open in Hnot.
  destruct (refused w (Makedirs (dirname (deployed self d)))) as [e|] eqn:Hmk.
  { apply fmap_Some in Hmk as (e' & _ & ->).
    intros [= <- <- <-]. split_and!; [done..|]. by exists e'. }
  destruct (refused (makedirs w (dirname (deployed self d)))
              (OpenForWriting (deployed self d))) as [e|] eqn:Hopen.
  { apply fmap_Some in Hopen as (e' & _ & ->).
    intros [= <- <- <-]. split_and!; [done..|]. by exists e'. }
  by destruct Hnot.
Qed.

Lemma not_os_error (e : os_error) :
  exn_of_os_error e ≠ TypeError.
Proof. by destruct e. Qed.

Lemma add_file_self (self : t) (w : world) (d : string) (content : pyval) :
  d ∉ _added_files self → (add_file self w d content).1.2 = added self d.
Proof.
  intros H. unfold add_file. rewrite decide_False by done. cbn zeta.
  destruct (refused w _); [done|].
  destruct (refused (makedirs w _) _); [done|].
  by destruct (write_content _ _ content).
Qed.

Lemma add_file_extends (self : t) (w : world) (d : string) (content : pyval) :
  extends (self, w) ((add_file self w d content).1.2, (add_file self w d content).2).
Proof.
  destruct (decide (d ∈ _added_files self)) as [Hin|Hnot].
  { rewrite add_file_added by done. apply extends_refl. }
  split; cbn; rewrite add_file_self by done; cbn; [done|].
  apply union_subseteq_r.
Qed.

Lemma copy_file_extends (self : t) (w : world) (src d : string) :
  extends (self, w) ((copy_file self w src d).1.2, (copy_file self w src d).2).
Proof.
  unfold copy_file. destruct (decide (d ∈ _added_files self)); [apply extends_refl|].
  destruct (read_bytes w src); [apply add_file_extends|apply extends_refl].
Qed.

Lemma add_file_adds (self : t) (w : world) (d : string) (content : pyval) :
  d ∈ _added_files (add_file self w d content).1.2.
Proof.
  destruct (decide (d ∈ _added_files self)) as [Hin|Hnot].
  { by rewrite add_file_added. }
  rewrite add_file_self by done. cbn.
  apply elem_of_union_l, elem_of_singleton. reflexivity.
Qed.

Lemma copy_file_adds (self : t) (w : world) (src d : string) :
  (copy_file self w src d).1.1 = Ok tt → d ∈ _added_files (copy_file self w src d).1.2.
Proof.
  unfold copy_file. destruct (decide (d ∈ _added_files self)); [done|].
  destruct (read_bytes w src); [|done]. intros _. apply add_file_adds.
Qed.

(** A first call of [add_file] that does not raise an error of the
    operating system was let to open the file, and has written it: its
    content, or nothing when the content was neither a string nor bytes. *)
Lemma add_file_written (self self' : t) (w w' : world) (d : string) (content : pyval)
    (r : result unit) :
  d ∉ _added_files self →
  add_file self w d content = (r, self', w') →
  (∀ e, r ≠ Raise (exn_of_os_error e)) →
  lets_open self w d
  ∧ r = match content with
        | PStr _ | PBytes _ => Ok tt
        | _ => Raise TypeError
        end
  ∧ self' = added self d
  ∧ w' = write (makedirs w (dirname (deployed self d))) (deployed self d)
           (Presentation.written content).
Proof.
  intros Hfresh Hadd Hr.
  destruct (decide (lets_open self w d)) as [Hlets|Hnot].
  - split; [done|]. rewrite add_file_opened in Hadd by done.
    injection Hadd as <- <- <-. revert Hr. unfold write_content.
    destruct (refused (makedirs w _) (WriteTo _)) as [e|] eqn:He.
    + apply fmap_Some in He as (e' & _ & ->).
      destruct content; cbn; intros Hr; try done; by destruct (Hr e').
    + by destruct content.
  - destruct (add_file_refused self self' w w' d content r Hfresh Hnot Hadd)
      as (_ & _ & _ & e & ->). by destruct (Hr e).
Qed.

(** What a call of [add_file] that returns has done for a destination that
    was not added before. *)
Lemma add_file_returns (self self' : t) (w w' : world) (d : string) (content : pyval) :
  d ∉ _added_files self →
  add_file self w d content = (Ok tt, self', w') →
  _added_files self' = {[ d ]} ∪ _added_files self
  ∧ dirname (deployed self d) ∈ dirs w'
  ∧ files w' !! deployed self d = Some (Presentation.written content)
  ∧ opened w' = deployed self d :: opened w
  ∧ ∀ other, ¬ same_file w other (deployed self d) →
             files w' !! other = files w !! other.
Proof.
  intros Hfresh Hadd.
  destruct (add_file_written self self' w w' d content _ Hfresh Hadd)
    as (_ & _ & -> & ->); [done|]. cbn.
  split_and!; [done| | |done|].
  - apply elem_of_union_l, elem_of_singleton. reflexivity.
  - apply lookup_store_eq.
  - intros other Hother. by apply lookup_store_ne.
Qed.

(** What a call of [copy_file] that returns has done for a destination
    that was not added before: the source was read, and its bytes were
    written by [add_file]. *)
Lemma copy_file_returns (self self' : t) (w w' : world) (src d : string) :
  d ∉ _added_files self →
  copy_file self w src d = (Ok tt, self', w') →
  ∃ bs, read_bytes w src = Ok bs
        ∧ add_file self w d (PBytes bs) = (Ok tt, self', w')
        ∧ _added_files self' = {[ d ]} ∪ _added_files self
        ∧ dirname (deployed self d) ∈ dirs w'
        ∧ files w' !! deployed self d = Some (Binary bs)
        ∧ opened w' = deployed self d :: opened w
        ∧ ∀ other, ¬ same_file w other (deployed self d) →
                   files w' !! other = files w !! other.
Proof.
  intros Hfresh. unfold copy_file. rewrite decide_False by done.
  destruct (read_bytes w src) as [bs|e]; [|done]. intros Hadd.
  exists bs. split; [done|]. split; [done|].
  by apply (add_file_returns self self' w w' d (PBytes bs)).
Qed.

(** [copy_file] hands the bytes that it read to [add_file]. *)
Lemma copy_file_delegates (self : t) (w : world) (d src : string) (bs : list byte) :
  read_bytes w src = Ok bs →
  copy_file self w src d = add_file self w d (PBytes bs).
Proof.
  intros Hread. unfold copy_file. rewrite Hread.
  destruct (decide (d ∈ _added_files self)) as [Hin|Hnot]; [|done].
  by rewrite add_file_added.
Qed.

(** Calls for a destination that was added change nothing. *)
Lemma run_added (self : t) (w : world) (d : string) (calls : list call) :
  d ∈ _added_files self →
  Forall (λ c, destination c = d) calls →
  run (self, w) calls = (self, w).
Proof.
  intros Hin Hcalls. induction Hcalls as [|c calls Hc _ IH]; [done|].
  cbn. destruct c as [d' content|src d']; cbn in Hc; subst d'; cbn.
  - by rewrite add_file_added.
  - by rewrite copy_file_added.
Qed.

(** No call changes which file a path names. *)
Lemma add_file_resolve (self : t) (w : world) (d : string) (content : pyval) :
  resolve (files (add_file self w d content).2) = resolve (files w).
Proof.
  unfold add_file. destruct (decide (d ∈ _added_files self)); [done|]. cbn zeta.
  destruct (refused w _); [done|].
  destruct (refused (makedirs w _) _); [done|].
  unfold write_content. destruct (refused (makedirs w _) _); by destruct content.
Qed.

Lemma copy_file_resolve (self : t) (w : world) (src d : string) :
  resolve (files (copy_file self w src d).2) = resolve (files w).
Proof.
  unfold copy_file. destruct (decide (d ∈ _added_files self)); [done|].
  destruct (read_bytes w src); [apply add_file_resolve|done].
Qed.

(** A call leaves the file of a path as it is when its destination was
    added before, or when the file of its destination is another file. *)
Lemma add_file_frame (self : t) (w : world) (d path : string) (content : pyval) :
  d ∈ _added_files self ∨ ¬ same_file w (deployed self d) path →
  files (add_file self w d content).2 !! path = files w !! path.
Proof.
  intros [Hin|Hother]; [by rewrite add_file_added|].
  unfold add_file. destruct (decide (d ∈ _added_files self)); [done|]. cbn zeta.
  change (_deploy_directory (added self d) ++ "/" ++ d) with (deployed self d).
  destruct (refused w _); [done|].
  destruct (refused (makedirs w _) _); [done|].
  assert (∀ data, files (write (makedirs w (dirname (deployed self d)))
                           (deployed self d) data) !! path = files w !! path) as Hw.
  { intros data. cbn. apply lookup_store_ne. intros Heq. by destruct Hother. }
  unfold write_content. destruct (refused (makedirs w _) _); destruct content; apply Hw.
Qed.

Lemma copy_file_frame (self : t) (w : world) (src d path : string) :
  d ∈ _added_files self ∨ ¬ same_file w (deployed self d) path →
  files (copy_file self w src d).2 !! path = files w !! path.
Proof.
  intros H. unfold copy_file. destruct (decide (d ∈ _added_files self)); [done|].
  destruct (read_bytes w src); [by apply add_file_frame|done].
Qed.

Lemma step_frame (sw : t * world) (c : call) (path : string) :
  destination c ∈ _added_files sw.1
  ∨ ¬ same_file sw.2 (deployed sw.1 (destination c)) path →
  files (step sw c).2 !! path = files sw.2 !! path.
Proof.
  destruct sw as [self w]. destruct c as [d content|src d]; cbn; intros H.
  - pose proof (add_file_frame self w d path content H) as Hf.
    by destruct (add_file self w d content) as [[r self'] w'].
  - pose proof (copy_file_frame self w src d path H) as Hf.
    by destruct (copy_file self w src d) as [[r self'] w'].
Qed.

Lemma step_extends (sw : t * world) (c : call) :
  extends sw (step sw c) ∧ resolve (files (step sw c).2) = resolve (files sw.2).
Proof.
  destruct sw as [self w]. destruct c as [d content|src d]; cbn.
  - pose proof (add_file_extends self w d content) as H.
    pose proof (add_file_resolve self w d content) as Hr.
    by destruct (add_file self w d content) as [[r self'] w'].
  - pose proof (copy_file_extends self w src d) as H.
    pose proof (copy_file_resolve self w src d) as Hr.
    by destruct (copy_file self w src d) as [[r self'] w'].
Qed.

(** The file of an added destination through a sequence of calls: it stays
    as it is when every call is for the destination itself or for a
    destination whose file is another file. *)
Lemma run_frame (calls : list call) (self : t) (w : world) (d : string) :
  d ∈ _added_files self →
  spare self w d calls →
  files (run (self, w) calls).2 !! deployed self d = files w !! deployed self d.
Proof.
  intros Hin Hcalls.
  assert (∀ sw, extends (self, w) sw → resolve (files sw.2) = resolve (files w) →
                files (run sw calls).2 !! deployed self d
                = files sw.2 !! deployed self d) as H.
  { induction Hcalls as [|c calls Hc _ IH]; [done|]. intros sw Hext Hres. cbn.
    destruct (step_extends sw c) as [Hext' Hres'].
    rewrite IH.
    - apply step_frame. destruct Hext as [Hdir Hsub]. cbn in Hdir, Hsub.
      destruct Hc as [->|Hc]; [left; by apply Hsub|right].
      unfold same_file, deployed in *. by rewrite Hres, Hdir.
    - by eapply extends_trans.
    - congruence. }
  apply (H (self, w)); [apply extends_refl|done].
Qed.

(** C10.  [add_file] and [copy_file] are first-write-wins for a
    destination.  The first call for a destination, when it returns, has
    recorded the destination, created the directory and written the file of
    that name below the deploy directory, the one file it opened for writing,
    and no file of another name, unless the two names are names of one file:
    [add_file] has written its content, [copy_file] the bytes that it read
    from its source.  The first [add_file] with a string or bytes does return
    when the operating system raises nothing, and [copy_file] is [add_file]
    with the bytes of a source that it could read.  A call of [add_file],
    whatever its outcome, leaves the destination among the added files, and
    so does a call of [copy_file] that returns; the added files only grow.
    Once a destination is among the added files, every call of [add_file] or
    [copy_file] for it, whatever the content or the source, returns without
    changing the presentation or the file system, and so does every sequence
    of such calls: the deployed file and the set of added files stay as the
    first call left them.  The deployed file also stays as it is through
    calls for other destinations, as long as their files are other files. *)
Theorem add_file_first_write_wins (self : t) (w : world) (d : string) :
  (d ∉ _added_files self →
   (∀ content self' w',
      add_file self w d content = (Ok tt, self', w') →
      _added_files self' = {[ d ]} ∪ _added_files self
      ∧ dirname (deployed self d) ∈ dirs w'
      ∧ files w' !! deployed self d = Some (Presentation.written content)
      ∧ opened w' = deployed self d :: opened w
      ∧ ∀ other, ¬ same_file w other (deployed self d) →
                 files w' !! other = files w !! other)
   ∧ (∀ src self' w',
        copy_file self w src d = (Ok tt, self', w') →
        ∃ bs, read_bytes w src = Ok bs
              ∧ _added_files self' = {[ d ]} ∪ _added_files self
              ∧ dirname (deployed self d) ∈ dirs w'
              ∧ files w' !! deployed self d = Some (Binary bs)
              ∧ opened w' = deployed self d :: opened w
              ∧ ∀ other, ¬ same_file w other (deployed self d) →
                         files w' !! other = files w !! other)
   ∧ (lets_write self w d →
      (∀ s, (add_file self w d (PStr s)).1.1 = Ok tt)
      ∧ (∀ bs, (add_file self w d (PBytes bs)).1.1 = Ok tt)
      ∧ ∀ src bs, read_bytes w src = Ok bs → (copy_file self w src d).1.1 = Ok tt))
  ∧ (∀ src bs, read_bytes w src = Ok bs →
               copy_file self w src d = add_file self w d (PBytes bs))
  ∧ (∀ content, d ∈ _added_files (add_file self w d content).1.2)
  ∧ (∀ src, (copy_file self w src d).1.1 = Ok tt →
            d ∈ _added_files (copy_file self w src d).1.2)
  ∧ (∀ content, _added_files self ⊆ _added_files (add_file self w d content).1.2)
  ∧ (∀ src, _added_files self ⊆ _added_files (copy_file self w src d).1.2)
  ∧ (d ∈ _added_files self →
     (∀ content, add_file self w d content = (Ok tt, self, w))
     ∧ (∀ src, copy_file self w src d = (Ok tt, self, w))
     ∧ (∀ calls, Forall (λ c, destination c = d) calls →
                 run (self, w) calls = (self, w))
     ∧ ∀ calls, spare self w d calls →
                files (run (self, w) calls).2 !! deployed self d
                = files w !! deployed self d).
Proof.
  split_and!; [|by apply copy_file_delegates|..].
  - intros Hfresh. split_and!.
    + intros content self' w'. by apply add_file_returns.
    + intros src self' w' Hcopy.
      destruct (copy_file_returns self self' w w' src d Hfresh Hcopy)
        as (bs & Hread & _ & Hrest).
      by exists bs.
    + intros Hlets. split_and!.
      * intros s. by rewrite add_file_fresh.
      * intros bs. by rewrite add_file_fresh.
      * intros src bs Hread. unfold copy_file.
        rewrite decide_False, Hread by done. by rewrite add_file_fresh.
  - intros content. apply add_file_adds.
  - intros src. apply copy_file_adds.
  - intros content. apply (add_file_extends self w d content).
  - intros src. apply (copy_file_extends self w src d).
  - intros Hin. split_and!.
    + intros content. by apply add_file_added.
    + intros src. by apply copy_file_added.
    + intros calls. by apply run_added.
    + intros calls. by apply run_frame.
Qed.

End rendered_presentation.

Lemma add_file_first_write_wins_witness :
  (∃ self' w',
     RenderedPresentation.add_file (RenderedPresentation.__init__ "/srv/www")
       Examples.empty_world "index.html" (PStr "<p>first</p>") = (Ok tt, self', w')
     ∧ RenderedPresentation.files w' !! "/srv/www/index.html"
       = Some (RenderedPresentation.Text "<p>first</p>")
     ∧ RenderedPresentation.add_file self' w' "index.html" (PStr "<p>second</p>")
       = (Ok tt, self', w')
     ∧ RenderedPresentation.copy_file self' w' "/etc/motd" "index.html"
       = (Ok tt, self', w'))
  ∧ ∃ self' w',
      RenderedPresentation.copy_file (RenderedPresentation.__init__ "/srv/www")
        Inputs.disk "/home/me/talk/cat.png" "cat.png" = (Ok tt, self', w')
      ∧ RenderedPresentation.files w' !! "/srv/www/cat.png"
        = Some (RenderedPresentation.Binary Inputs.png).
Proof.
  split.
  - eexists _, _. split; [reflexivity|].
    match goal with
    | |- _ ∧ RenderedPresentation.add_file ?s ?w _ _ = _ ∧ _ =>
        set (self' := s); set (w' := w)
    end.
    pose proof (add_file_first_write_wins (RenderedPresentation.__init__ "/srv/www")
      Examples.empty_world "index.html") as (Hfirst & _).
    destruct (Hfirst (not_elem_of_empty _)) as (Hadd & _ & _).
    destruct (Hadd (PStr "<p>first</p>") self' w' eq_refl) as (Hset & _ & Hfile & _).
    split; [exact Hfile|].
    pose proof (add_file_first_write_wins self' w' "index.html")
      as (_ & _ & _ & _ & _ & _ & Hlater).
    destruct Hlater as (Hadd' & Hcopy' & _).
    { rewrite Hset. apply elem_of_union_l, elem_of_singleton. reflexivity. }
    split; [apply Hadd'|apply Hcopy'].
  - eexists _, _. split; [reflexivity|].
    match goal with
    | |- RenderedPresentation.files ?w !! _ = _ => set (w' := w)
    end.
    pose proof (add_file_first_write_wins (RenderedPresentation.__init__ "/srv/www")
      Inputs.disk "cat.png") as (Hfirst & _).
    destruct (Hfirst (not_elem_of_empty _)) as (_ & Hcopy & _).
    destruct (Hcopy "/home/me/talk/cat.png" _ w' eq_refl)
      as (bs & Hread & _ & _ & Hfile & _).
    vm_compute in Hread. injection Hread as <-. exact Hfile.
Defined.

(** * Further properties of the code *)

(** ** The exec renderer: when [render] returns *)

(** X1.  [ExecRenderer.render] returns a result exactly when the request
    has a [cmd], the command starts and it exits with status 0; the result
    is then the command with the two captured streams. *)
Theorem exec_render_ok_iff (P : Primitives) (request result : gmap string pyval) :
  ExecRenderer.render P request = Ok result
  ↔ ∃ cmd stdout stderr,
      request !! "cmd" = Some cmd
      ∧ subprocess_run P cmd = Completed 0 stdout stderr
      ∧ result = <[ "cmd" := cmd ]> (<[ "stdout" := PBytes stdout ]>
                   {[ "stderr" := PBytes stderr ]}).
Proof.
  unfold ExecRenderer.render, getitem. split.
  - destruct (request !! "cmd") as [cmd|] eqn:Hcmd; [|done]. cbn.
    destruct (subprocess_run P cmd) as [rc out err|e] eqn:Hrun.
    + destruct (Z.eqb_spec rc 0) as [->|Hne]; cbn; [|done].
      intros [= <-]. by exists cmd, out, err.
    + by destruct e.
  - intros (cmd & out & err & -> & Hrun & ->). cbn. by rewrite Hrun.
Qed.

(** ** The cache key and the JSON file of a rendered formula *)

Lemma ltb_of_le (a b : string) : String.le a b → String.ltb b a = false.
Proof.
  unfold String.le, String.ltb, String.leb. rewrite (String.compare_antisym b a).
  by destruct (String.compare a b).
Qed.

Lemma sorted_of_sorted (l : list (string * pyval)) :
  StronglySorted RenderedLatexFormula.key_le l → RenderedLatexFormula.sorted l = l.
Proof.
  induction 1 as [|x l Hl IH Hx]; [done|]. cbn.
  fold (RenderedLatexFormula.sorted l). rewrite IH.
  destruct Hx as [|y l' Hxy _]; [done|]. cbn.
  by rewrite (ltb_of_le _ _ Hxy).
Qed.

(** X2.  Sorting is idempotent, for any list of items: a dictionary whose
    items are already in key order is hashed as it is, and the cache key of
    the sorted items is the cache key of the items. *)
Theorem calculate_cachekey_sorted (P : Primitives) (formula : pyval)
    (items : list (string * pyval)) :
  RenderedLatexFormula.sorted (RenderedLatexFormula.sorted items)
  = RenderedLatexFormula.sorted items
  ∧ RenderedLatexFormula.calculate_cachekey P formula
      (PDict (RenderedLatexFormula.sorted items))
    = RenderedLatexFormula.calculate_cachekey P formula (PDict items).
Proof.
  assert (RenderedLatexFormula.sorted (RenderedLatexFormula.sorted items)
          = RenderedLatexFormula.sorted items) as Hidem.
  { apply sorted_of_sorted, sorted_sorted. }
  split; [done|].
  unfold RenderedLatexFormula.calculate_cachekey. by rewrite Hidem.
Qed.

Lemma b64encode_inj (bs bs' : list byte) :
  Base64.b64encode bs = Base64.b64encode bs' → bs = bs'.
Proof.
  intros H. pose proof (b64decode_b64encode bs) as Hd.
  rewrite H, b64decode_b64encode in Hd. by injection Hd.
Qed.

(** X3.  The document that [write_jsonfile] hands to [json.dump]
    determines the rendered formula: two rendered formulas with the same
    document are equal, PNG bytes included. *)
Theorem json_data_inj (a b : RenderedLatexFormula.t) (doc : pyval) :
  RenderedLatexFormula.json_data a = Ok doc →
  RenderedLatexFormula.json_data b = Ok doc →
  a = b.
Proof.
  destruct a as [fa pa ia ra], b as [fb pb ib rb].
  unfold RenderedLatexFormula.json_data. cbn.
  destruct pa; try done. destruct pb; try done.
  intros [= <-] [= -> -> -> Himg%b64encode_inj]. by subst.
Qed.

(** X4.  Whatever [read_jsonfile] returns was read from a file that
    exists and whose document says [object = "formula"], and its PNG data
    are bytes, decoded from the document's [image]. *)
Theorem read_jsonfile_inv (P : Primitives) (filename : string) (fs : textfiles)
    (a : RenderedLatexFormula.t) :
  RenderedLatexFormula.read_jsonfile P filename fs = Ok a →
  ∃ text doc image bs,
    fs !! filename = Some text
    ∧ json_loads P text = Ok doc
    ∧ subscript_str doc "object" = Ok (PStr "formula")
    ∧ subscript_str doc "formula" = Ok (RenderedLatexFormula._formula a)
    ∧ subscript_str doc "image" = Ok image
    ∧ RenderedLatexFormula.b64decode_val image = Ok (PBytes bs)
    ∧ RenderedLatexFormula._png_data a = PBytes bs
    ∧ subscript_str doc "image_info" = Ok (RenderedLatexFormula._image_info a)
    ∧ subscript_str doc "rendering_parameters"
      = Ok (RenderedLatexFormula._rendering_parameters a).
Proof.
  unfold RenderedLatexFormula.read_jsonfile.
  destruct (fs !! filename) as [text|] eqn:Hfile; [|done].
  destruct (json_loads P text) as [doc|] eqn:Hload; [|done]. cbn.
  destruct (subscript_str doc "object") as [object|] eqn:Hobj; [|done]. cbn.
  destruct (RenderedLatexFormula.eq_str object "formula") eqn:Heq; [|done].
  destruct (subscript_str doc "formula") as [formula|] eqn:Hf; [|done]. cbn.
  destruct (subscript_str doc "image") as [image|] eqn:Hi; [|done]. cbn.
  destruct (RenderedLatexFormula.b64decode_val image) as [png|] eqn:Hpng; [|done]. cbn.
  destruct (subscript_str doc "image_info") as [info|] eqn:Hinfo; [|done]. cbn.
  destruct (subscript_str doc "rendering_parameters") as [params|] eqn:Hp; [|done]. cbn.
  intros [= <-]. cbn.
  assert (∃ bs, png = PBytes bs) as [bs ->].
  { revert Hpng. unfold RenderedLatexFormula.b64decode_val.
    destruct image; try done.
    - destruct (Base64.b64decode s); cbn; [|done]. intros [= <-]. by eexists.
    - destruct (Base64.b64decode_bytes bs); cbn; [|done]. intros [= <-]. by eexists. }
  assert (object = PStr "formula") as ->.
  { destruct object; try done. cbn in Heq. apply String.eqb_eq in Heq. by subst. }
  by exists text, doc, image, bs.
Qed.

(** X5.  [read_jsonfile] raises [FileNotFoundError] for a file that does
    not exist, and [AssertionError] for a document whose [object] is not the
    string ["formula"], whatever else the document holds. *)
Theorem read_jsonfile_rejects (P : Primitives) (filename : string) (fs : textfiles) :
  (fs !! filename = None →
   RenderedLatexFormula.read_jsonfile P filename fs = Raise (FileNotFoundError filename))
  ∧ (∀ text doc object,
       fs !! filename = Some text → json_loads P text = Ok doc →
       subscript_str doc "object" = Ok object → object ≠ PStr "formula" →
       RenderedLatexFormula.read_jsonfile P filename fs = Raise AssertionError).
Proof.
  unfold RenderedLatexFormula.read_jsonfile. split.
  - by intros ->.
  - intros text doc object -> -> Hobj Hne. cbn. rewrite Hobj. cbn.
    destruct (RenderedLatexFormula.eq_str object "formula") eqn:Heq; [|done].
    destruct object; try done. cbn in Heq. apply String.eqb_eq in Heq as ->. done.
Qed.


(** ** The formula renderer: image information and the pipeline *)

(** X7.  For a strip that lies within a page of at most [2^52] rows, the
    image information that [_get_image_info] assembles gives, through the
    accessors of a rendered formula, the page's width and height and a
    baseline between the distances of the strip's lower and upper edge from
    the bottom, so within the image. *)
Theorem image_info_accessors (crop_info formula png params : pyval) (W H y h : Z) :
  Spec.strip_report crop_info W H y h →
  0 ≤ y → 0 ≤ h → y + h ≤ H → H ≤ 2 ^ 52 →
  ∃ info b,
    LatexFormulaRenderer.image_info_of crop_info = Ok info
    ∧ RenderedLatexFormula.width (RenderedLatexFormula.mk formula png info params)
      = Ok (PInt W)
    ∧ RenderedLatexFormula.height (RenderedLatexFormula.mk formula png info params)
      = Ok (PInt H)
    ∧ RenderedLatexFormula.baseline (RenderedLatexFormula.mk formula png info params)
      = Ok (PInt b)
    ∧ H - (y + h) ≤ b ≤ H - y
    ∧ 0 ≤ b ≤ H.
Proof.
  intros Hreport Hy Hh HH Hpage.
  assert (Z.abs (y + (y + h)) ≤ 2 ^ 53) as Hn.
  { assert (2 ^ 53 = 2 * 2 ^ 52) as -> by reflexivity. lia. }
  pose proof (round_half_between y h Hn Hh) as Hmid.
  eexists _, (H - round_half (y + (y + h))).
  split; [by apply image_info_of_report|].
  split_and!; try reflexivity; lia.
Qed.

(** X8.  When [pdflatex] exits with a non-zero status, the formula
    renderer's [render] raises [CalledProcessError] with the [pdflatex]
    command and that status; when [pdflatex] cannot be started, the
    exception of the failed start is raised as it is, a [PermissionError]
    included. *)
Theorem latex_render_pdflatex_fails (P : Primitives) (self : LatexFormulaRenderer.t)
    (request : gmap string pyval) (tex_dir f : string) :
  mkdtemp P "pybeamer_formula_" = Ok tex_dir →
  request !! "formula" = Some (PStr f) →
  let cmd := [ "pdflatex"; "-output-directory=" ++ tex_dir; tex_dir ++ "/formula.tex" ] in
  (∀ returncode stdout stderr,
     subprocess_run P (PList (PStr <$> cmd)) = Completed returncode stdout stderr →
     returncode ≠ 0 →
     LatexFormulaRenderer.render P self request
     = Raise (CalledProcessError cmd returncode))
  ∧ (∀ e, subprocess_run P (PList (PStr <$> cmd)) = RunRaised e →
          LatexFormulaRenderer.render P self request = Raise (exn_of_spawn_error e)).
Proof.
  intros Htmp Hf cmd.
  unfold LatexFormulaRenderer.render, getitem. rewrite Htmp. cbn -[truthy get_default].
  rewrite Hf.
  unfold LatexFormulaRenderer.check_call, LatexFormulaRenderer.check_output.
  fold cmd. split.
  - intros rc out err Hrun Hrc. assert ((rc =? 0) = false) as Hz by lia.
    destruct (truthy _); cbn; rewrite Hrun; cbn; by rewrite Hz.
  - intros e Hrun. destruct (truthy _); cbn; by rewrite Hrun.
Qed.

(** X9.  A [formula] that is not a string makes the formula renderer's
    [render] raise [TypeError], with or without the [short] flag. *)
Theorem latex_render_formula_not_str (P : Primitives) (self : LatexFormulaRenderer.t)
    (request : gmap string pyval) (tex_dir : string) (formula : pyval) :
  mkdtemp P "pybeamer_formula_" = Ok tex_dir →
  request !! "formula" = Some formula →
  (∀ f, formula ≠ PStr f) →
  LatexFormulaRenderer.render P self request = Raise TypeError.
Proof.
  intros Htmp Hf Hne.
  unfold LatexFormulaRenderer.render, getitem. rewrite Htmp. cbn -[truthy get_default].
  rewrite Hf.
  destruct (truthy _); destruct formula as [| | |f| | | |]; try done;
    try (by destruct b); by destruct (Hne f).
Qed.

(** X10.  When [pdflatex] and the three calls of [convert] exit with
    status 0, whatever the first two print, and the report of the baseline
    strip is as above, [render] returns the mapping with exactly [png_data],
    the output of the last [convert], and [info], the image information with
    the baseline computed from the strip. *)
Theorem latex_render_success (P : Primitives) (self : LatexFormulaRenderer.t)
    (request : gmap string pyval) (tex_dir f : string)
    (report png : list byte) (crop_info : pyval) (W H y h : Z) :
  let dpi := LatexFormulaRenderer._rendering_dpi self in
  let png_filename := tex_dir ++ "/formula.png" in
  mkdtemp P "pybeamer_formula_" = Ok tex_dir →
  request !! "formula" = Some (PStr f) →
  LatexFormulaRenderer.check_call P
    [ "pdflatex"; "-output-directory=" ++ tex_dir; tex_dir ++ "/formula.tex" ]
  = Ok tt →
  LatexFormulaRenderer.check_call P
    [ "convert"; "-define"; "profile:skip=ICC"; "-density"; pretty dpi; "-trim";
      "+repage"; tex_dir ++ "/formula.pdf"; png_filename ]
  = Ok tt →
  LatexFormulaRenderer.check_output P
    [ "convert"; png_filename ++ "[2x+" ++ pretty (px_of_tenth_mm P 5 dpi) ++ "+0]";
      "-trim"; "json:-" ]
  = Ok report →
  json_loads P (string_of_list_byte report) = Ok crop_info →
  Spec.strip_report crop_info W H y h →
  Z.abs (y + (y + h)) ≤ 2 ^ 53 →
  LatexFormulaRenderer.check_output P
    [ "convert"; "-crop"; "+" ++ pretty (px_of_tenth_mm P 20 dpi) ++ "+0"; "-trim";
      "+repage"; png_filename; "png:-" ]
  = Ok png →
  ∃ result,
    LatexFormulaRenderer.render P self request = Ok result
    ∧ dom result = {[ "png_data"; "info" ]}
    ∧ result !! "png_data" = Some (PBytes png)
    ∧ result !! "info"
      = Some (PDict [ ("width", PInt W); ("height", PInt H);
                      ("baseline", PInt (H - round_half (y + (y + h)))) ]).
Proof.
  intros dpi png_filename Htmp Hf Htex Hconv Hstrip Hjson Hreport Hn Hcrop.
  assert (LatexFormulaRenderer._get_image_info P png_filename (px_of_tenth_mm P 5 dpi)
          = Ok (PDict [ ("width", PInt W); ("height", PInt H);
                        ("baseline", PInt (H - round_half (y + (y + h)))) ])) as Hinfo.
  { unfold LatexFormulaRenderer._get_image_info.
    rewrite Hstrip. cbn -[LatexFormulaRenderer.image_info_of].
    rewrite Hjson. cbn -[LatexFormulaRenderer.image_info_of].
    by apply image_info_of_report. }
  eexists. split.
  - unfold LatexFormulaRenderer.render, getitem. rewrite Htmp.
    cbn -[truthy get_default LatexFormulaRenderer.check_call
          LatexFormulaRenderer._get_image_info].
    rewrite Hf. fold dpi png_filename.
    destruct (truthy _);
      cbn -[LatexFormulaRenderer.check_call LatexFormulaRenderer._get_image_info];
      rewrite Htex;
      cbn -[LatexFormulaRenderer.check_call LatexFormulaRenderer._get_image_info];
      rewrite Hconv;
      cbn -[LatexFormulaRenderer.check_call LatexFormulaRenderer._get_image_info];
      rewrite Hinfo; cbn; rewrite Hcrop; reflexivity.
  - split_and!.
    + rewrite dom_insert_L, dom_singleton_L. set_solver.
    + by simplify_map_eq.
    + by simplify_map_eq.
Qed.

(** ** Files added to a rendered presentation: what is written, and what is lost *)

Section added_files.

Import RenderedPresentation.


(** X12.  Content that is neither a string nor bytes makes the first
    [add_file] for a destination raise [TypeError], when the operating
    system lets it create the directory and open the file: [f.write] raises
    after the destination was recorded and the file was opened.  The file is
    left empty, and every later [add_file] for the destination, with proper
    content too, returns without writing.  A [TypeError] of the first
    [add_file] for a destination has no other cause. *)
Theorem add_file_bad_content (self : t) (w : world) (d : string) (content : pyval) :
  d ∉ _added_files self →
  (lets_open self w d →
   (∀ s, content ≠ PStr s) → (∀ bs, content ≠ PBytes bs) →
   ∃ self' w',
     add_file self w d content = (Raise TypeError, self', w')
     ∧ d ∈ _added_files self'
     ∧ files w' !! deployed self d = Some (Binary [])
     ∧ opened w' = deployed self d :: opened w
     ∧ ∀ content', add_file self' w' d content' = (Ok tt, self', w'))
  ∧ (∀ self' w',
       add_file self w d content = (Raise TypeError, self', w') →
       lets_open self w d
       ∧ (∀ s, content ≠ PStr s) ∧ (∀ bs, content ≠ PBytes bs)
       ∧ files w' !! deployed self d = Some (Binary [])).
Proof.
  intros Hfresh. split.
  - intros Hlets Hs Hb. rewrite add_file_opened by done.
    assert (write_content (makedirs w (dirname (deployed self d))) (deployed self d)
              content
            = (Raise TypeError,
               write (makedirs w (dirname (deployed self d))) (deployed self d)
                 (Binary []))) as ->.
    { destruct content as [| | |s|bs| | |];
        first [done|by destruct (Hs s)|by destruct (Hb bs)]. }
    assert (d ∈ _added_files (added self d)) as Hin.
    { cbn. apply elem_of_union_l, elem_of_singleton. reflexivity. }
    eexists _, _. split; [reflexivity|].
    split_and!; [done| |done|].
    + cbn. apply lookup_store_eq.
    + intros content'. by apply add_file_added.
  - intros self' w' Hadd.
    destruct (add_file_written self self' w w' d content _ Hfresh Hadd)
      as (Hlets & Hr & _ & ->).
    { intros e He. injection He as He. symmetry in He. by apply not_os_error in He. }
    split; [done|].
    assert ((∀ s, content ≠ PStr s) ∧ (∀ bs, content ≠ PBytes bs)
            ∧ Presentation.written content = Binary []) as (Hs & Hb & Hw).
    { by destruct content. }
    split_and!; [done..|]. cbn. rewrite Hw. apply lookup_store_eq.
Qed.

(** X13.  [copy_file] for a destination that was not added.  When the
    source cannot be opened, because the operating system refuses or
    because there is no such file, the error is raised and nothing has
    changed: the destination is still free.  When the source was read and
    the operating system lets the destination be written, the bytes of the
    source are written to the destination's file, whether the source holds
    text or bytes, and a source of another name is as it was. *)
Theorem copy_file_fresh (self : t) (w : world) (src d : string) :
  d ∉ _added_files self →
  (∀ e, refused w (OpenForReading src) = Some e →
        copy_file self w src d = (Raise e, self, w))
  ∧ (refused w (OpenForReading src) = None → files w !! src = None →
     copy_file self w src d = (Raise (FileNotFoundError src), self, w))
  ∧ (∀ bs, read_bytes w src = Ok bs → lets_write self w d →
       ∃ self' w',
         copy_file self w src d = (Ok tt, self', w')
         ∧ d ∈ _added_files self'
         ∧ files w' !! deployed self d = Some (Binary bs)
         ∧ (¬ same_file w src (deployed self d) → files w' !! src = files w !! src)).
Proof.
  intros Hfresh. unfold copy_file. rewrite decide_False by done. split_and!.
  - intros e He. unfold read_bytes. by rewrite He.
  - intros Hopen Hsrc. unfold read_bytes. by rewrite Hopen, Hsrc.
  - intros bs Hread Hlets. rewrite Hread, add_file_fresh by done.
    eexists _, _. split; [done|]. cbn. split_and!.
    + apply elem_of_union_l, elem_of_singleton. reflexivity.
    + apply lookup_store_eq.
    + intros Hne. by apply lookup_store_ne.
Qed.

End added_files.

(** ** The table of contents *)

Section toc.

Lemma toc_render_attribute (d : TOC.TOCDirective) (toc : TOC.t) (e : TOC.TOCElement) :
  TOC.attribute e (TOC.render d toc)
  = if TOC.element_eqb (TOC.toc_element d) e then Some (TOC.value d)
    else TOC.attribute e toc.
Proof. unfold TOC.render. by destruct (TOC.toc_element d), e. Qed.

Lemma toc_render_all_snoc (ds : list TOC.TOCDirective) (d : TOC.TOCDirective)
    (toc : TOC.t) :
  TOC.render_all (ds ++ [d]) toc = TOC.render d (TOC.render_all ds toc).
Proof. unfold TOC.render_all. by rewrite foldl_app. Qed.

Lemma toc_attribute_render_all (ds : list TOC.TOCDirective) (toc : TOC.t)
    (e : TOC.TOCElement) :
  TOC.attribute e (TOC.render_all ds toc)
  = match TOC.last_value e ds with
    | Some v => Some v
    | None => TOC.attribute e toc
    end.
Proof.
  induction ds as [|d ds IH] using rev_ind; [done|].
  rewrite toc_render_all_snoc, toc_render_attribute.
  unfold TOC.last_value in *. rewrite filter_app.
  destruct (TOC.element_eqb (TOC.toc_element d) e) eqn:He.
  - rewrite filter_cons_True, filter_nil by (by rewrite He).
    by rewrite last_snoc.
  - rewrite filter_cons_False, filter_nil by (rewrite He; intros []).
    by rewrite app_nil_r.
Qed.

(** X14.  After the directives of a presentation were rendered in order,
    each attribute of the table of contents holds the value of the last
    directive for it, and what it held before when there is none: a new
    chapter leaves section and subsection as they are. *)
Theorem toc_render_all_last (ds : list TOC.TOCDirective) (toc : TOC.t)
    (e : TOC.TOCElement) :
  TOC.attribute e (TOC.render_all ds toc)
  = match TOC.last_value e ds with
    | Some v => Some v
    | None => TOC.attribute e toc
    end.
Proof. apply toc_attribute_render_all. Qed.

Lemma last_value_None (e : TOC.TOCElement) (ds : list TOC.TOCDirective) :
  TOC.last_value e ds = None ↔ Forall (λ d, TOC.toc_element d ≠ e) ds.
Proof.
  unfold TOC.last_value. rewrite fmap_None, last_None.
  rewrite Forall_forall. split.
  - intros Hnil d Hd Heq.
    assert (d ∈ filter (λ d, Is_true (TOC.element_eqb (TOC.toc_element d) e)) ds) as Hin.
    { apply list_elem_of_filter. split; [|done]. cbn. rewrite Heq. by destruct e. }
    rewrite Hnil in Hin. by apply elem_of_nil in Hin.
  - intros Hall. induction ds as [|d ds IH]; [done|].
    rewrite filter_cons_False.
    + apply IH. intros d' Hd'. apply Hall. by right.
    + intros Hb. apply (Hall d); [by left|]. by destruct (TOC.toc_element d), e.
Qed.

(** X15.  Reading the chapter of the table of contents of a new
    presentation raises [AttributeError] exactly as long as no chapter
    directive was rendered, and likewise for section and subsection. *)
Theorem toc_unset_raises (ds : list TOC.TOCDirective) :
  (TOC.chapter (TOC.render_all ds TOC.__init__) = Raise AttributeError
   ↔ Forall (λ d, TOC.toc_element d ≠ TOC.Chapter) ds)
  ∧ (TOC.section (TOC.render_all ds TOC.__init__) = Raise AttributeError
     ↔ Forall (λ d, TOC.toc_element d ≠ TOC.Section) ds)
  ∧ (TOC.subsection (TOC.render_all ds TOC.__init__) = Raise AttributeError
     ↔ Forall (λ d, TOC.toc_element d ≠ TOC.SubSection) ds).
Proof.
  assert (∀ e, TOC.getattr (TOC.attribute e (TOC.render_all ds TOC.__init__))
               = Raise AttributeError
               ↔ Forall (λ d, TOC.toc_element d ≠ e) ds) as H.
  { intros e. rewrite toc_attribute_render_all, <-last_value_None.
    destruct (TOC.last_value e ds); cbn; [by split|].
    by destruct e. }
  split_and!; [apply (H TOC.Chapter)|apply (H TOC.Section)|apply (H TOC.SubSection)].
Qed.

End toc.

(** ** Looking up template files and includes *)

Section lookup.

Import PresentationRenderer.

Context (w : RenderedPresentation.world).

Lemma first_file_None (filename : string) (dirs : list string) :
  first_file w filename dirs = None ↔ nowhere w filename dirs.
Proof.
  unfold nowhere. induction dirs as [|d dirs IH]; cbn; [by split|].
  rewrite Forall_cons.
  destruct (isfile w (d ++ "/" ++ filename)); [|by rewrite IH; intuition].
  split; [done|by intros [? _]].
Qed.

Lemma first_file_Some (filename : string) (dirs : list string) (path : string) :
  first_file w filename dirs = Some path
  ↔ ∃ pre d post,
      dirs = (pre ++ d :: post)%list
      ∧ path = d ++ "/" ++ filename
      ∧ isfile w path = true
      ∧ nowhere w filename pre.
Proof.
  unfold nowhere. induction dirs as [|d dirs IH]; cbn.
  { split; [done|]. intros (pre & d & post & H & _). by destruct pre. }
  destruct (isfile w (d ++ "/" ++ filename)) eqn:Hd.
  - split.
    + intros [= <-]. by exists [], d, dirs.
    + intros ([|d' pre] & d0 & post & Heq & -> & Hfile & Hpre);
        simplify_eq/=; [done|].
      apply Forall_cons in Hpre as [Hd' _]. congruence.
  - rewrite IH. split.
    + intros (pre & d0 & post & -> & -> & Hfile & Hpre).
      exists (d :: pre), d0, post. split_and!; [done..|]. by constructor.
    + intros ([|d' pre] & d0 & post & Heq & -> & Hfile & Hpre);
        simplify_eq/=; [congruence|].
      apply Forall_cons in Hpre as [_ Hpre]. by exists pre, d0, post.
Qed.

(** X16.  [_search_file] returns a path exactly when some directory of the
    list has the file, and the path is then the file in the first such
    directory: the directories are in order of priority. *)
Theorem search_file_first (filename : string) (search_dirs : list string)
    (path : string) :
  _search_file w filename search_dirs = Done path
  ↔ ∃ pre d post,
      search_dirs = (pre ++ d :: post)%list
      ∧ path = d ++ "/" ++ filename
      ∧ isfile w path = true
      ∧ nowhere w filename pre.
Proof.
  rewrite <-first_file_Some. unfold _search_file.
  destruct (first_file w filename search_dirs) as [p|].
  - split; by intros [= ->].
  - by destruct (Nat.eqb _ 0).
Qed.

Lemma includes_app_l (message post part : string) :
  Spec.includes message part → Spec.includes (message ++ post) part.
Proof.
  intros (a & b & ->). exists a, (b ++ post).
  by rewrite !string_app_assoc.
Qed.

Lemma string_app_nil_r (a : string) : a ++ "" = a.
Proof.
  induction a as [|x a IH]; [done|].
  change (String x (a ++ "") = String x a). by rewrite IH.
Qed.

Lemma includes_refl (message : string) : Spec.includes message message.
Proof. exists "", "". by rewrite string_app_nil_r. Qed.

Lemma includes_join (sep d : string) (dirs : list string) :
  d ∈ dirs → Spec.includes (join sep dirs) d.
Proof.
  induction dirs as [|x dirs IH]; [by intros ?%elem_of_nil|].
  intros Hd. destruct dirs as [|y dirs].
  { apply list_elem_of_singleton in Hd as ->. apply includes_refl. }
  change (join sep (x :: y :: dirs)) with (x ++ sep ++ join sep (y :: dirs)).
  apply elem_of_cons in Hd as [->|Hd].
  - apply (includes_intro "").
  - do 2 apply includes_app_r. by apply IH.
Qed.

Lemma search_file_nowhere (filename : string) (search_dirs : list string) :
  nowhere w filename search_dirs →
  ∃ msg,
    _search_file w filename search_dirs = Failed (FailedToLookupFileException msg)
    ∧ Spec.includes msg filename
    ∧ Forall (λ d, Spec.includes msg d) search_dirs
    ∧ (search_dirs = [] → Spec.includes msg "no directories given to look up").
Proof.
  rewrite <-first_file_None. unfold _search_file.
  intros ->. destruct search_dirs as [|d dirs]; cbn [length Nat.eqb].
  - eexists. split; [done|]. split_and!.
    + apply includes_app_r, (includes_intro "").
    + constructor.
    + intros _. do 2 apply includes_app_r. by exists " (", ")".
  - eexists. split; [done|]. split_and!.
    + apply includes_app_r, (includes_intro "").
    + apply Forall_forall. intros d' Hd'.
      do 3 apply includes_app_r. apply includes_app_l. by apply includes_join.
    + done.
Qed.

(** X17.  [_search_file] raises [FailedToLookupFileException] exactly when
    no directory of the list has the file.  The message names the file; it
    names every directory that was searched, or says that there was none. *)
Theorem search_file_fails (filename : string) (search_dirs : list string) :
  ((∃ e, _search_file w filename search_dirs = Failed e) ↔ nowhere w filename search_dirs)
  ∧ (nowhere w filename search_dirs →
     ∃ msg,
       _search_file w filename search_dirs = Failed (FailedToLookupFileException msg)
       ∧ Spec.includes msg filename
       ∧ Forall (λ d, Spec.includes msg d) search_dirs
       ∧ (search_dirs = [] → Spec.includes msg "no directories given to look up")).
Proof.
  split; [|apply search_file_nowhere].
  rewrite <-first_file_None. unfold _search_file.
  destruct (first_file w filename search_dirs).
  - split; [by intros [e ?]|done].
  - split; [done|]. intros _. destruct (Nat.eqb _ 0); by eexists.
Qed.

(** X18.  The template lookup directories are, for each template
    directory in order, the directory itself followed by its subdirectory
    for the template style: twice as many, directory [i] at position [2i]
    and its style subdirectory at position [2i + 1]. *)
Theorem mako_lookup_directories (self : t) (i : nat) :
  let dirs := template_dirs (_rendering_params self) in
  let style := template_style (_rendering_params self) in
  length (_get_mako_lookup_directories self) = (2 * length dirs)%nat
  ∧ _get_mako_lookup_directories self !! (2 * i)%nat = dirs !! i
  ∧ _get_mako_lookup_directories self !! (2 * i + 1)%nat
    = (λ d, d ++ "/" ++ style) <$> dirs !! i.
Proof.
  intros dirs style. unfold _get_mako_lookup_directories. fold dirs style.
  generalize dirs. clear dirs. intros dirs. revert i.
  induction dirs as [|d dirs IH]; intros i; [by split_and!|].
  destruct (IH 0%nat) as [Hlen _]. cbn [_get_mako_lookup_directories_of length].
  split_and!.
  - lia.
  - destruct i as [|i]; [done|].
    replace (2 * S i)%nat with (S (S (2 * i))) by lia. cbn. apply IH.
  - destruct i as [|i]; [done|].
    replace (2 * S i + 1)%nat with (S (S (2 * i + 1))) by lia. cbn. apply IH.
Qed.

End lookup.

(** ** Template files of a rendered presentation *)

Section template_files.

Import RenderedPresentation.

Context (R : PresentationRenderer.t).

(** X19.  [copy_template_file] looks the template file up before it looks
    at the destination: when no template directory has the file it raises
    [FailedToLookupFileException] and changes nothing, also for a
    destination that was added before. *)
Theorem copy_template_file_not_found (self : t) (w : world)
    (template_filename destination_relpath : string) :
  PresentationRenderer.nowhere w template_filename (PresentationRenderer.template_dirs (PresentationRenderer._rendering_params R)) →
  ∃ msg,
    Presentation.copy_template_file R self w template_filename destination_relpath
    = (Failed (FailedToLookupFileException msg), self, w).
Proof.
  intros Hnone.
  destruct (search_file_nowhere w template_filename _ Hnone) as (msg & Hmsg & _).
  exists msg. unfold Presentation.copy_template_file,
    PresentationRenderer.lookup_template_file. by rewrite Hmsg.
Qed.

(** What [copy_template_file] has done when it returns, for a destination
    that was not added before. *)
Lemma copy_template_file_returns (self self' : t) (w w' : world)
    (template_filename destination_relpath path : string) :
  PresentationRenderer.first_file w template_filename (PresentationRenderer.template_dirs (PresentationRenderer._rendering_params R)) = Some path →
  destination_relpath ∉ _added_files self →
  Presentation.copy_template_file R self w template_filename destination_relpath
  = (Done tt, self', w') →
  ∃ bs,
    read_bytes w path = Ok bs
    ∧ destination_relpath ∈ _added_files self'
    ∧ files w' !! deployed self destination_relpath = Some (Binary bs).
Proof.
  intros Hfirst Hfresh.
  unfold Presentation.copy_template_file, PresentationRenderer.lookup_template_file,
    PresentationRenderer._search_file.
  rewrite Hfirst.
  pose proof (copy_file_returns self self' w w' path destination_relpath Hfresh)
    as Hcopy.
  destruct (copy_file self w path destination_relpath) as [[r s1] w1].
  destruct r as [[]|e]; [|done]. intros [= <- <-].
  destruct (Hcopy eq_refl) as (bs & Hread & _ & Hset & _ & Hfile & _).
  exists bs. split_and!; [done| |done].
  rewrite Hset. apply elem_of_union_l, elem_of_singleton. reflexivity.
Qed.

(** X20.  When a template directory has the template file,
    [copy_template_file] returns without a change for a destination that
    was added before.  For any other destination it returns when the
    operating system lets it read the file of the first such directory and
    write the destination's file; and when it returns, it has written the
    bytes of that file to the destination's file. *)
Theorem copy_template_file_found (self : t) (w : world)
    (template_filename destination_relpath path : string) :
  PresentationRenderer.first_file w template_filename (PresentationRenderer.template_dirs (PresentationRenderer._rendering_params R)) = Some path →
  (destination_relpath ∈ _added_files self →
   Presentation.copy_template_file R self w template_filename destination_relpath
   = (Done tt, self, w))
  ∧ (destination_relpath ∉ _added_files self →
     (refused w (OpenForReading path) = None →
      lets_write self w destination_relpath →
      (Presentation.copy_template_file R self w template_filename
         destination_relpath).1.1 = Done tt)
     ∧ ∀ self' w',
         Presentation.copy_template_file R self w template_filename destination_relpath
         = (Done tt, self', w') →
         ∃ bs,
           read_bytes w path = Ok bs
           ∧ destination_relpath ∈ _added_files self'
           ∧ files w' !! deployed self destination_relpath = Some (Binary bs)).
Proof.
  intros Hfirst. split; [|split].
  - intros Hin.
    unfold Presentation.copy_template_file, PresentationRenderer.lookup_template_file,
      PresentationRenderer._search_file.
    rewrite Hfirst. by rewrite copy_file_added.
  - intros Hread Hlets.
    pose proof (proj1 (first_file_Some w _ _ _) Hfirst)
      as (_ & _ & _ & _ & _ & Hfile & _).
    unfold PresentationRenderer.isfile in Hfile.
    apply bool_decide_eq_true in Hfile as [data Hdata].
    unfold Presentation.copy_template_file, PresentationRenderer.lookup_template_file,
      PresentationRenderer._search_file.
    rewrite Hfirst.
    assert (∃ bs, read_bytes w path = Ok bs) as [bs Hbs].
    { unfold read_bytes. rewrite Hread, Hdata. destruct data; by eexists. }
    rewrite (copy_file_delegates self w destination_relpath path bs Hbs).
    by rewrite add_file_fresh.
  - intros self' w'. by apply copy_template_file_returns.
Qed.

Lemma copy_template_file_extends (self : t) (w : world) (tf d : string) :
  extends (self, w)
    ((Presentation.copy_template_file R self w tf d).1.2,
     (Presentation.copy_template_file R self w tf d).2).
Proof.
  unfold Presentation.copy_template_file.
  destruct (PresentationRenderer.lookup_template_file R w tf) as [path|e];
    [|apply extends_refl].
  pose proof (copy_file_extends self w path d) as H.
  by destruct (copy_file self w path d) as [[r self'] w'].
Qed.

Lemma copy_template_file_adds (self self' : t) (w w' : world) (tf d : string) :
  Presentation.copy_template_file R self w tf d = (Done tt, self', w') →
  d ∈ _added_files self'.
Proof.
  unfold Presentation.copy_template_file.
  destruct (PresentationRenderer.lookup_template_file R w tf) as [path|e]; [|done].
  pose proof (copy_file_adds self w path d) as H.
  destruct (copy_file self w path d) as [[r s] w0]. cbn in H.
  destruct r as [[]|]; [|done]. intros [= <- <-]. by apply H.
Qed.

(** What the two loops of [render] keep and add. *)
Lemma copy_static_spec (style : string) (filenames : list string)
    (rp : Presentation.t) (w : world) :
  let out := Presentation.copy_static R style filenames rp w in
  extends (Presentation.deployment rp, w) (Presentation.deployment out.1.2, out.2)
  ∧ Presentation._css out.1.2 = Presentation._css rp
  ∧ (out.1.1 = Done tt →
     ∀ f, f ∈ filenames → f ∈ _added_files (Presentation.deployment out.1.2)).
Proof.
  revert rp w. induction filenames as [|f filenames IH]; intros rp w; cbn.
  { split_and!; [apply extends_refl|done|]. by intros _ f ?%elem_of_nil. }
  pose proof (copy_template_file_extends (Presentation.deployment rp) w
                (style ++ "/" ++ f) f) as Hext.
  pose proof (λ self' w', copy_template_file_adds (Presentation.deployment rp)
                            self' w w' (style ++ "/" ++ f) f) as Hadd.
  destruct (Presentation.copy_template_file R (Presentation.deployment rp) w
              (style ++ "/" ++ f) f) as [[[[]|e] d] w1]; cbn in Hext.
  - destruct (IH (Presentation.with_deployment rp d) w1) as (Hext' & Hcss & Hin).
    cbn in Hext'. split_and!.
    + by eapply extends_trans.
    + done.
    + intros Hdone g [->|Hg]%elem_of_cons; [|by apply Hin].
      destruct Hext' as [_ Hsub]. apply Hsub. cbn. by eapply Hadd.
  - by split_and!.
Qed.

Lemma copy_css_spec (style : string) (filenames : list string)
    (rp : Presentation.t) (w : world) :
  let out := Presentation.copy_css R style filenames rp w in
  extends (Presentation.deployment rp, w) (Presentation.deployment out.1.2, out.2)
  ∧ (out.1.1 = Done tt →
     Presentation._css out.1.2 = list_to_set filenames ∪ Presentation._css rp
     ∧ ∀ f, f ∈ filenames → f ∈ _added_files (Presentation.deployment out.1.2)).
Proof.
  revert rp w. induction filenames as [|f filenames IH]; intros rp w; cbn.
  { split_and!; [apply extends_refl|]. intros _. split.
    - change (list_to_set []) with (∅ : gset string).
      by rewrite (left_id_L ∅ (∪)).
    - by intros f ?%elem_of_nil. }
  pose proof (copy_template_file_extends (Presentation.deployment rp) w
                (style ++ "/" ++ f) f) as Hext.
  pose proof (λ self' w', copy_template_file_adds (Presentation.deployment rp)
                            self' w w' (style ++ "/" ++ f) f) as Hadd.
  destruct (Presentation.copy_template_file R (Presentation.deployment rp) w
              (style ++ "/" ++ f) f) as [[[[]|e] d] w1]; cbn in Hext.
  - destruct (IH (Presentation.add_css (Presentation.with_deployment rp d) f) w1)
      as (Hext' & Hdone).
    cbn in Hext'. split_and!.
    + by eapply extends_trans.
    + intros Hd. destruct (Hdone Hd) as [Hcss Hin]. split.
      * rewrite Hcss. cbn.
        by rewrite (assoc_L (∪)), (comm_L (∪) (list_to_set filenames)).
      * intros g [->|Hg]%elem_of_cons; [|by apply Hin].
        destruct Hext' as [_ Hsub]. apply Hsub. cbn. by eapply Hadd.
  - by split_and!.
Qed.

Lemma copy_template_file_resolve (self : t) (w : world) (tf d : string) :
  resolve (files (Presentation.copy_template_file R self w tf d).2) = resolve (files w).
Proof.
  unfold Presentation.copy_template_file.
  destruct (PresentationRenderer.lookup_template_file R w tf) as [src|e]; [|done].
  pose proof (copy_file_resolve self w src d) as Hr.
  by destruct (copy_file self w src d) as [[r self'] w'].
Qed.

Lemma copy_template_file_frame (self : t) (w : world) (tf d path : string) :
  d ∈ _added_files self ∨ ¬ same_file w (deployed self d) path →
  files (Presentation.copy_template_file R self w tf d).2 !! path = files w !! path
  ∧ resolve (files (Presentation.copy_template_file R self w tf d).2) = resolve (files w).
Proof.
  intros H. unfold Presentation.copy_template_file.
  destruct (PresentationRenderer.lookup_template_file R w tf) as [src|e]; [|done].
  pose proof (copy_file_frame self w src d path H) as Hf.
  pose proof (copy_file_resolve self w src d) as Hr.
  by destruct (copy_file self w src d) as [[r self'] w'].
Qed.

(** The files that the two loops of [render] leave as they are. *)
Lemma copy_static_frame (style : string) (filenames : list string)
    (rp : Presentation.t) (w : world) (path : string) :
  Forall (λ f, f ∈ _added_files (Presentation.deployment rp)
               ∨ ¬ same_file w (deployed (Presentation.deployment rp) f) path)
    filenames →
  files (Presentation.copy_static R style filenames rp w).2 !! path = files w !! path
  ∧ resolve (files (Presentation.copy_static R style filenames rp w).2)
    = resolve (files w).
Proof.
  revert rp w. induction filenames as [|f filenames IH]; intros rp w Hall; [done|].
  apply Forall_cons in Hall as [Hf Hall]. cbn.
  pose proof (copy_template_file_frame (Presentation.deployment rp) w
                (style ++ "/" ++ f) f path Hf) as [Hframe Hres].
  pose proof (copy_template_file_extends (Presentation.deployment rp) w
                (style ++ "/" ++ f) f) as [Hdir Hsub].
  destruct (Presentation.copy_template_file R (Presentation.deployment rp) w
              (style ++ "/" ++ f) f) as [[[[]|e] d] w1]; cbn in *; [|done].
  destruct (IH (Presentation.with_deployment rp d) w1) as [Hframe' Hres'].
  - eapply Forall_impl; [exact Hall|]. cbn. intros g [Hg|Hg]; [left; by apply Hsub|right].
    unfold same_file, deployed in *. by rewrite Hres, Hdir.
  - split; congruence.
Qed.

Lemma copy_css_frame (style : string) (filenames : list string)
    (rp : Presentation.t) (w : world) (path : string) :
  Forall (λ f, f ∈ _added_files (Presentation.deployment rp)
               ∨ ¬ same_file w (deployed (Presentation.deployment rp) f) path)
    filenames →
  files (Presentation.copy_css R style filenames rp w).2 !! path = files w !! path
  ∧ resolve (files (Presentation.copy_css R style filenames rp w).2)
    = resolve (files w).
Proof.
  revert rp w. induction filenames as [|f filenames IH]; intros rp w Hall; [done|].
  apply Forall_cons in Hall as [Hf Hall]. cbn.
  pose proof (copy_template_file_frame (Presentation.deployment rp) w
                (style ++ "/" ++ f) f path Hf) as [Hframe Hres].
  pose proof (copy_template_file_extends (Presentation.deployment rp) w
                (style ++ "/" ++ f) f) as [Hdir Hsub].
  destruct (Presentation.copy_template_file R (Presentation.deployment rp) w
              (style ++ "/" ++ f) f) as [[[[]|e] d] w1]; cbn in *; [|done].
  destruct (IH (Presentation.add_css (Presentation.with_deployment rp d) f) w1)
    as [Hframe' Hres'].
  - eapply Forall_impl; [exact Hall|]. cbn. intros g [Hg|Hg]; [left; by apply Hsub|right].
    unfold same_file, deployed in *. by rewrite Hres, Hdir.
  - split; congruence.
Qed.

(** X21.  In [render], [base/pybeamer.js] is copied first, so it wins:
    when that copy has returned, the deployed [pybeamer.js] holds the bytes
    of the template file after the static files and style sheets were
    copied, whether or not a later copy fails, provided that the names in
    those lists are [pybeamer.js] itself or names of other files than the
    deployed [pybeamer.js]. *)
Theorem render_files_pybeamer_js (deploy_directory path : string) (w w1 : world)
    (self1 : t) :
  PresentationRenderer.first_file w "base/pybeamer.js" (PresentationRenderer.template_dirs (PresentationRenderer._rendering_params R)) = Some path →
  Presentation.copy_template_file R (__init__ deploy_directory) w
    "base/pybeamer.js" "pybeamer.js" = (Done tt, self1, w1) →
  Presentation.spare_pybeamer_js deploy_directory w
    (PresentationRenderer.files_static (PresentationRenderer._template_config R)
     ++ PresentationRenderer.files_css (PresentationRenderer._template_config R)) →
  ∃ bs,
    read_bytes w path = Ok bs
    ∧ files (Presentation.render_files R deploy_directory w).2
        !! (deploy_directory ++ "/" ++ "pybeamer.js")
      = Some (Binary bs).
Proof.
  intros Hfirst Hcopy Hspare.
  destruct (copy_template_file_returns (__init__ deploy_directory) self1 w w1
              "base/pybeamer.js" "pybeamer.js" path Hfirst
              (not_elem_of_empty _) Hcopy) as (bs & Hbs & Hin & Hfile).
  exists bs. split; [done|].
  pose proof (copy_template_file_extends (__init__ deploy_directory) w
                "base/pybeamer.js" "pybeamer.js") as [Hdir _].
  pose proof (copy_template_file_resolve (__init__ deploy_directory) w
                "base/pybeamer.js" "pybeamer.js") as Hres1.
  unfold Presentation.render_files. cbn [Presentation.deployment Presentation.__init__].
  rewrite Hcopy in *. cbn in Hdir, Hres1.
  set (style := PresentationRenderer.template_style _).
  set (rp1 := Presentation.with_deployment _ self1).
  apply Forall_app in Hspare as [Hstatic Hcss].
  assert (∀ names w0 self0,
            _deploy_directory self0 = deploy_directory →
            "pybeamer.js" ∈ _added_files self0 →
            resolve (files w0) = resolve (files w) →
            Forall (λ f, f = "pybeamer.js"
                         ∨ ¬ same_file w (deploy_directory ++ "/" ++ f)
                               (deploy_directory ++ "/" ++ "pybeamer.js")) names →
            Forall (λ f, f ∈ _added_files self0
                         ∨ ¬ same_file w0 (deployed self0 f)
                               (deploy_directory ++ "/" ++ "pybeamer.js")) names)
    as Hturn.
  { intros names w0 self0 Hd0 Hin0 Hres0 Hnames.
    eapply Forall_impl; [exact Hnames|]. cbn. intros f [->|Hf]; [by left|right].
    unfold same_file, deployed in *. by rewrite Hres0, Hd0. }
  pose proof (copy_static_frame style
    (PresentationRenderer.files_static (PresentationRenderer._template_config R))
    rp1 w1 (deploy_directory ++ "/" ++ "pybeamer.js")
    (Hturn _ w1 self1 Hdir Hin Hres1 Hstatic)) as [Hframe2 Hres2].
  pose proof (copy_static_spec style
    (PresentationRenderer.files_static (PresentationRenderer._template_config R))
    rp1 w1) as ([Hdir2 Hsub2] & _ & _).
  destruct (Presentation.copy_static R style _ rp1 w1) as [[r2 rp2] w2].
  cbn in Hframe2, Hres2, Hdir2, Hsub2.
  unfold deployed in Hfile. cbn in Hfile.
  destruct r2 as [[]|e]; cbn; [|by rewrite Hframe2].
  pose proof (copy_css_frame style
    (PresentationRenderer.files_css (PresentationRenderer._template_config R))
    rp2 w2 (deploy_directory ++ "/" ++ "pybeamer.js")) as Hframe3.
  destruct Hframe3 as [Hframe3 _].
  { apply (Hturn _ w2 (Presentation.deployment rp2)); [congruence|by apply Hsub2|congruence|done]. }
  by rewrite Hframe3, Hframe2.
Qed.

(** X22.  When [render] has copied its files without an exception, the
    style sheets of the rendered presentation are exactly the names under
    [files.css], and [pybeamer.js] and every name under [files.static] and
    [files.css] are among the added files. *)
Theorem render_files_done (deploy_directory : string) (w w' : world)
    (rp : Presentation.t) :
  Presentation.render_files R deploy_directory w = (Done tt, rp, w') →
  Presentation._css rp
  = list_to_set (PresentationRenderer.files_css (PresentationRenderer._template_config R))
  ∧ ∀ f, f ∈ "pybeamer.js"
             :: PresentationRenderer.files_static (PresentationRenderer._template_config R)
             ++ PresentationRenderer.files_css (PresentationRenderer._template_config R) →
         f ∈ _added_files (Presentation.deployment rp).
Proof.
  unfold Presentation.render_files. cbn [Presentation.deployment Presentation.__init__].
  set (style := PresentationRenderer.template_style _).
  pose proof (λ self' w', copy_template_file_adds (__init__ deploy_directory)
                            self' w w' "base/pybeamer.js" "pybeamer.js") as Hadd.
  destruct (Presentation.copy_template_file R (__init__ deploy_directory) w
              "base/pybeamer.js" "pybeamer.js") as [[[[]|e] d1] w1]; [|done].
  set (rp1 := Presentation.with_deployment _ d1).
  pose proof (copy_static_spec style
    (PresentationRenderer.files_static (PresentationRenderer._template_config R))
    rp1 w1) as (Hext1 & Hcss1 & Hin1).
  destruct (Presentation.copy_static R style _ rp1 w1) as [[[[]|e] rp2] w2]; [|done].
  cbn in Hext1, Hcss1, Hin1.
  pose proof (copy_css_spec style
    (PresentationRenderer.files_css (PresentationRenderer._template_config R))
    rp2 w2) as (Hext2 & Hdone2).
  intros Hrun. rewrite Hrun in Hext2, Hdone2. cbn in Hext2, Hdone2.
  destruct (Hdone2 eq_refl) as [Hcss2 Hin2]. split.
  - rewrite Hcss2, Hcss1. cbn. by rewrite (right_id_L ∅ (∪)).
  - destruct Hext1 as [_ Hsub1]. destruct Hext2 as [_ Hsub2].
    intros f [->|[Hf|Hf]%elem_of_app]%elem_of_cons.
    + apply Hsub2, Hsub1. cbn. by eapply Hadd.
    + by apply Hsub2, Hin1.
    + by apply Hin2.
Qed.

End template_files.

(** ** The slides of a presentation *)

Section renderable_slides.

Context {D S Slide : Type} (render : D → S → option (list Slide) * S).

Lemma compute_slides_acc (ds : list D) (acc : list Slide) (rp : S) :
  foldl (PresentationRenderer.render_directive render) (acc, rp) ds
  = ((acc ++ (PresentationRenderer._compute_renderable_slides render ds rp).1)%list,
     (PresentationRenderer._compute_renderable_slides render ds rp).2).
Proof.
  unfold PresentationRenderer._compute_renderable_slides.
  revert acc rp. induction ds as [|d ds IH] using rev_ind; intros acc rp.
  { cbn. by rewrite app_nil_r. }
  rewrite !foldl_app. cbn. rewrite IH.
  unfold PresentationRenderer.render_directive. cbn.
  destruct (render d _) as [[slides|] rp']; cbn; [|done].
  by rewrite (assoc_L (++)%list).
Qed.

Lemma compute_slides_app (ds1 ds2 : list D) (rp : S) :
  let first := PresentationRenderer._compute_renderable_slides render ds1 rp in
  let second := PresentationRenderer._compute_renderable_slides render ds2 first.2 in
  PresentationRenderer._compute_renderable_slides render (ds1 ++ ds2) rp
  = ((first.1 ++ second.1)%list, second.2).
Proof.
  intros first second.
  unfold PresentationRenderer._compute_renderable_slides at 1.
  rewrite foldl_app.
  fold (PresentationRenderer._compute_renderable_slides render ds1 rp). fold first.
  destruct first as [s1 rp1] eqn:Hfirst. apply compute_slides_acc.
Qed.

(** X23.  The slides of a presentation are the slides of its directives
    in order: for a presentation in two parts they are the slides of the
    first part followed by those of the second, which is rendered on the
    presentation that the first part leaves; a directive that returns
    [None] contributes nothing. *)
Theorem compute_renderable_slides_app (ds1 ds2 : list D) (rp : S) :
  let first := PresentationRenderer._compute_renderable_slides render ds1 rp in
  let second := PresentationRenderer._compute_renderable_slides render ds2 first.2 in
  PresentationRenderer._compute_renderable_slides render (ds1 ++ ds2) rp
  = ((first.1 ++ second.1)%list, second.2).
Proof. apply compute_slides_app. Qed.

End renderable_slides.

(** X24.  A presentation that consists of table-of-contents directives
    has no renderable slides; rendering it leaves the rendered presentation
    with the table of contents of the directives and everything else as it
    was. *)
Theorem compute_renderable_slides_toc (ds : list TOC.TOCDirective)
    (rp : Presentation.t) :
  PresentationRenderer._compute_renderable_slides Presentation.render_toc ds rp
  = ([], Presentation.with_toc rp (TOC.render_all ds (Presentation._toc rp))).
Proof.
  induction ds as [|d ds IH] using rev_ind.
  { by destruct rp. }
  rewrite compute_slides_app, IH, toc_render_all_snoc. done.
Qed.

(** ** The image hook *)

Section img_hook.

Import RenderedPresentation.

Context {C : Type} (img : ImgHook.img_renderer C) (P : Primitives)
  (R : PresentationRenderer.t).

(** X25.  When [ImgHook.handle] returns, it returns a [div] of class
    [fillimg] around one [img] of class [fill] whose [src] is
    [imgs/img/<keyhash>.<extension>] of the rendered image of the include
    that was found, and that path is among the added files: written now with
    the image data if it was not added before, and otherwise left as it
    was. *)
Theorem img_handle_done (self self' : t) (w w' : world) (c c' : C)
    (node n : Dom.node) :
  ImgHook.handle img P R self w c node = (Done n, self', w', c') →
  ∃ src path rendered_image extension img_data,
    Dom.getAttribute node "src" = Ok src
    ∧ PresentationRenderer.lookup_include R w src = Done path
    ∧ img (<[ "src" := PStr path ]>
             {[ "max_dimension" :=
                  PresentationRenderer.image_max_dimension
                    (PresentationRenderer._rendering_params R) ]}) c
      = (Ok rendered_image, c')
    ∧ RendererCache.data rendered_image !! "extension" = Some extension
    ∧ RendererCache.data rendered_image !! "img_data" = Some img_data
    ∧ let local_filename :=
        "imgs/img/" ++ RendererCache.keyhash rendered_image ++ "."
                    ++ ImgHook.format_s P extension in
      n = Dom.Element "div" (<[ "class" := "fillimg" ]> ∅)
            [ Dom.Element "img"
                (<[ "class" := "fill" ]> (<[ "src" := local_filename ]> ∅)) [] ]
      ∧ local_filename ∈ _added_files self'
      ∧ (local_filename ∉ _added_files self →
         files w' !! deployed self local_filename = Some (Presentation.written img_data))
      ∧ (local_filename ∈ _added_files self → self' = self ∧ w' = w).
Proof.
  unfold ImgHook.handle, getitem.
  destruct (Dom.getAttribute node "src") as [src|] eqn:Hsrc; [|done].
  destruct (PresentationRenderer.lookup_include R w src) as [path|] eqn:Hpath; [|done].
  destruct (img _ c) as [[rendered_image|] c1] eqn:Himg; [|done].
  destruct (RendererCache.data rendered_image !! "extension") as [extension|] eqn:Hext;
    [|done].
  destruct (RendererCache.data rendered_image !! "img_data") as [img_data|] eqn:Hdata;
    [|done].
  set (local_filename := "imgs/img/" ++ _ ++ "." ++ _).
  pose proof (add_file_adds self w local_filename img_data) as Hadds.
  pose proof (add_file_added self w local_filename img_data) as Hseen.
  pose proof (λ s1 w1, add_file_returns self s1 w w1 local_filename img_data) as Hfresh.
  destruct (add_file self w local_filename img_data) as [[r s1] w1].
  destruct r as [[]|]; [|done]. intros [= <- <- <- <-].
  exists src, path, rendered_image, extension, img_data.
  do 5 (split; [done|]). cbv zeta. fold local_filename. split_and!.
  - done.
  - done.
  - intros Hnot. by destruct (Hfresh s1 w1 Hnot eq_refl) as (_ & _ & Hfile & _).
  - intros Hin. specialize (Hseen Hin). by injection Hseen as -> ->.
Qed.

(** X26.  When no include directory has the image, [ImgHook.handle]
    raises [FailedToLookupFileException] before the image renderer is asked:
    presentation, file system and renderer cache are as before.  When the
    renderer raises, nothing is added or written. *)
Theorem img_handle_fails (self : t) (w : world) (c : C) (node : Dom.node) (src : string) :
  Dom.getAttribute node "src" = Ok src →
  (PresentationRenderer.nowhere w src
     (PresentationRenderer.include_dirs (PresentationRenderer._rendering_params R)) →
   ∃ msg, ImgHook.handle img P R self w c node
          = (Failed (FailedToLookupFileException msg), self, w, c))
  ∧ (∀ path e c',
       PresentationRenderer.lookup_include R w src = Done path →
       img (<[ "src" := PStr path ]>
              {[ "max_dimension" :=
                   PresentationRenderer.image_max_dimension
                     (PresentationRenderer._rendering_params R) ]}) c
       = (Raise e, c') →
       ImgHook.handle img P R self w c node = (Failed (Python e), self, w, c')).
Proof.
  intros Hsrc. unfold ImgHook.handle. rewrite Hsrc. split.
  - intros Hnone.
    destruct (search_file_nowhere w src _ Hnone) as (msg & Hmsg & _). exists msg.
    unfold PresentationRenderer.lookup_include. by rewrite Hmsg.
  - intros path e c' -> Himg. by rewrite Himg.
Qed.

End img_hook.

(** ** The further properties at concrete inputs *)

Lemma json_data_inj_witness :
  RenderedLatexFormula.mk (PStr "x^2") (PBytes Inputs.png)
    (PDict [ ("width", PInt 120); ("height", PInt 64); ("baseline", PInt 22) ])
    (PDict [ ("short", PBool true) ])
  = Examples.x_squared.
Proof.
  apply (json_data_inj _ _ Examples.x_squared_doc); reflexivity.
Defined.

Lemma read_jsonfile_inv_witness :
  ∃ bs, RenderedLatexFormula._png_data Examples.x_squared = PBytes bs
        ∧ RenderedLatexFormula.b64decode_val (PStr "iVBORw0K") = Ok (PBytes bs).
Proof.
  assert (RenderedLatexFormula.read_jsonfile Examples.json_x_squared "formula.json"
            ({[ "formula.json" := Examples.x_squared_text ]} : textfiles)
          = Ok Examples.x_squared) as Hread by (vm_compute; reflexivity).
  destruct (read_jsonfile_inv _ _ _ _ Hread)
    as (text & doc & image & bs & Hfile & Hload & _ & _ & Himage & Hdec & Hpng & _).
  exists bs. split; [exact Hpng|].
  vm_compute in Hfile. injection Hfile as <-.
  vm_compute in Hload. injection Hload as <-.
  vm_compute in Himage. injection Himage as <-.
  exact Hdec.
Defined.

Lemma read_jsonfile_rejects_witness :
  RenderedLatexFormula.read_jsonfile Examples.imagemagick "strip.json"
    {[ "strip.json" := Examples.strip_text ]}
  = Raise TypeError
  ∧ RenderedLatexFormula.read_jsonfile Examples.imagemagick "formula.json" ∅
    = Raise (FileNotFoundError "formula.json").
Proof.
  split; [reflexivity|].
  exact (proj1 (read_jsonfile_rejects Examples.imagemagick "formula.json" ∅) eq_refl).
Defined.


Lemma image_info_accessors_witness :
  ∃ info b,
    LatexFormulaRenderer.image_info_of Examples.strip_json = Ok info
    ∧ RenderedLatexFormula.baseline
        (RenderedLatexFormula.mk (PStr "x^2") (PBytes Inputs.png) info (PDict []))
      = Ok (PInt b)
    ∧ 21 ≤ b ≤ 24.
Proof.
  destruct (image_info_accessors Examples.strip_json (PStr "x^2") (PBytes Inputs.png)
              (PDict []) 120 64 40 3) as (info & b & Hinfo & _ & _ & Hb & Hrange & _).
  - unfold Spec.strip_report, Examples.strip_json.
    do 5 eexists. split_and!; reflexivity.
  - lia.
  - lia.
  - lia.
  - discriminate.
  - exists info, b. split; [exact Hinfo|]. split; [exact Hb|]. lia.
Defined.

Lemma latex_render_pdflatex_fails_witness :
  LatexFormulaRenderer.render Inputs.broken_tex LatexFormulaRenderer.default
    Inputs.formula_request
  = Raise (CalledProcessError Inputs.pdflatex_cmd 1).
Proof.
  refine (proj1 (latex_render_pdflatex_fails Inputs.broken_tex
    LatexFormulaRenderer.default Inputs.formula_request Inputs.tex_dir "x^2"
    eq_refl eq_refl) 1 [] [] eq_refl _).
  lia.
Defined.

Lemma latex_render_formula_not_str_witness :
  LatexFormulaRenderer.render Inputs.texlive LatexFormulaRenderer.default
    Inputs.number_request
  = Raise TypeError.
Proof.
  apply (latex_render_formula_not_str Inputs.texlive LatexFormulaRenderer.default
           Inputs.number_request Inputs.tex_dir (PInt 42) eq_refl eq_refl).
  intros f. discriminate.
Defined.

Lemma latex_render_success_witness :
  ∃ result,
    LatexFormulaRenderer.render Inputs.texlive LatexFormulaRenderer.default
      Inputs.formula_request = Ok result
    ∧ result !! "png_data" = Some (PBytes Inputs.png)
    ∧ result !! "info"
      = Some (PDict [ ("width", PInt 120); ("height", PInt 64); ("baseline", PInt 22) ]).
Proof.
  destruct (latex_render_success Inputs.texlive LatexFormulaRenderer.default
              Inputs.formula_request Inputs.tex_dir "x^2"
              (list_byte_of_string Examples.strip_text) Inputs.png
              Examples.strip_json 120 64 40 3 eq_refl eq_refl eq_refl eq_refl
              eq_refl eq_refl)
    as (result & Hr & _ & Hpng & Hinfo).
  - unfold Spec.strip_report, Examples.strip_json.
    do 5 eexists. split_and!; reflexivity.
  - discriminate.
  - reflexivity.
  - exists result. split; [exact Hr|]. split; [exact Hpng|exact Hinfo].
Defined.


Lemma add_file_bad_content_witness :
  ∃ self' w',
    RenderedPresentation.add_file (RenderedPresentation.__init__ "/srv/www")
      Examples.empty_world "count.txt" (PInt 5) = (Raise TypeError, self', w')
    ∧ RenderedPresentation.add_file self' w' "count.txt" (PStr "5") = (Ok tt, self', w')
    ∧ RenderedPresentation.files w' !! "/srv/www/count.txt"
      = Some (RenderedPresentation.Binary []).
Proof.
  destruct (proj1 (add_file_bad_content (RenderedPresentation.__init__ "/srv/www")
              Examples.empty_world "count.txt" (PInt 5) (not_elem_of_empty _))
              (conj eq_refl eq_refl))
    as (self' & w' & Hadd & _ & Hfile & _ & Hnext).
  - intros s. discriminate.
  - intros bs. discriminate.
  - exists self', w'. split; [exact Hadd|]. split; [exact (Hnext _)|exact Hfile].
Defined.

Lemma copy_file_fresh_witness :
  RenderedPresentation.copy_file (RenderedPresentation.__init__ "/srv/www")
    Inputs.disk "/home/me/talk/dog.png" "dog.png"
  = (Raise (FileNotFoundError "/home/me/talk/dog.png"),
     RenderedPresentation.__init__ "/srv/www", Inputs.disk)
  ∧ ∃ self' w',
      RenderedPresentation.copy_file (RenderedPresentation.__init__ "/srv/www")
        Inputs.disk "/home/me/talk/cat.png" "cat.png" = (Ok tt, self', w')
      ∧ RenderedPresentation.files w' !! "/srv/www/cat.png"
        = Some (RenderedPresentation.Binary Inputs.png).
Proof.
  split.
  - refine (proj1 (proj2 (copy_file_fresh (RenderedPresentation.__init__ "/srv/www")
      Inputs.disk "/home/me/talk/dog.png" "dog.png" _)) eq_refl eq_refl).
    apply not_elem_of_empty.
  - destruct (proj2 (proj2 (copy_file_fresh (RenderedPresentation.__init__ "/srv/www")
      Inputs.disk "/home/me/talk/cat.png" "cat.png" (not_elem_of_empty _)))
      Inputs.png eq_refl (conj (conj eq_refl eq_refl) eq_refl))
      as (self' & w' & Hcopy & _ & Hfile & _).
    exists self', w'. split; [exact Hcopy|exact Hfile].
Defined.

Lemma search_file_fails_witness :
  ∃ msg,
    PresentationRenderer.lookup_include Inputs.site Inputs.disk "dog.png"
    = Failed (FailedToLookupFileException msg)
    ∧ Spec.includes msg "dog.png"
    ∧ Spec.includes msg "/home/me/talk".
Proof.
  destruct (proj2 (search_file_fails Inputs.disk "dog.png" [ "/home/me/talk" ]))
    as (msg & Hmsg & Hfile & Hdirs & _).
  - repeat constructor.
  - exists msg. split; [exact Hmsg|]. split; [exact Hfile|].
    exact (Forall_inv Hdirs).
Defined.

Lemma copy_template_file_not_found_witness :
  ∃ msg,
    Presentation.copy_template_file Inputs.site Examples.deployed_index.1 Inputs.disk
      "base/master.html" "index.html"
    = (Failed (FailedToLookupFileException msg), Examples.deployed_index.1, Inputs.disk).
Proof.
  apply (copy_template_file_not_found Inputs.site Examples.deployed_index.1 Inputs.disk
           "base/master.html" "index.html").
  repeat constructor.
Defined.

Lemma copy_template_file_found_witness :
  ∃ self' w',
    Presentation.copy_template_file Inputs.site (RenderedPresentation.__init__ "/srv/www")
      Inputs.disk "dark/logo.svg" "logo.svg" = (Done tt, self', w')
    ∧ RenderedPresentation.files w' !! "/srv/www/logo.svg"
      = Some (RenderedPresentation.Binary (list_byte_of_string "<svg>me</svg>")).
Proof.
  eexists _, _. split; [reflexivity|].
  match goal with
  | |- RenderedPresentation.files ?w !! _ = _ => set (w' := w)
  end.
  destruct (proj2 (proj2 (copy_template_file_found Inputs.site
              (RenderedPresentation.__init__ "/srv/www") Inputs.disk
              "dark/logo.svg" "logo.svg" "/home/me/templates/dark/logo.svg" eq_refl)
              (not_elem_of_empty _)) _ w' eq_refl)
    as (bs & Hbs & _ & Hfile).
  vm_compute in Hbs. injection Hbs as <-. exact Hfile.
Defined.

Lemma render_files_pybeamer_js_witness :
  RenderedPresentation.files (Presentation.render_files Inputs.site "/srv/www" Inputs.disk).2
    !! "/srv/www/pybeamer.js"
  = Some (RenderedPresentation.Binary (list_byte_of_string "base();")).
Proof.
  set (first := Presentation.copy_template_file Inputs.site
                  (RenderedPresentation.__init__ "/srv/www") Inputs.disk
                  "base/pybeamer.js" "pybeamer.js").
  assert (first = (Done tt, first.1.2, first.2)) as Hcopy by reflexivity.
  destruct (render_files_pybeamer_js Inputs.site "/srv/www"
              "/usr/share/pybeamer/base/pybeamer.js" Inputs.disk _ _ eq_refl Hcopy)
    as (bs & Hbs & Hfile).
  - apply Forall_cons. split; [right; intros H; vm_compute in H; discriminate H|].
    apply Forall_cons. split; [by left|].
    apply Forall_cons. split; [right; intros H; vm_compute in H; discriminate H|].
    apply Forall_nil. exact I.
  - vm_compute in Hbs. injection Hbs as <-. exact Hfile.
Defined.

Lemma render_files_done_witness :
  (Presentation.render_files Inputs.site "/srv/www" Inputs.disk).1.1 = Done tt
  ∧ Presentation._css (Presentation.render_files Inputs.site "/srv/www" Inputs.disk).1.2
    = list_to_set [ "dark.css" ]
  ∧ "logo.svg"
    ∈ RenderedPresentation._added_files
        (Presentation.deployment
           (Presentation.render_files Inputs.site "/srv/www" Inputs.disk).1.2).
Proof.
  assert (Presentation.render_files Inputs.site "/srv/www" Inputs.disk
          = (Done tt,
             (Presentation.render_files Inputs.site "/srv/www" Inputs.disk).1.2,
             (Presentation.render_files Inputs.site "/srv/www" Inputs.disk).2)) as Hrun
    by (vm_compute; reflexivity).
  destruct (render_files_done Inputs.site "/srv/www" Inputs.disk _ _ Hrun) as [Hcss Hin].
  split; [by rewrite Hrun|]. split; [exact Hcss|].
  apply Hin. right. left.
Defined.

Lemma img_handle_done_witness :
  (ImgHook.handle Inputs.cat_renderer Examples.unix Inputs.site
     (RenderedPresentation.__init__ "/srv/www") Inputs.disk 0%nat Inputs.cat_node).1.1.1
  = Done (Dom.Element "div" (<[ "class" := "fillimg" ]> ∅)
            [ Dom.Element "img"
                (<[ "class" := "fill" ]> (<[ "src" := "imgs/img/0c4f.png" ]> ∅)) [] ])
  ∧ RenderedPresentation.files
      (ImgHook.handle Inputs.cat_renderer Examples.unix Inputs.site
         (RenderedPresentation.__init__ "/srv/www") Inputs.disk 0%nat Inputs.cat_node).1.2
      !! "/srv/www/imgs/img/0c4f.png"
    = Some (RenderedPresentation.Binary Inputs.png).
Proof.
  set (out := ImgHook.handle Inputs.cat_renderer Examples.unix Inputs.site
                (RenderedPresentation.__init__ "/srv/www") Inputs.disk 0%nat
                Inputs.cat_node).
  assert (out = (Done (ImgHook.replacement "imgs/img/0c4f.png"),
                 out.1.1.2, out.1.2, out.2)) as Hout by (vm_compute; reflexivity).
  destruct (img_handle_done _ _ _ _ _ _ _ _ _ _ _ Hout)
    as (src & path & a & ext & data & _ & _ & Himg & Hext & Hdata & _ & _ & Hfile & _).
  split; [by rewrite Hout|].
  vm_compute in Himg. injection Himg as <-.
  vm_compute in Hext. injection Hext as <-.
  vm_compute in Hdata. injection Hdata as <-.
  apply Hfile. apply not_elem_of_empty.
Defined.

Lemma img_handle_fails_witness :
  (∃ msg,
     ImgHook.handle Inputs.cat_renderer Examples.unix Inputs.site
       (RenderedPresentation.__init__ "/srv/www") Inputs.disk 0%nat Inputs.dog_node
     = (Failed (FailedToLookupFileException msg),
        RenderedPresentation.__init__ "/srv/www", Inputs.disk, 0%nat))
  ∧ ∃ e,
      ImgHook.handle Inputs.blind_renderer Examples.unix Inputs.site
        (RenderedPresentation.__init__ "/srv/www") Inputs.disk 0%nat Inputs.cat_node
      = (Failed (Python e), RenderedPresentation.__init__ "/srv/www", Inputs.disk, 1%nat).
Proof.
  split.
  - apply (proj1 (img_handle_fails Inputs.cat_renderer Examples.unix Inputs.site
             (RenderedPresentation.__init__ "/srv/www") Inputs.disk 0%nat
             Inputs.dog_node "dog.png" eq_refl)).
    repeat constructor.
  - eexists.
    exact (proj2 (img_handle_fails Inputs.blind_renderer Examples.unix Inputs.site
             (RenderedPresentation.__init__ "/srv/www") Inputs.disk 0%nat
             Inputs.cat_node "cat.png" eq_refl) "/home/me/talk/cat.png" _ 1%nat
             eq_refl eq_refl).
Defined.
